(** * Bisquitt: an MQTT-SN v1.2 to MQTT v3.1.1 gateway

    A shallow embedding of the per-client session handler of the gateway
    (package [gateway]), of the transaction kernel it is built on (package
    [transactions]), of the MQTT-SN message codec (package [messages]) and of
    two transactions of the MQTT-SN client library (package [client]),
    followed by the properties of the specification proved about them.

    Conventions of the embedding.
    - Go's [uint8] and [uint16] are [Z]; where a value is narrowed
      ([byte(x)], [uint16(x)]) the wrap-around is written out.
    - Go's [[]byte] is [list byte]; Go's [string] is [string]; the
      conversions [string(b)] and [[]byte(s)] are [string_of_list_byte] and
      [list_byte_of_string].
    - A Go [error] is a value of the inductive type [error]; the [nil] error
      is [None].
    - A method with a pointer receiver that reads or writes the handler is a
      computation in the monad [M handler]: explicit state passing, with
      [None] for a Go run-time panic.
    - Objects that the Go code shares by pointer (transactions held in the
      table, by a timer and by a watcher task) live in a heap inside the
      handler and are referred to by their address ([txref]).
    - Closures stored in objects (finalizers, resend functions, tasks handed
      to the error group) are defunctionalised: a constructor per closure and
      an interpreter next to the kernel. *)

From Stdlib Require Import ZArith String Ascii List Bool Lia.
From Stdlib Require Import Strings.Byte.
From stdpp Require Import base option list gmap strings.
Import ListNotations.
Local Open Scope Z_scope.

Definition uint8 := Z.
Definition uint16 := Z.

(** Go's [[]byte]. *)
Definition bytes := list byte.

(* ===================================================================== *)
(** * The state-and-panic monad                                           *)
(* ===================================================================== *)

(** [M S A]: a computation over a mutable object of type [S] returning an
    [A]; [None] is a Go run-time panic (failed type assertion, nil
    dereference, index out of range). *)
Definition M (S A : Type) : Type := S -> option (A * S).

Definition ret {S A} (a : A) : M S A := fun s => Some (a, s).

Definition bind {S A B} (m : M S A) (k : A -> M S B) : M S B :=
  fun s => match m s with
           | Some (a, s') => k a s'
           | None => None
           end.

Definition get {S} : M S S := fun s => Some (s, s).
Definition gets {S A} (f : S -> A) : M S A := fun s => Some (f s, s).
Definition modify {S} (f : S -> S) : M S unit := fun s => Some (tt, f s).
Definition panic {S A} : M S A := fun _ => None.

Declare Scope go_scope.
Delimit Scope go_scope with go.
Notation "x <- m ;; k" := (bind m (fun x => k))
  (at level 100, m at next level, right associativity) : go_scope.
Notation "m ;;; k" := (bind m (fun _ => k))
  (at level 100, right associativity) : go_scope.
Local Open Scope go_scope.

(** The final object of a computation that did not panic. *)
Definition exec {S A} (m : M S A) (s : S) : option S :=
  match m s with Some (_, s') => Some s' | None => None end.

(* ===================================================================== *)
(** * Errors                                                              *)
(* ===================================================================== *)

(** The error values the embedded code creates.  An error built by
    [fmt.Errorf] is a constructor holding the arguments of the format. *)
Inductive error :=
| Cancelled
    (* var Cancelled = errors.New("transaction cancelled") *)
| ErrConnectRefused (returnCode : uint8)
    (* "CONNECT refused by MQTT broker with return code %d (%s)." *)
| ErrUnknownAuthMethod (method : uint8)
    (* "Unknown auth method: %#v." *)
| ErrRegackReturnCode (returnCode : uint8)
    (* "REGACK return code: %d" *)
| ErrPubackReturnCode (returnCode : uint8)
| ErrInvalidMessageType
    (* "invalid message type (%T): %v" *)
| ErrTransaction (tag : string) (cause : error)
    (* "CONNECT: %s" *)
| ErrInvalidPlainData
| ErrExpired
| ErrNoMoreRetries
| ErrIllegalMessage (msgType : uint8)
| ErrTopicIDsExhausted
| ErrSubackReturnCodes (count : Z)
| ErrUnknownTopic
| ErrWrite (conn : string)
| ErrShortRead
| ErrUnknownMessageType (msgType : uint8)
| Shutdown
    (* the value that ends the handler after a DISCONNECT of the client *).

(** Go's [error]: [None] is [nil]. *)
Definition err := option error.

(* ===================================================================== *)
(** * Package [messages]: constants and message structures                *)
(* ===================================================================== *)

Module messages.

(** ** Constants *)

Definition MessageType := uint8.

Definition ADVERTISE     : MessageType := 0x00.
Definition SEARCHGW      : MessageType := 0x01.
Definition GWINFO        : MessageType := 0x02.
Definition AUTH          : MessageType := 0x03.
Definition CONNECT       : MessageType := 0x04.
Definition CONNACK       : MessageType := 0x05.
Definition WILLTOPICREQ  : MessageType := 0x06.
Definition WILLTOPIC     : MessageType := 0x07.
Definition WILLMSGREQ    : MessageType := 0x08.
Definition WILLMSG       : MessageType := 0x09.
Definition REGISTER      : MessageType := 0x0A.
Definition REGACK        : MessageType := 0x0B.
Definition PUBLISH       : MessageType := 0x0C.
Definition PUBACK        : MessageType := 0x0D.
Definition PUBCOMP       : MessageType := 0x0E.
Definition PUBREC        : MessageType := 0x0F.
Definition PUBREL        : MessageType := 0x10.
Definition SUBSCRIBE     : MessageType := 0x12.
Definition SUBACK        : MessageType := 0x13.
Definition UNSUBSCRIBE   : MessageType := 0x14.
Definition UNSUBACK      : MessageType := 0x15.
Definition PINGREQ       : MessageType := 0x16.
Definition PINGRESP      : MessageType := 0x17.
Definition DISCONNECT    : MessageType := 0x18.
Definition WILLTOPICUPD  : MessageType := 0x1A.
Definition WILLTOPICRESP : MessageType := 0x1B.
Definition WILLMSGUPD    : MessageType := 0x1C.
Definition WILLMSGRESP   : MessageType := 0x1D.

(** [type ReturnCode uint8]: one wire byte ([byte(m.ReturnCode)] in
    [PubackMessage.Write]). *)
Definition ReturnCode := uint8.
Definition RC_ACCEPTED         : ReturnCode := 0.
Definition RC_CONGESTION       : ReturnCode := 1.
Definition RC_INVALID_TOPIC_ID : ReturnCode := 2.
Definition RC_NOT_SUPPORTED    : ReturnCode := 3.

(** Topic-id types: two bits on the wire.  [TIT_STRING] is the name the
    same value has in SUBSCRIBE and UNSUBSCRIBE. *)
Definition TIT_REGISTERED : uint8 := 0.
Definition TIT_STRING     : uint8 := 0.
Definition TIT_PREDEFINED : uint8 := 1.
Definition TIT_SHORT      : uint8 := 2.

Definition MinTopicID : uint16 := 1.
Definition MaxTopicID : uint16 := 65534.
Definition MinMessageID : uint16 := 1.
Definition MaxMessageID : uint16 := 65535.

(** Authentication methods of the AUTH extension. *)
Definition AUTH_PLAIN : uint8 := 0.

(** ** Header *)

(** The fixed part of every packet: [[Length][MsgType]].  The structure
    keeps the length of the variable part; the length on the wire counts the
    whole packet. *)
Record Header := mkHeader {
  msgType : MessageType;
  varPartLength : uint16
}.

Definition NewHeader (t : MessageType) (varPartLength : uint16) : Header :=
  mkHeader t varPartLength.

(** ** Message structures

    Every structure embeds [Header]; structures with a message id embed
    [MessageIDProperty] (the field [messageID]), PUBLISH and SUBSCRIBE embed
    [DUPProperty] (the field [dup]). *)

Record AdvertiseMessage := mkAdvertise {
  advertise_Header : Header;
  advertise_GatewayID : uint8;
  advertise_Duration : uint16
}.

Record SearchGwMessage := mkSearchGw {
  searchgw_Header : Header;
  searchgw_Radius : uint8
}.

Record GwInfoMessage := mkGwInfo {
  gwinfo_Header : Header;
  gwinfo_GatewayID : uint8;
  gwinfo_GatewayAddress : bytes
}.

Record AuthMessage := mkAuth {
  auth_Header : Header;
  auth_Method : uint8;
  auth_Data : bytes
}.

Record ConnectMessage := mkConnect {
  connect_Header : Header;
  connect_Will : bool;
  connect_CleanSession : bool;
  connect_ProtocolID : uint8;
  connect_Duration : uint16;
  connect_ClientID : bytes
}.

Record ConnackMessage := mkConnack {
  connack_Header : Header;
  connack_ReturnCode : ReturnCode
}.

Record WillTopicReqMessage := mkWillTopicReq {
  willtopicreq_Header : Header
}.

Record WillTopicMessage := mkWillTopic {
  willtopic_Header : Header;
  willtopic_QOS : uint8;
  willtopic_Retain : bool;
  willtopic_WillTopic : string
}.

Record WillMsgReqMessage := mkWillMsgReq {
  willmsgreq_Header : Header
}.

Record WillMsgMessage := mkWillMsg {
  willmsg_Header : Header;
  willmsg_WillMsg : bytes
}.

Record RegisterMessage := mkRegister {
  register_Header : Header;
  register_messageID : uint16;
  register_TopicID : uint16;
  register_TopicName : string
}.

Record RegackMessage := mkRegack {
  regack_Header : Header;
  regack_messageID : uint16;
  regack_TopicID : uint16;
  regack_ReturnCode : ReturnCode
}.

Record PublishMessage := mkPublish {
  publish_Header : Header;
  publish_messageID : uint16;
  publish_dup : bool;
  publish_Retain : bool;
  publish_QOS : uint8;
  publish_TopicIDType : uint8;
  publish_TopicID : uint16;
  publish_Data : bytes
}.

Record PubackMessage := mkPuback {
  puback_Header : Header;
  puback_messageID : uint16;
  puback_TopicID : uint16;
  puback_ReturnCode : ReturnCode
}.

Record PubcompMessage := mkPubcomp {
  pubcomp_Header : Header;
  pubcomp_messageID : uint16
}.

Record PubrecMessage := mkPubrec {
  pubrec_Header : Header;
  pubrec_messageID : uint16
}.

Record PubrelMessage := mkPubrel {
  pubrel_Header : Header;
  pubrel_messageID : uint16
}.

Record SubscribeMessage := mkSubscribe {
  subscribe_Header : Header;
  subscribe_messageID : uint16;
  subscribe_dup : bool;
  subscribe_QOS : uint8;
  subscribe_TopicIDType : uint8;
  subscribe_TopicID : uint16;
  subscribe_TopicName : bytes
}.

Record SubackMessage := mkSuback {
  suback_Header : Header;
  suback_messageID : uint16;
  suback_QOS : uint8;
  suback_ReturnCode : ReturnCode;
  suback_TopicID : uint16
}.

Record UnsubscribeMessage := mkUnsubscribe {
  unsubscribe_Header : Header;
  unsubscribe_messageID : uint16;
  unsubscribe_TopicIDType : uint8;
  unsubscribe_TopicID : uint16;
  unsubscribe_TopicName : bytes
}.

Record UnsubackMessage := mkUnsuback {
  unsuback_Header : Header;
  unsuback_messageID : uint16
}.

Record PingreqMessage := mkPingreq {
  pingreq_Header : Header;
  pingreq_ClientID : bytes
}.

Record PingrespMessage := mkPingresp {
  pingresp_Header : Header
}.

Record DisconnectMessage := mkDisconnect {
  disconnect_Header : Header;
  disconnect_Duration : uint16
}.

Record WillTopicUpdateMessage := mkWillTopicUpdate {
  willtopicupd_Header : Header;
  willtopicupd_QOS : uint8;
  willtopicupd_Retain : bool;
  willtopicupd_WillTopic : bytes
}.

Record WillTopicRespMessage := mkWillTopicResp {
  willtopicresp_Header : Header;
  willtopicresp_ReturnCode : ReturnCode
}.

Record WillMsgUpdateMessage := mkWillMsgUpdate {
  willmsgupd_Header : Header;
  willmsgupd_WillMsg : bytes
}.

Record WillMsgRespMessage := mkWillMsgResp {
  willmsgresp_Header : Header;
  willmsgresp_ReturnCode : ReturnCode
}.

(** The interface [Message]: one constructor per implementing structure. *)
Inductive Message :=
| MAdvertise (m : AdvertiseMessage)
| MSearchGw (m : SearchGwMessage)
| MGwInfo (m : GwInfoMessage)
| MAuth (m : AuthMessage)
| MConnect (m : ConnectMessage)
| MConnack (m : ConnackMessage)
| MWillTopicReq (m : WillTopicReqMessage)
| MWillTopic (m : WillTopicMessage)
| MWillMsgReq (m : WillMsgReqMessage)
| MWillMsg (m : WillMsgMessage)
| MRegister (m : RegisterMessage)
| MRegack (m : RegackMessage)
| MPublish (m : PublishMessage)
| MPuback (m : PubackMessage)
| MPubcomp (m : PubcompMessage)
| MPubrec (m : PubrecMessage)
| MPubrel (m : PubrelMessage)
| MSubscribe (m : SubscribeMessage)
| MSuback (m : SubackMessage)
| MUnsubscribe (m : UnsubscribeMessage)
| MUnsuback (m : UnsubackMessage)
| MPingreq (m : PingreqMessage)
| MPingresp (m : PingrespMessage)
| MDisconnect (m : DisconnectMessage)
| MWillTopicUpdate (m : WillTopicUpdateMessage)
| MWillTopicResp (m : WillTopicRespMessage)
| MWillMsgUpdate (m : WillMsgUpdateMessage)
| MWillMsgResp (m : WillMsgRespMessage).

(** ** Constructors

    The header a constructor installs carries the length of the variable
    part of the message it builds. *)

Definition blen (b : bytes) : Z := Z.of_nat (length b).
Definition slen (s : string) : Z := Z.of_nat (String.length s).

Definition pubackVarPartLength : uint16 := 5.

Definition NewAdvertiseMessage (gatewayID : uint8) (duration : uint16) : AdvertiseMessage :=
  mkAdvertise (NewHeader ADVERTISE 3) gatewayID duration.

Definition NewSearchGwMessage (radius : uint8) : SearchGwMessage :=
  mkSearchGw (NewHeader SEARCHGW 1) radius.

Definition NewGwInfoMessage (gatewayID : uint8) (gatewayAddress : bytes) : GwInfoMessage :=
  mkGwInfo (NewHeader GWINFO (1 + blen gatewayAddress)) gatewayID gatewayAddress.

Definition NewAuthMessage (method : uint8) (data : bytes) : AuthMessage :=
  mkAuth (NewHeader AUTH (1 + blen data)) method data.

Definition NewConnectMessage (clientID : bytes) (cleanSession will : bool)
    (duration : uint16) : ConnectMessage :=
  mkConnect (NewHeader CONNECT (4 + blen clientID)) will cleanSession 1 duration clientID.

Definition NewConnackMessage (returnCode : ReturnCode) : ConnackMessage :=
  mkConnack (NewHeader CONNACK 1) returnCode.

Definition NewWillTopicReqMessage : WillTopicReqMessage :=
  mkWillTopicReq (NewHeader WILLTOPICREQ 0).

Definition NewWillTopicMessage (willTopic : string) (qos : uint8) (retain : bool)
    : WillTopicMessage :=
  mkWillTopic (NewHeader WILLTOPIC (1 + slen willTopic)) qos retain willTopic.

Definition NewWillMsgReqMessage : WillMsgReqMessage :=
  mkWillMsgReq (NewHeader WILLMSGREQ 0).

Definition NewWillMsgMessage (willMsg : bytes) : WillMsgMessage :=
  mkWillMsg (NewHeader WILLMSG (blen willMsg)) willMsg.

Definition NewRegisterMessage (topicID : uint16) (topicName : string) : RegisterMessage :=
  mkRegister (NewHeader REGISTER (4 + slen topicName)) 0 topicID topicName.

Definition NewRegackMessage (topicID : uint16) (returnCode : ReturnCode) : RegackMessage :=
  mkRegack (NewHeader REGACK 5) 0 topicID returnCode.

Definition NewPublishMessage (topicID : uint16) (topicIDType : uint8) (payload : bytes)
    (qos : uint8) (retain dup : bool) : PublishMessage :=
  mkPublish (NewHeader PUBLISH (5 + blen payload)) 0 dup retain qos topicIDType topicID payload.

Definition NewPubackMessage (topicID : uint16) (returnCode : ReturnCode) : PubackMessage :=
  mkPuback (NewHeader PUBACK pubackVarPartLength) 0 topicID returnCode.

Definition NewPubcompMessage : PubcompMessage := mkPubcomp (NewHeader PUBCOMP 2) 0.
Definition NewPubrecMessage : PubrecMessage := mkPubrec (NewHeader PUBREC 2) 0.
Definition NewPubrelMessage : PubrelMessage := mkPubrel (NewHeader PUBREL 2) 0.

(** In SUBSCRIBE and UNSUBSCRIBE the topic is a name for [TIT_STRING] and a
    two-byte topic id for the other two types. *)
Definition topicFieldLength (topicIDType : uint8) (topicName : bytes) : Z :=
  if decide (topicIDType = TIT_STRING) then blen topicName else 2.

Definition NewSubscribeMessage (topicID : uint16) (topicIDType : uint8) (topicName : bytes)
    (qos : uint8) (dup : bool) : SubscribeMessage :=
  mkSubscribe (NewHeader SUBSCRIBE (3 + topicFieldLength topicIDType topicName))
    0 dup qos topicIDType topicID topicName.

Definition NewSubackMessage (topicID : uint16) (returnCode : ReturnCode) (qos : uint8)
    : SubackMessage :=
  mkSuback (NewHeader SUBACK 6) 0 qos returnCode topicID.

Definition NewUnsubscribeMessage (topicID : uint16) (topicIDType : uint8) (topicName : bytes)
    : UnsubscribeMessage :=
  mkUnsubscribe (NewHeader UNSUBSCRIBE (3 + topicFieldLength topicIDType topicName))
    0 topicIDType topicID topicName.

Definition NewUnsubackMessage : UnsubackMessage := mkUnsuback (NewHeader UNSUBACK 2) 0.

Definition NewPingreqMessage (clientID : bytes) : PingreqMessage :=
  mkPingreq (NewHeader PINGREQ (blen clientID)) clientID.

Definition NewPingrespMessage : PingrespMessage := mkPingresp (NewHeader PINGRESP 0).

(** A DISCONNECT without sleep duration has an empty variable part. *)
Definition disconnectVarPartLength (duration : uint16) : Z :=
  if decide (duration = 0) then 0 else 2.

Definition NewDisconnectMessage (duration : uint16) : DisconnectMessage :=
  mkDisconnect (NewHeader DISCONNECT (disconnectVarPartLength duration)) duration.

Definition NewWillTopicUpdateMessage (willTopic : bytes) (qos : uint8) (retain : bool)
    : WillTopicUpdateMessage :=
  mkWillTopicUpdate (NewHeader WILLTOPICUPD (1 + blen willTopic)) qos retain willTopic.

Definition NewWillTopicRespMessage (returnCode : ReturnCode) : WillTopicRespMessage :=
  mkWillTopicResp (NewHeader WILLTOPICRESP 1) returnCode.

Definition NewWillMsgUpdateMessage (willMsg : bytes) : WillMsgUpdateMessage :=
  mkWillMsgUpdate (NewHeader WILLMSGUPD (blen willMsg)) willMsg.

Definition NewWillMsgRespMessage (returnCode : ReturnCode) : WillMsgRespMessage :=
  mkWillMsgResp (NewHeader WILLMSGRESP 1) returnCode.

(** ** [MessageIDProperty] and [DUPProperty] *)

Definition publish_SetMessageID (id : uint16) (m : PublishMessage) : PublishMessage :=
  mkPublish (publish_Header m) id (publish_dup m) (publish_Retain m) (publish_QOS m)
    (publish_TopicIDType m) (publish_TopicID m) (publish_Data m).

Definition publish_SetDUP (dup : bool) (m : PublishMessage) : PublishMessage :=
  mkPublish (publish_Header m) (publish_messageID m) dup (publish_Retain m) (publish_QOS m)
    (publish_TopicIDType m) (publish_TopicID m) (publish_Data m).

Definition subscribe_SetMessageID (id : uint16) (m : SubscribeMessage) : SubscribeMessage :=
  mkSubscribe (subscribe_Header m) id (subscribe_dup m) (subscribe_QOS m)
    (subscribe_TopicIDType m) (subscribe_TopicID m) (subscribe_TopicName m).

Definition subscribe_SetDUP (dup : bool) (m : SubscribeMessage) : SubscribeMessage :=
  mkSubscribe (subscribe_Header m) (subscribe_messageID m) dup (subscribe_QOS m)
    (subscribe_TopicIDType m) (subscribe_TopicID m) (subscribe_TopicName m).

Definition suback_SetMessageID (id : uint16) (m : SubackMessage) : SubackMessage :=
  mkSuback (suback_Header m) id (suback_QOS m) (suback_ReturnCode m) (suback_TopicID m).

Definition puback_SetMessageID (id : uint16) (m : PubackMessage) : PubackMessage :=
  mkPuback (puback_Header m) id (puback_TopicID m) (puback_ReturnCode m).

Definition regack_SetMessageID (id : uint16) (m : RegackMessage) : RegackMessage :=
  mkRegack (regack_Header m) id (regack_TopicID m) (regack_ReturnCode m).

Definition register_SetMessageID (id : uint16) (m : RegisterMessage) : RegisterMessage :=
  mkRegister (register_Header m) id (register_TopicID m) (register_TopicName m).

Definition pubrec_SetMessageID (id : uint16) (m : PubrecMessage) : PubrecMessage :=
  mkPubrec (pubrec_Header m) id.

Definition pubrel_SetMessageID (id : uint16) (m : PubrelMessage) : PubrelMessage :=
  mkPubrel (pubrel_Header m) id.

Definition pubcomp_SetMessageID (id : uint16) (m : PubcompMessage) : PubcompMessage :=
  mkPubcomp (pubcomp_Header m) id.

(** [msg.(MessageWithDUP)] succeeds for PUBLISH and SUBSCRIBE only; this is
    [SetDUP] through that interface, the identity on every other message. *)
Definition SetDUP (dup : bool) (m : Message) : Message :=
  match m with
  | MPublish p => MPublish (publish_SetDUP dup p)
  | MSubscribe s => MSubscribe (subscribe_SetDUP dup s)
  | _ => m
  end.

(** ** Short topics and the PLAIN authentication data *)

Definition byte_of_Z (z : Z) : byte :=
  match Byte.of_N (Z.to_N (z mod 256)) with
  | Some b => b
  | None => x00
  end.

Definition Z_of_byte (b : byte) : Z := Z.of_N (Byte.to_N b).

(** Modelled from the spec: [EncodeShortTopic] and [DecodeShortTopic] of
    package messages are not under src.  "Short: two ASCII characters packed
    into the 16-bit field; no registry entry needed; the codec is pure." *)
Definition EncodeShortTopic (topic : string) : uint16 :=
  match list_byte_of_string topic with
  | [a; b] => Z.lor (Z.shiftl (Z_of_byte a) 8) (Z_of_byte b)
  | _ => 0
  end.

Definition DecodeShortTopic (topicID : uint16) : string :=
  string_of_list_byte
    [byte_of_Z (Z.shiftr topicID 8); byte_of_Z (Z.land topicID 255)].

Definition IsShortTopic (topic : string) : bool :=
  bool_decide (String.length topic = 2%nat).

(** Modelled from the spec: [NewAuthPlain] and [DecodePlain] of package
    messages are not under src.  "custom AUTH (method byte + data; PLAIN
    method = \0username\0password)". *)
Definition NewAuthPlain (user : string) (password : bytes) : AuthMessage :=
  NewAuthMessage AUTH_PLAIN (x00 :: list_byte_of_string user ++ x00 :: password).

(** The bytes before the first zero byte, and the bytes after it. *)
Fixpoint splitAtZero (b : bytes) : option (bytes * bytes) :=
  match b with
  | [] => None
  | c :: b' =>
      if Byte.eqb c x00 then Some ([], b')
      else match splitAtZero b' with
           | Some (u, p) => Some (c :: u, p)
           | None => None
           end
  end.

Definition DecodePlain (m : AuthMessage) : (string * bytes) + error :=
  match auth_Data m with
  | z :: rest =>
      if Byte.eqb z x00 then
        match splitAtZero rest with
        | Some (user, password) => inl (string_of_list_byte user, password)
        | None => inr ErrInvalidPlainData
        end
      else inr ErrInvalidPlainData
  | [] => inr ErrInvalidPlainData
  end.


(** ** The wire format

    A reader ([io.Reader]) is the list of the bytes it still holds; reading
    is a computation on it.  A read returns the value and the error, as the
    Go functions do. *)

Abbreviation R := (M bytes).

Definition is_uint8 (z : Z) : Prop := 0 <= z < 256.
Definition is_uint16 (z : Z) : Prop := 0 <= z < 65536.

(** Modelled from the spec: [encodeUint16], [readUint16], [readByte] and the
    methods of [Header] are not under src.  Integers are big-endian.
    "Frame = [Length][MsgType][VariablePart]. Length is 1 byte if <256 else
    0x01 followed by 2-byte big-endian length (total length includes the
    length bytes). MsgType is 1 byte." *)
Definition encodeUint16 (v : uint16) : bytes :=
  [byte_of_Z (v / 256); byte_of_Z v].

Definition readByte : R (uint8 * err) :=
  fun r => match r with
           | b :: r' => Some ((Z_of_byte b, None), r')
           | [] => Some ((0, Some ErrShortRead), [])
           end.

Definition readUint16 : R (uint16 * err) :=
  fun r => match r with
           | hi :: lo :: r' => Some ((256 * Z_of_byte hi + Z_of_byte lo, None), r')
           | _ => Some ((0, Some ErrShortRead), [])
           end.

(** The bytes that remain of the variable part. *)
Definition readRest : R (bytes * err) :=
  fun r => Some ((r, None), []).

(** A read whose error ends the function that makes it, which then returns
    [m] as it is and the error. *)
Definition orReturn {A B} (m : B) (read : R (A * err)) (k : A -> R (B * err))
    : R (B * err) :=
  x <- read ;;
  match snd x with
  | Some e => ret (m, Some e)
  | None => k (fst x)
  end.

Definition shortHeaderLength : Z := 2.
Definition longHeaderLength : Z := 4.

(** The length of the whole packet. *)
Definition MessageLength (h : Header) : uint16 :=
  if decide (varPartLength h + shortHeaderLength < 256)
  then varPartLength h + shortHeaderLength
  else varPartLength h + longHeaderLength.

Definition Header_pack (h : Header) : bytes :=
  if decide (varPartLength h + shortHeaderLength < 256)
  then [byte_of_Z (MessageLength h); byte_of_Z (msgType h)]
  else x01 :: encodeUint16 (MessageLength h) ++ [byte_of_Z (msgType h)].

Definition Header_Unpack : R (Header * err) :=
  orReturn (mkHeader 0 0) readByte (fun l =>
  if decide (l = 1) then
    orReturn (mkHeader 0 0) readUint16 (fun total =>
    orReturn (mkHeader 0 0) readByte (fun t =>
    if decide (total < longHeaderLength) then ret (mkHeader t 0, Some ErrShortRead)
    else ret (mkHeader t (total - longHeaderLength), None)))
  else
    orReturn (mkHeader 0 0) readByte (fun t =>
    if decide (l < shortHeaderLength) then ret (mkHeader t 0, Some ErrShortRead)
    else ret (mkHeader t (l - shortHeaderLength), None))).

(** The flags byte: "DUP, QoS (2 bits; 0,1,2 or 3 meaning -1), Retain, Will,
    CleanSession, TopicIdType (2 bits)", from the most significant bit. *)
Record Flags := mkFlags {
  flag_DUP : bool;
  flag_QOS : uint8;
  flag_Retain : bool;
  flag_Will : bool;
  flag_CleanSession : bool;
  flag_TopicIDType : uint8
}.

Definition bit (b : bool) (mask : Z) : Z := if b then mask else 0.

Definition encodeFlags (f : Flags) : uint8 :=
  Z.lor (bit (flag_DUP f) 0x80)
    (Z.lor (Z.shiftl (Z.land (flag_QOS f) 3) 5)
       (Z.lor (bit (flag_Retain f) 0x10)
          (Z.lor (bit (flag_Will f) 0x08)
             (Z.lor (bit (flag_CleanSession f) 0x04)
                (Z.land (flag_TopicIDType f) 3))))).

Definition decodeFlags (b : uint8) : Flags :=
  mkFlags (Z.testbit b 7) (Z.land (Z.shiftr b 5) 3) (Z.testbit b 4) (Z.testbit b 3)
    (Z.testbit b 2) (Z.land b 3).

(** ** PUBACK (puback.go) *)

Definition puback_Write (m : PubackMessage) : bytes :=
  Header_pack (puback_Header m)
  ++ encodeUint16 (puback_TopicID m)
  ++ encodeUint16 (puback_messageID m)
  ++ [byte_of_Z (puback_ReturnCode m)].

Definition puback_Unpack (m : PubackMessage) : R (PubackMessage * err) :=
  x <- readUint16 ;;
  let m := mkPuback (puback_Header m) (puback_messageID m) (fst x) (puback_ReturnCode m) in
  match snd x with
  | Some e => ret (m, Some e)
  | None =>
      y <- readUint16 ;;
      let m := mkPuback (puback_Header m) (fst y) (puback_TopicID m) (puback_ReturnCode m) in
      match snd y with
      | Some e => ret (m, Some e)
      | None =>
          z <- readByte ;;
          ret (mkPuback (puback_Header m) (puback_messageID m) (puback_TopicID m) (fst z),
               snd z)
      end
  end.

(** ** The other messages

    Modelled from the spec: of the codec only puback.go is under src.  The
    tests under src give the constructors and the fields of the structures;
    "Field formats follow MQTT-SN 1.2".  Every [Write] packs the header and
    then the fields in the order of the protocol; every [Unpack] reads them
    back into the structure [NewMessageWithHeader] made. *)

Definition advertise_Write (m : AdvertiseMessage) : bytes :=
  Header_pack (advertise_Header m)
  ++ [byte_of_Z (advertise_GatewayID m)]
  ++ encodeUint16 (advertise_Duration m).

Definition advertise_Unpack (m : AdvertiseMessage) : R (AdvertiseMessage * err) :=
  orReturn m readByte (fun x1 =>
  let m := mkAdvertise (advertise_Header m) x1 (advertise_Duration m) in
  orReturn m readUint16 (fun x2 =>
  let m := mkAdvertise (advertise_Header m) (advertise_GatewayID m) x2 in
  ret (m, None))).

Definition searchgw_Write (m : SearchGwMessage) : bytes :=
  Header_pack (searchgw_Header m)
  ++ [byte_of_Z (searchgw_Radius m)].

Definition searchgw_Unpack (m : SearchGwMessage) : R (SearchGwMessage * err) :=
  orReturn m readByte (fun x1 =>
  let m := mkSearchGw (searchgw_Header m) x1 in
  ret (m, None)).

Definition gwinfo_Write (m : GwInfoMessage) : bytes :=
  Header_pack (gwinfo_Header m)
  ++ [byte_of_Z (gwinfo_GatewayID m)]
  ++ gwinfo_GatewayAddress m.

Definition gwinfo_Unpack (m : GwInfoMessage) : R (GwInfoMessage * err) :=
  orReturn m readByte (fun x1 =>
  let m := mkGwInfo (gwinfo_Header m) x1 (gwinfo_GatewayAddress m) in
  orReturn m readRest (fun x2 =>
  let m := mkGwInfo (gwinfo_Header m) (gwinfo_GatewayID m) x2 in
  ret (m, None))).

Definition auth_Write (m : AuthMessage) : bytes :=
  Header_pack (auth_Header m)
  ++ [byte_of_Z (auth_Method m)]
  ++ auth_Data m.

Definition auth_Unpack (m : AuthMessage) : R (AuthMessage * err) :=
  orReturn m readByte (fun x1 =>
  let m := mkAuth (auth_Header m) x1 (auth_Data m) in
  orReturn m readRest (fun x2 =>
  let m := mkAuth (auth_Header m) (auth_Method m) x2 in
  ret (m, None))).

Definition connect_Write (m : ConnectMessage) : bytes :=
  Header_pack (connect_Header m)
  ++ [byte_of_Z (encodeFlags (mkFlags false 0 false (connect_Will m) (connect_CleanSession m) 0))]
  ++ [byte_of_Z (connect_ProtocolID m)]
  ++ encodeUint16 (connect_Duration m)
  ++ connect_ClientID m.

Definition connect_Unpack (m : ConnectMessage) : R (ConnectMessage * err) :=
  orReturn m readByte (fun x1 =>
  let m := mkConnect (connect_Header m) (flag_Will (decodeFlags x1)) (flag_CleanSession
      (decodeFlags x1)) (connect_ProtocolID m) (connect_Duration m) (connect_ClientID m) in
  orReturn m readByte (fun x2 =>
  let m := mkConnect (connect_Header m) (connect_Will m) (connect_CleanSession m) x2
      (connect_Duration m) (connect_ClientID m) in
  orReturn m readUint16 (fun x3 =>
  let m := mkConnect (connect_Header m) (connect_Will m) (connect_CleanSession m)
      (connect_ProtocolID m) x3 (connect_ClientID m) in
  orReturn m readRest (fun x4 =>
  let m := mkConnect (connect_Header m) (connect_Will m) (connect_CleanSession m)
      (connect_ProtocolID m) (connect_Duration m) x4 in
  ret (m, None))))).

Definition connack_Write (m : ConnackMessage) : bytes :=
  Header_pack (connack_Header m)
  ++ [byte_of_Z (connack_ReturnCode m)].

Definition connack_Unpack (m : ConnackMessage) : R (ConnackMessage * err) :=
  orReturn m readByte (fun x1 =>
  let m := mkConnack (connack_Header m) x1 in
  ret (m, None)).

Definition willtopicreq_Write (m : WillTopicReqMessage) : bytes :=
  Header_pack (willtopicreq_Header m).

Definition willtopicreq_Unpack (m : WillTopicReqMessage) : R (WillTopicReqMessage * err) :=
  
  ret (m, None).

Definition willtopic_Write (m : WillTopicMessage) : bytes :=
  Header_pack (willtopic_Header m)
  ++ [byte_of_Z (encodeFlags (mkFlags false (willtopic_QOS m) (willtopic_Retain m) false false 0))]
  ++ list_byte_of_string (willtopic_WillTopic m).

Definition willtopic_Unpack (m : WillTopicMessage) : R (WillTopicMessage * err) :=
  orReturn m readByte (fun x1 =>
  let m := mkWillTopic (willtopic_Header m) (flag_QOS (decodeFlags x1)) (flag_Retain
      (decodeFlags x1)) (willtopic_WillTopic m) in
  orReturn m readRest (fun x2 =>
  let m := mkWillTopic (willtopic_Header m) (willtopic_QOS m) (willtopic_Retain m)
      (string_of_list_byte x2) in
  ret (m, None))).

Definition willmsgreq_Write (m : WillMsgReqMessage) : bytes :=
  Header_pack (willmsgreq_Header m).

Definition willmsgreq_Unpack (m : WillMsgReqMessage) : R (WillMsgReqMessage * err) :=
  
  ret (m, None).

Definition willmsg_Write (m : WillMsgMessage) : bytes :=
  Header_pack (willmsg_Header m)
  ++ willmsg_WillMsg m.

Definition willmsg_Unpack (m : WillMsgMessage) : R (WillMsgMessage * err) :=
  orReturn m readRest (fun x1 =>
  let m := mkWillMsg (willmsg_Header m) x1 in
  ret (m, None)).

Definition register_Write (m : RegisterMessage) : bytes :=
  Header_pack (register_Header m)
  ++ encodeUint16 (register_TopicID m)
  ++ encodeUint16 (register_messageID m)
  ++ list_byte_of_string (register_TopicName m).

Definition register_Unpack (m : RegisterMessage) : R (RegisterMessage * err) :=
  orReturn m readUint16 (fun x1 =>
  let m := mkRegister (register_Header m) (register_messageID m) x1 (register_TopicName m) in
  orReturn m readUint16 (fun x2 =>
  let m := mkRegister (register_Header m) x2 (register_TopicID m) (register_TopicName m) in
  orReturn m readRest (fun x3 =>
  let m := mkRegister (register_Header m) (register_messageID m) (register_TopicID m)
      (string_of_list_byte x3) in
  ret (m, None)))).

Definition regack_Write (m : RegackMessage) : bytes :=
  Header_pack (regack_Header m)
  ++ encodeUint16 (regack_TopicID m)
  ++ encodeUint16 (regack_messageID m)
  ++ [byte_of_Z (regack_ReturnCode m)].

Definition regack_Unpack (m : RegackMessage) : R (RegackMessage * err) :=
  orReturn m readUint16 (fun x1 =>
  let m := mkRegack (regack_Header m) (regack_messageID m) x1 (regack_ReturnCode m) in
  orReturn m readUint16 (fun x2 =>
  let m := mkRegack (regack_Header m) x2 (regack_TopicID m) (regack_ReturnCode m) in
  orReturn m readByte (fun x3 =>
  let m := mkRegack (regack_Header m) (regack_messageID m) (regack_TopicID m) x3 in
  ret (m, None)))).

Definition publish_Write (m : PublishMessage) : bytes :=
  Header_pack (publish_Header m)
  ++ [byte_of_Z (encodeFlags (mkFlags (publish_dup m) (publish_QOS m) (publish_Retain m) false
      false (publish_TopicIDType m)))]
  ++ encodeUint16 (publish_TopicID m)
  ++ encodeUint16 (publish_messageID m)
  ++ publish_Data m.

Definition publish_Unpack (m : PublishMessage) : R (PublishMessage * err) :=
  orReturn m readByte (fun x1 =>
  let m := mkPublish (publish_Header m) (publish_messageID m) (flag_DUP (decodeFlags x1))
      (flag_Retain (decodeFlags x1)) (flag_QOS (decodeFlags x1)) (flag_TopicIDType (decodeFlags
      x1)) (publish_TopicID m) (publish_Data m) in
  orReturn m readUint16 (fun x2 =>
  let m := mkPublish (publish_Header m) (publish_messageID m) (publish_dup m) (publish_Retain
      m) (publish_QOS m) (publish_TopicIDType m) x2 (publish_Data m) in
  orReturn m readUint16 (fun x3 =>
  let m := mkPublish (publish_Header m) x3 (publish_dup m) (publish_Retain m) (publish_QOS m)
      (publish_TopicIDType m) (publish_TopicID m) (publish_Data m) in
  orReturn m readRest (fun x4 =>
  let m := mkPublish (publish_Header m) (publish_messageID m) (publish_dup m) (publish_Retain
      m) (publish_QOS m) (publish_TopicIDType m) (publish_TopicID m) x4 in
  ret (m, None))))).

Definition pubcomp_Write (m : PubcompMessage) : bytes :=
  Header_pack (pubcomp_Header m)
  ++ encodeUint16 (pubcomp_messageID m).

Definition pubcomp_Unpack (m : PubcompMessage) : R (PubcompMessage * err) :=
  orReturn m readUint16 (fun x1 =>
  let m := mkPubcomp (pubcomp_Header m) x1 in
  ret (m, None)).

Definition pubrec_Write (m : PubrecMessage) : bytes :=
  Header_pack (pubrec_Header m)
  ++ encodeUint16 (pubrec_messageID m).

Definition pubrec_Unpack (m : PubrecMessage) : R (PubrecMessage * err) :=
  orReturn m readUint16 (fun x1 =>
  let m := mkPubrec (pubrec_Header m) x1 in
  ret (m, None)).

Definition pubrel_Write (m : PubrelMessage) : bytes :=
  Header_pack (pubrel_Header m)
  ++ encodeUint16 (pubrel_messageID m).

Definition pubrel_Unpack (m : PubrelMessage) : R (PubrelMessage * err) :=
  orReturn m readUint16 (fun x1 =>
  let m := mkPubrel (pubrel_Header m) x1 in
  ret (m, None)).

Definition suback_Write (m : SubackMessage) : bytes :=
  Header_pack (suback_Header m)
  ++ [byte_of_Z (encodeFlags (mkFlags false (suback_QOS m) false false false 0))]
  ++ encodeUint16 (suback_TopicID m)
  ++ encodeUint16 (suback_messageID m)
  ++ [byte_of_Z (suback_ReturnCode m)].

Definition suback_Unpack (m : SubackMessage) : R (SubackMessage * err) :=
  orReturn m readByte (fun x1 =>
  let m := mkSuback (suback_Header m) (suback_messageID m) (flag_QOS (decodeFlags x1))
      (suback_ReturnCode m) (suback_TopicID m) in
  orReturn m readUint16 (fun x2 =>
  let m := mkSuback (suback_Header m) (suback_messageID m) (suback_QOS m) (suback_ReturnCode m)
      x2 in
  orReturn m readUint16 (fun x3 =>
  let m := mkSuback (suback_Header m) x3 (suback_QOS m) (suback_ReturnCode m) (suback_TopicID m) in
  orReturn m readByte (fun x4 =>
  let m := mkSuback (suback_Header m) (suback_messageID m) (suback_QOS m) x4 (suback_TopicID m) in
  ret (m, None))))).

Definition unsuback_Write (m : UnsubackMessage) : bytes :=
  Header_pack (unsuback_Header m)
  ++ encodeUint16 (unsuback_messageID m).

Definition unsuback_Unpack (m : UnsubackMessage) : R (UnsubackMessage * err) :=
  orReturn m readUint16 (fun x1 =>
  let m := mkUnsuback (unsuback_Header m) x1 in
  ret (m, None)).

Definition pingreq_Write (m : PingreqMessage) : bytes :=
  Header_pack (pingreq_Header m)
  ++ pingreq_ClientID m.

Definition pingreq_Unpack (m : PingreqMessage) : R (PingreqMessage * err) :=
  orReturn m readRest (fun x1 =>
  let m := mkPingreq (pingreq_Header m) x1 in
  ret (m, None)).

Definition pingresp_Write (m : PingrespMessage) : bytes :=
  Header_pack (pingresp_Header m).

Definition pingresp_Unpack (m : PingrespMessage) : R (PingrespMessage * err) :=
  
  ret (m, None).

Definition willtopicupd_Write (m : WillTopicUpdateMessage) : bytes :=
  Header_pack (willtopicupd_Header m)
  ++ [byte_of_Z (encodeFlags (mkFlags false (willtopicupd_QOS m) (willtopicupd_Retain m) false
      false 0))]
  ++ willtopicupd_WillTopic m.

Definition willtopicupd_Unpack (m : WillTopicUpdateMessage) : R (WillTopicUpdateMessage * err) :=
  orReturn m readByte (fun x1 =>
  let m := mkWillTopicUpdate (willtopicupd_Header m) (flag_QOS (decodeFlags x1)) (flag_Retain
      (decodeFlags x1)) (willtopicupd_WillTopic m) in
  orReturn m readRest (fun x2 =>
  let m := mkWillTopicUpdate (willtopicupd_Header m) (willtopicupd_QOS m) (willtopicupd_Retain
      m) x2 in
  ret (m, None))).

Definition willtopicresp_Write (m : WillTopicRespMessage) : bytes :=
  Header_pack (willtopicresp_Header m)
  ++ [byte_of_Z (willtopicresp_ReturnCode m)].

Definition willtopicresp_Unpack (m : WillTopicRespMessage) : R (WillTopicRespMessage * err) :=
  orReturn m readByte (fun x1 =>
  let m := mkWillTopicResp (willtopicresp_Header m) x1 in
  ret (m, None)).

Definition willmsgupd_Write (m : WillMsgUpdateMessage) : bytes :=
  Header_pack (willmsgupd_Header m)
  ++ willmsgupd_WillMsg m.

Definition willmsgupd_Unpack (m : WillMsgUpdateMessage) : R (WillMsgUpdateMessage * err) :=
  orReturn m readRest (fun x1 =>
  let m := mkWillMsgUpdate (willmsgupd_Header m) x1 in
  ret (m, None)).

Definition willmsgresp_Write (m : WillMsgRespMessage) : bytes :=
  Header_pack (willmsgresp_Header m)
  ++ [byte_of_Z (willmsgresp_ReturnCode m)].

Definition willmsgresp_Unpack (m : WillMsgRespMessage) : R (WillMsgRespMessage * err) :=
  orReturn m readByte (fun x1 =>
  let m := mkWillMsgResp (willmsgresp_Header m) x1 in
  ret (m, None)).

(** SUBSCRIBE and UNSUBSCRIBE carry a topic name for [TIT_STRING] and a
    topic id for the other types. *)
Definition subscribe_Write (m : SubscribeMessage) : bytes :=
  Header_pack (subscribe_Header m)
  ++ [byte_of_Z (encodeFlags (mkFlags (subscribe_dup m) (subscribe_QOS m) false false false
                                (subscribe_TopicIDType m)))]
  ++ encodeUint16 (subscribe_messageID m)
  ++ (if decide (subscribe_TopicIDType m = TIT_STRING) then subscribe_TopicName m
      else encodeUint16 (subscribe_TopicID m)).

Definition subscribe_Unpack (m : SubscribeMessage) : R (SubscribeMessage * err) :=
  orReturn m readByte (fun x1 =>
  let m := mkSubscribe (subscribe_Header m) (subscribe_messageID m)
             (flag_DUP (decodeFlags x1)) (flag_QOS (decodeFlags x1))
             (flag_TopicIDType (decodeFlags x1)) (subscribe_TopicID m)
             (subscribe_TopicName m) in
  orReturn m readUint16 (fun x2 =>
  let m := mkSubscribe (subscribe_Header m) x2 (subscribe_dup m) (subscribe_QOS m)
             (subscribe_TopicIDType m) (subscribe_TopicID m) (subscribe_TopicName m) in
  if decide (subscribe_TopicIDType m = TIT_STRING) then
    orReturn m readRest (fun x3 =>
    ret (mkSubscribe (subscribe_Header m) (subscribe_messageID m) (subscribe_dup m)
           (subscribe_QOS m) (subscribe_TopicIDType m) (subscribe_TopicID m) x3, None))
  else
    orReturn m readUint16 (fun x3 =>
    ret (mkSubscribe (subscribe_Header m) (subscribe_messageID m) (subscribe_dup m)
           (subscribe_QOS m) (subscribe_TopicIDType m) x3 (subscribe_TopicName m), None)))).

Definition unsubscribe_Write (m : UnsubscribeMessage) : bytes :=
  Header_pack (unsubscribe_Header m)
  ++ [byte_of_Z (encodeFlags (mkFlags false 0 false false false
                                (unsubscribe_TopicIDType m)))]
  ++ encodeUint16 (unsubscribe_messageID m)
  ++ (if decide (unsubscribe_TopicIDType m = TIT_STRING) then unsubscribe_TopicName m
      else encodeUint16 (unsubscribe_TopicID m)).

Definition unsubscribe_Unpack (m : UnsubscribeMessage) : R (UnsubscribeMessage * err) :=
  orReturn m readByte (fun x1 =>
  let m := mkUnsubscribe (unsubscribe_Header m) (unsubscribe_messageID m)
             (flag_TopicIDType (decodeFlags x1)) (unsubscribe_TopicID m)
             (unsubscribe_TopicName m) in
  orReturn m readUint16 (fun x2 =>
  let m := mkUnsubscribe (unsubscribe_Header m) x2 (unsubscribe_TopicIDType m)
             (unsubscribe_TopicID m) (unsubscribe_TopicName m) in
  if decide (unsubscribe_TopicIDType m = TIT_STRING) then
    orReturn m readRest (fun x3 =>
    ret (mkUnsubscribe (unsubscribe_Header m) (unsubscribe_messageID m)
           (unsubscribe_TopicIDType m) (unsubscribe_TopicID m) x3, None))
  else
    orReturn m readUint16 (fun x3 =>
    ret (mkUnsubscribe (unsubscribe_Header m) (unsubscribe_messageID m)
           (unsubscribe_TopicIDType m) x3 (unsubscribe_TopicName m), None)))).

(** The sleep duration of DISCONNECT is optional: it is on the wire when it
    is not zero. *)
Definition disconnect_Write (m : DisconnectMessage) : bytes :=
  Header_pack (disconnect_Header m)
  ++ (if decide (disconnect_Duration m = 0) then []
      else encodeUint16 (disconnect_Duration m)).

Definition disconnect_Unpack (m : DisconnectMessage) : R (DisconnectMessage * err) :=
  if decide (varPartLength (disconnect_Header m) = 0) then
    ret (mkDisconnect (disconnect_Header m) 0, None)
  else
    orReturn m readUint16 (fun x1 =>
    ret (mkDisconnect (disconnect_Header m) x1, None)).

(** ** [Message.Write], [NewMessageWithHeader], [Message.Unpack], [ReadPacket] *)

Definition Write (m : Message) : bytes :=
  match m with
  | MAdvertise m => advertise_Write m
  | MSearchGw m => searchgw_Write m
  | MGwInfo m => gwinfo_Write m
  | MAuth m => auth_Write m
  | MConnect m => connect_Write m
  | MConnack m => connack_Write m
  | MWillTopicReq m => willtopicreq_Write m
  | MWillTopic m => willtopic_Write m
  | MWillMsgReq m => willmsgreq_Write m
  | MWillMsg m => willmsg_Write m
  | MRegister m => register_Write m
  | MRegack m => regack_Write m
  | MPublish m => publish_Write m
  | MPuback m => puback_Write m
  | MPubcomp m => pubcomp_Write m
  | MPubrec m => pubrec_Write m
  | MPubrel m => pubrel_Write m
  | MSubscribe m => subscribe_Write m
  | MSuback m => suback_Write m
  | MUnsubscribe m => unsubscribe_Write m
  | MUnsuback m => unsuback_Write m
  | MPingreq m => pingreq_Write m
  | MPingresp m => pingresp_Write m
  | MDisconnect m => disconnect_Write m
  | MWillTopicUpdate m => willtopicupd_Write m
  | MWillTopicResp m => willtopicresp_Write m
  | MWillMsgUpdate m => willmsgupd_Write m
  | MWillMsgResp m => willmsgresp_Write m
  end.

Definition Unpack (m : Message) : R (Message * err) :=
  match m with
  | MAdvertise m => x <- advertise_Unpack m ;; ret (MAdvertise (fst x), snd x)
  | MSearchGw m => x <- searchgw_Unpack m ;; ret (MSearchGw (fst x), snd x)
  | MGwInfo m => x <- gwinfo_Unpack m ;; ret (MGwInfo (fst x), snd x)
  | MAuth m => x <- auth_Unpack m ;; ret (MAuth (fst x), snd x)
  | MConnect m => x <- connect_Unpack m ;; ret (MConnect (fst x), snd x)
  | MConnack m => x <- connack_Unpack m ;; ret (MConnack (fst x), snd x)
  | MWillTopicReq m => x <- willtopicreq_Unpack m ;; ret (MWillTopicReq (fst x), snd x)
  | MWillTopic m => x <- willtopic_Unpack m ;; ret (MWillTopic (fst x), snd x)
  | MWillMsgReq m => x <- willmsgreq_Unpack m ;; ret (MWillMsgReq (fst x), snd x)
  | MWillMsg m => x <- willmsg_Unpack m ;; ret (MWillMsg (fst x), snd x)
  | MRegister m => x <- register_Unpack m ;; ret (MRegister (fst x), snd x)
  | MRegack m => x <- regack_Unpack m ;; ret (MRegack (fst x), snd x)
  | MPublish m => x <- publish_Unpack m ;; ret (MPublish (fst x), snd x)
  | MPuback m => x <- puback_Unpack m ;; ret (MPuback (fst x), snd x)
  | MPubcomp m => x <- pubcomp_Unpack m ;; ret (MPubcomp (fst x), snd x)
  | MPubrec m => x <- pubrec_Unpack m ;; ret (MPubrec (fst x), snd x)
  | MPubrel m => x <- pubrel_Unpack m ;; ret (MPubrel (fst x), snd x)
  | MSubscribe m => x <- subscribe_Unpack m ;; ret (MSubscribe (fst x), snd x)
  | MSuback m => x <- suback_Unpack m ;; ret (MSuback (fst x), snd x)
  | MUnsubscribe m => x <- unsubscribe_Unpack m ;; ret (MUnsubscribe (fst x), snd x)
  | MUnsuback m => x <- unsuback_Unpack m ;; ret (MUnsuback (fst x), snd x)
  | MPingreq m => x <- pingreq_Unpack m ;; ret (MPingreq (fst x), snd x)
  | MPingresp m => x <- pingresp_Unpack m ;; ret (MPingresp (fst x), snd x)
  | MDisconnect m => x <- disconnect_Unpack m ;; ret (MDisconnect (fst x), snd x)
  | MWillTopicUpdate m => x <- willtopicupd_Unpack m ;; ret (MWillTopicUpdate (fst x), snd x)
  | MWillTopicResp m => x <- willtopicresp_Unpack m ;; ret (MWillTopicResp (fst x), snd x)
  | MWillMsgUpdate m => x <- willmsgupd_Unpack m ;; ret (MWillMsgUpdate (fst x), snd x)
  | MWillMsgResp m => x <- willmsgresp_Unpack m ;; ret (MWillMsgResp (fst x), snd x)
  end.

(** The message of the type the header names, its fields zero. *)
Definition NewMessageWithHeader (h : Header) : option Message :=
  if decide (msgType h = ADVERTISE) then Some (MAdvertise (mkAdvertise h 0 0))
  else if decide (msgType h = SEARCHGW) then Some (MSearchGw (mkSearchGw h 0))
  else if decide (msgType h = GWINFO) then Some (MGwInfo (mkGwInfo h 0 []))
  else if decide (msgType h = AUTH) then Some (MAuth (mkAuth h 0 []))
  else if decide (msgType h = CONNECT) then Some (MConnect (mkConnect h false false 0 0 []))
  else if decide (msgType h = CONNACK) then Some (MConnack (mkConnack h 0))
  else if decide (msgType h = WILLTOPICREQ) then Some (MWillTopicReq (mkWillTopicReq h))
  else if decide (msgType h = WILLTOPIC) then Some (MWillTopic (mkWillTopic h 0 false EmptyString))
  else if decide (msgType h = WILLMSGREQ) then Some (MWillMsgReq (mkWillMsgReq h))
  else if decide (msgType h = WILLMSG) then Some (MWillMsg (mkWillMsg h []))
  else if decide (msgType h = REGISTER) then Some (MRegister (mkRegister h 0 0 EmptyString))
  else if decide (msgType h = REGACK) then Some (MRegack (mkRegack h 0 0 0))
  else if decide (msgType h = PUBLISH) then Some (MPublish (mkPublish h 0 false false 0 0 0 []))
  else if decide (msgType h = PUBACK) then Some (MPuback (mkPuback h 0 0 0))
  else if decide (msgType h = PUBCOMP) then Some (MPubcomp (mkPubcomp h 0))
  else if decide (msgType h = PUBREC) then Some (MPubrec (mkPubrec h 0))
  else if decide (msgType h = PUBREL) then Some (MPubrel (mkPubrel h 0))
  else if decide (msgType h = SUBSCRIBE) then Some (MSubscribe (mkSubscribe h 0 false 0 0 0 []))
  else if decide (msgType h = SUBACK) then Some (MSuback (mkSuback h 0 0 0 0))
  else if decide (msgType h = UNSUBSCRIBE) then Some (MUnsubscribe (mkUnsubscribe h 0 0 0 []))
  else if decide (msgType h = UNSUBACK) then Some (MUnsuback (mkUnsuback h 0))
  else if decide (msgType h = PINGREQ) then Some (MPingreq (mkPingreq h []))
  else if decide (msgType h = PINGRESP) then Some (MPingresp (mkPingresp h))
  else if decide (msgType h = DISCONNECT) then Some (MDisconnect (mkDisconnect h 0))
  else if decide (msgType h = WILLTOPICUPD) then Some (MWillTopicUpdate (mkWillTopicUpdate h 0
      false []))
  else if decide (msgType h = WILLTOPICRESP) then Some (MWillTopicResp (mkWillTopicResp h 0))
  else if decide (msgType h = WILLMSGUPD) then Some (MWillMsgUpdate (mkWillMsgUpdate h []))
  else if decide (msgType h = WILLMSGRESP) then Some (MWillMsgResp (mkWillMsgResp h 0))
  else None.

(** Modelled from the spec: [ReadPacket] is not under src.  It reads the
    header, then the variable part the header announces, and unpacks the
    message of the announced type from it.  "Wire parse errors: short read,
    bad length, unknown type." *)
Definition ReadPacket (r : bytes) : option Message * err :=
  match Header_Unpack r with
  | Some ((h, None), r') =>
      if decide (blen r' < varPartLength h) then (None, Some ErrShortRead)
      else
        match NewMessageWithHeader h with
        | None => (None, Some (ErrUnknownMessageType (msgType h)))
        | Some m =>
            match Unpack m (take (Z.to_nat (varPartLength h)) r') with
            | Some ((m', None), _) => (Some m', None)
            | Some ((_, Some e), _) => (None, Some e)
            | None => (None, Some ErrShortRead)
            end
        end
  | Some ((_, Some e), _) => (None, Some e)
  | None => (None, Some ErrShortRead)
  end.

(** ** Well-formed messages

    The messages the constructors build and [ReadPacket] returns: the header
    names the type of the structure and the length of its fields on the
    wire, the packet is no longer than a 16-bit length can tell, and every
    field has a value of its Go type (QoS and topic-id type: two bits). *)

Definition is_2bit (z : Z) : Prop := 0 <= z < 4.

Definition fits (varPartLength : Z) : Prop := varPartLength + longHeaderLength < 65536.

Definition advertise_wf (m : AdvertiseMessage) : Prop :=
  advertise_Header m = NewHeader ADVERTISE (3) /\
  fits (3) /\
  is_uint8 (advertise_GatewayID m) /\
  is_uint16 (advertise_Duration m).

Definition searchgw_wf (m : SearchGwMessage) : Prop :=
  searchgw_Header m = NewHeader SEARCHGW (1) /\
  fits (1) /\
  is_uint8 (searchgw_Radius m).

Definition gwinfo_wf (m : GwInfoMessage) : Prop :=
  gwinfo_Header m = NewHeader GWINFO (1 + blen (gwinfo_GatewayAddress m)) /\
  fits (1 + blen (gwinfo_GatewayAddress m)) /\
  is_uint8 (gwinfo_GatewayID m).

Definition auth_wf (m : AuthMessage) : Prop :=
  auth_Header m = NewHeader AUTH (1 + blen (auth_Data m)) /\
  fits (1 + blen (auth_Data m)) /\
  is_uint8 (auth_Method m).

Definition connect_wf (m : ConnectMessage) : Prop :=
  connect_Header m = NewHeader CONNECT (4 + blen (connect_ClientID m)) /\
  fits (4 + blen (connect_ClientID m)) /\
  is_uint8 (connect_ProtocolID m) /\
  is_uint16 (connect_Duration m).

Definition connack_wf (m : ConnackMessage) : Prop :=
  connack_Header m = NewHeader CONNACK (1) /\
  fits (1) /\
  is_uint8 (connack_ReturnCode m).

Definition willtopicreq_wf (m : WillTopicReqMessage) : Prop :=
  willtopicreq_Header m = NewHeader WILLTOPICREQ (0) /\
  fits (0).

Definition willtopic_wf (m : WillTopicMessage) : Prop :=
  willtopic_Header m = NewHeader WILLTOPIC (1 + slen (willtopic_WillTopic m)) /\
  fits (1 + slen (willtopic_WillTopic m)) /\
  is_2bit (willtopic_QOS m).

Definition willmsgreq_wf (m : WillMsgReqMessage) : Prop :=
  willmsgreq_Header m = NewHeader WILLMSGREQ (0) /\
  fits (0).

Definition willmsg_wf (m : WillMsgMessage) : Prop :=
  willmsg_Header m = NewHeader WILLMSG (blen (willmsg_WillMsg m)) /\
  fits (blen (willmsg_WillMsg m)).

Definition register_wf (m : RegisterMessage) : Prop :=
  register_Header m = NewHeader REGISTER (4 + slen (register_TopicName m)) /\
  fits (4 + slen (register_TopicName m)) /\
  is_uint16 (register_TopicID m) /\
  is_uint16 (register_messageID m).

Definition regack_wf (m : RegackMessage) : Prop :=
  regack_Header m = NewHeader REGACK (5) /\
  fits (5) /\
  is_uint16 (regack_TopicID m) /\
  is_uint16 (regack_messageID m) /\
  is_uint8 (regack_ReturnCode m).

Definition publish_wf (m : PublishMessage) : Prop :=
  publish_Header m = NewHeader PUBLISH (5 + blen (publish_Data m)) /\
  fits (5 + blen (publish_Data m)) /\
  is_2bit (publish_QOS m) /\
  is_2bit (publish_TopicIDType m) /\
  is_uint16 (publish_TopicID m) /\
  is_uint16 (publish_messageID m).

Definition puback_wf (m : PubackMessage) : Prop :=
  puback_Header m = NewHeader PUBACK (pubackVarPartLength) /\
  fits (pubackVarPartLength) /\
  is_uint16 (puback_TopicID m) /\
  is_uint16 (puback_messageID m) /\
  is_uint8 (puback_ReturnCode m).

Definition pubcomp_wf (m : PubcompMessage) : Prop :=
  pubcomp_Header m = NewHeader PUBCOMP (2) /\
  fits (2) /\
  is_uint16 (pubcomp_messageID m).

Definition pubrec_wf (m : PubrecMessage) : Prop :=
  pubrec_Header m = NewHeader PUBREC (2) /\
  fits (2) /\
  is_uint16 (pubrec_messageID m).

Definition pubrel_wf (m : PubrelMessage) : Prop :=
  pubrel_Header m = NewHeader PUBREL (2) /\
  fits (2) /\
  is_uint16 (pubrel_messageID m).

Definition subscribe_wf (m : SubscribeMessage) : Prop :=
  subscribe_Header m = NewHeader SUBSCRIBE (3 + topicFieldLength (subscribe_TopicIDType m)
      (subscribe_TopicName m)) /\
  fits (3 + topicFieldLength (subscribe_TopicIDType m) (subscribe_TopicName m)) /\
  is_uint16 (subscribe_messageID m) /\
  is_2bit (subscribe_QOS m) /\
  is_2bit (subscribe_TopicIDType m) /\
  is_uint16 (subscribe_TopicID m) /\
  (if decide (subscribe_TopicIDType m = TIT_STRING) then subscribe_TopicID m = 0
   else subscribe_TopicName m = []).

Definition suback_wf (m : SubackMessage) : Prop :=
  suback_Header m = NewHeader SUBACK (6) /\
  fits (6) /\
  is_2bit (suback_QOS m) /\
  is_uint16 (suback_TopicID m) /\
  is_uint16 (suback_messageID m) /\
  is_uint8 (suback_ReturnCode m).

Definition unsubscribe_wf (m : UnsubscribeMessage) : Prop :=
  unsubscribe_Header m = NewHeader UNSUBSCRIBE (3 + topicFieldLength (unsubscribe_TopicIDType
      m) (unsubscribe_TopicName m)) /\
  fits (3 + topicFieldLength (unsubscribe_TopicIDType m) (unsubscribe_TopicName m)) /\
  is_uint16 (unsubscribe_messageID m) /\
  is_2bit (unsubscribe_TopicIDType m) /\
  is_uint16 (unsubscribe_TopicID m) /\
  (if decide (unsubscribe_TopicIDType m = TIT_STRING) then unsubscribe_TopicID m = 0
   else unsubscribe_TopicName m = []).

Definition unsuback_wf (m : UnsubackMessage) : Prop :=
  unsuback_Header m = NewHeader UNSUBACK (2) /\
  fits (2) /\
  is_uint16 (unsuback_messageID m).

Definition pingreq_wf (m : PingreqMessage) : Prop :=
  pingreq_Header m = NewHeader PINGREQ (blen (pingreq_ClientID m)) /\
  fits (blen (pingreq_ClientID m)).

Definition pingresp_wf (m : PingrespMessage) : Prop :=
  pingresp_Header m = NewHeader PINGRESP (0) /\
  fits (0).

Definition disconnect_wf (m : DisconnectMessage) : Prop :=
  disconnect_Header m = NewHeader DISCONNECT (disconnectVarPartLength (disconnect_Duration m)) /\
  is_uint16 (disconnect_Duration m).

Definition willtopicupd_wf (m : WillTopicUpdateMessage) : Prop :=
  willtopicupd_Header m = NewHeader WILLTOPICUPD (1 + blen (willtopicupd_WillTopic m)) /\
  fits (1 + blen (willtopicupd_WillTopic m)) /\
  is_2bit (willtopicupd_QOS m).

Definition willtopicresp_wf (m : WillTopicRespMessage) : Prop :=
  willtopicresp_Header m = NewHeader WILLTOPICRESP (1) /\
  fits (1) /\
  is_uint8 (willtopicresp_ReturnCode m).

Definition willmsgupd_wf (m : WillMsgUpdateMessage) : Prop :=
  willmsgupd_Header m = NewHeader WILLMSGUPD (blen (willmsgupd_WillMsg m)) /\
  fits (blen (willmsgupd_WillMsg m)).

Definition willmsgresp_wf (m : WillMsgRespMessage) : Prop :=
  willmsgresp_Header m = NewHeader WILLMSGRESP (1) /\
  fits (1) /\
  is_uint8 (willmsgresp_ReturnCode m).

Definition WellFormed (m : Message) : Prop :=
  match m with
  | MAdvertise m => advertise_wf m
  | MSearchGw m => searchgw_wf m
  | MGwInfo m => gwinfo_wf m
  | MAuth m => auth_wf m
  | MConnect m => connect_wf m
  | MConnack m => connack_wf m
  | MWillTopicReq m => willtopicreq_wf m
  | MWillTopic m => willtopic_wf m
  | MWillMsgReq m => willmsgreq_wf m
  | MWillMsg m => willmsg_wf m
  | MRegister m => register_wf m
  | MRegack m => regack_wf m
  | MPublish m => publish_wf m
  | MPuback m => puback_wf m
  | MPubcomp m => pubcomp_wf m
  | MPubrec m => pubrec_wf m
  | MPubrel m => pubrel_wf m
  | MSubscribe m => subscribe_wf m
  | MSuback m => suback_wf m
  | MUnsubscribe m => unsubscribe_wf m
  | MUnsuback m => unsuback_wf m
  | MPingreq m => pingreq_wf m
  | MPingresp m => pingresp_wf m
  | MDisconnect m => disconnect_wf m
  | MWillTopicUpdate m => willtopicupd_wf m
  | MWillTopicResp m => willtopicresp_wf m
  | MWillMsgUpdate m => willmsgupd_wf m
  | MWillMsgResp m => willmsgresp_wf m
  end.

End messages.

(* ===================================================================== *)
(** * Package [mqttPackets] (paho): the packets the gateway exchanges     *)
(* ===================================================================== *)

Module mqttPackets.

(** CONNACK return codes. *)
Definition Accepted : uint8 := 0x00.
Definition ErrRefusedBadProtocolVersion : uint8 := 0x01.
Definition ErrRefusedIDRejected : uint8 := 0x02.
Definition ErrRefusedServerUnavailable : uint8 := 0x03.
Definition ErrRefusedBadUsernameOrPassword : uint8 := 0x04.
Definition ErrRefusedNotAuthorised : uint8 := 0x05.

Record ConnectPacket := mkConnectPacket {
  ProtocolName : string;
  ProtocolVersion : uint8;
  CleanSession : bool;
  WillFlag : bool;
  WillQos : uint8;
  WillRetain : bool;
  UsernameFlag : bool;
  PasswordFlag : bool;
  Keepalive : uint16;
  ClientIdentifier : string;
  WillTopic : string;
  WillMessage : bytes;
  Username : string;
  Password : bytes
}.

Record ConnackPacket := mkConnackPacket {
  SessionPresent : bool;
  ReturnCode : uint8
}.

Record PublishPacket := mkPublishPacket {
  Dup : bool;
  Qos : uint8;
  Retain : bool;
  TopicName : string;
  MessageID : uint16;
  Payload : bytes
}.

Record SubscribePacket := mkSubscribePacket {
  sub_MessageID : uint16;
  Topics : list string;
  Qoss : list uint8
}.

Record SubackPacket := mkSubackPacket {
  suback_MessageID : uint16;
  ReturnCodes : list uint8
}.

(** The interface [ControlPacket].  PUBACK, PUBREC, PUBREL and PUBCOMP hold
    the message id only. *)
Inductive ControlPacket :=
| Connect (p : ConnectPacket)
| Connack (p : ConnackPacket)
| Publish (p : PublishPacket)
| Puback (messageID : uint16)
| Pubrec (messageID : uint16)
| Pubrel (messageID : uint16)
| Pubcomp (messageID : uint16)
| Subscribe (p : SubscribePacket)
| Suback (p : SubackPacket)
| Disconnect.

(** [publish.Dup = true] *)
Definition setDup (p : PublishPacket) : PublishPacket :=
  mkPublishPacket true (Qos p) (Retain p) (TopicName p) (MessageID p) (Payload p).

End mqttPackets.

(* ===================================================================== *)
(** * Package [util]: the state of a client session                       *)
(* ===================================================================== *)

Module util.

Inductive State := StateDisconnected | StateActive | StateAsleep | StateAwake.

#[global] Instance State_eq_dec : EqDecision State.
Proof. solve_decision. Defined.

End util.

(* ===================================================================== *)
(** * Package [transactions]: the structures of the kernel                *)
(* ===================================================================== *)

Module transactions.

(** The value of the [interface{}] a retry transaction keeps as its last
    outgoing message: an MQTT-SN message or an MQTT packet. *)
Inductive data :=
| DataSN (m : messages.Message)
| DataMQTT (p : mqttPackets.ControlPacket).

(** The on-finish hooks handed to the constructors, one constructor per
    closure of the source:
    [func() { h.transactions.DeleteByType(snMsgs.CONNECT) }] and
    [func() { client.transactions.Delete(msgID) }]. *)
Inductive finalizer :=
| DeleteByType (t : messages.MessageType)
| Delete (msgID : uint16).

Section Structures.
Context {St : Type}.

(** Modelled from the spec: package transactions is not under src.
    "Base: holds state, a Done signal, and an on-finish hook (removes self
    from the table)."  [State] and [Data] are [interface{}] fields, [None]
    is their nil; [done] is [None] while the transaction is live and holds
    the value of [Err()] once [Done()] is closed. *)
Record TransactionBase := mkTransactionBase {
  State : option St;
  Data : option data;
  done : option err;
  doneFn : finalizer
}.

Definition NewTransactionBase (doneFn : finalizer) : TransactionBase :=
  mkTransactionBase None None None doneFn.

(** Modelled from the spec: "TimedTransaction(ctx, timeout): Base +
    single-shot timer; when fired, completes with an expired error."
    [timed_timer] is the instant the timer fires, [None] once stopped. *)
Record TimedTransaction := mkTimedTransaction {
  timed_base : TransactionBase;
  timed_timer : option Z
}.

Definition NewTimedTransaction (now timeout : Z) (doneFn : finalizer)
    : TimedTransaction :=
  mkTimedTransaction (NewTransactionBase doneFn) (Some (now + timeout)).

(** Modelled from the spec: "RetryTransaction(ctx, delay, count,
    resendFn): Base + periodic timer. On each tick, if attempts remain,
    invokes resendFn with the last outgoing message; on exhaustion, fails
    with retry exhausted. Proceed(newState, lastMsg) advances state, resets
    the retry counter and timer, and stores lastMsg for future resends."
    [retries] counts the attempts that remain. *)
Record RetryTransaction := mkRetryTransaction {
  retry_base : TransactionBase;
  retryDelay : Z;
  retryCount : nat;
  retries : nat;
  retry_timer : option Z
}.

Definition NewRetryTransaction (now retryDelay : Z) (retryCount : nat)
    (doneFn : finalizer) : RetryTransaction :=
  mkRetryTransaction (NewTransactionBase doneFn) retryDelay retryCount retryCount
    (Some (now + retryDelay)).

Definition base_setDone (res : err) (b : TransactionBase) : TransactionBase :=
  mkTransactionBase (State b) (Data b) (Some res) (doneFn b).

Definition timed_setDone (res : err) (t : TimedTransaction) : TimedTransaction :=
  mkTimedTransaction (base_setDone res (timed_base t)) None.

Definition retry_setDone (res : err) (t : RetryTransaction) : RetryTransaction :=
  mkRetryTransaction (base_setDone res (retry_base t)) (retryDelay t) (retryCount t)
    (retries t) None.

(** [Proceed(newState, lastMsg)] *)
Definition Proceed (now : Z) (newState : St) (lastMsg : data) (t : RetryTransaction)
    : RetryTransaction :=
  mkRetryTransaction
    (mkTransactionBase (Some newState) (Some lastMsg) (done (retry_base t))
       (doneFn (retry_base t)))
    (retryDelay t) (retryCount t) (retryCount t) (Some (now + retryDelay t)).

(** The bookkeeping of one tick with attempts left: one attempt less, the
    last message replaced by the one the resend function sent (it may have
    set its DUP flag), the timer armed again. *)
Definition retry_tick (now : Z) (lastMsg : option data) (t : RetryTransaction)
    : RetryTransaction :=
  mkRetryTransaction
    (mkTransactionBase (State (retry_base t)) lastMsg (done (retry_base t))
       (doneFn (retry_base t)))
    (retryDelay t) (retryCount t) (Nat.pred (retries t)) (Some (now + retryDelay t)).
End Structures.

Arguments TransactionBase : clear implicits.
Arguments TimedTransaction : clear implicits.
Arguments RetryTransaction : clear implicits.

End transactions.

(* ===================================================================== *)
(** * Package [topics]: predefined topics                                 *)
(* ===================================================================== *)

Module topics.

(** [client-id -> (topic-id -> topic-name)], with the key ["*"] for the
    entries of every client. *)
Abbreviation PredefinedTopics := (gmap string (gmap Z string)).

(** Modelled from the spec: package topics is not under src.  "Lookup
    policy: per-client entries shadow [*]." *)
Definition GetTopicName (p : PredefinedTopics) (clientID : string) (topicID : uint16)
    : option string :=
  match (p !! clientID) ≫= (fun m => m !! topicID) with
  | Some name => Some name
  | None => (p !! "*"%string) ≫= (fun m => m !! topicID)
  end.

End topics.

(* ===================================================================== *)
(** * Package [gateway]: the session handler and its transactions         *)
(* ===================================================================== *)

Module gateway.
Import messages mqttPackets transactions.

(** ** Transaction states *)

Inductive transactionState :=
| transactionDone
| awaitingRegack
| awaitingPuback
| awaitingPubrec
| awaitingPubrel
| awaitingPubcomp.

#[global] Instance transactionState_eq_dec : EqDecision transactionState.
Proof. solve_decision. Defined.

(** ** Handler configuration *)

Record handlerConfig := mkHandlerConfig {
  AuthEnabled : bool;
  RetryDelay : Z;
  RetryCount : nat
}.

(** ** Transactions *)

(** The address of a transaction object in the handler's heap. *)
Definition txref := nat.

Record connectTransaction := mkConnectTransaction {
  connect_TimedTransaction : TimedTransaction transactionState;
  authEnabled : bool;
  mqConnect : ConnectPacket;
  authenticated : bool
}.

Record brokerPublishTransactionBase := mkBrokerPublishTransactionBase {
  bp_RetryTransaction : RetryTransaction transactionState;
  snPublish : option PublishMessage
}.

(** Modelled from the spec: the SUBSCRIBE transaction is not under src.  It
    keeps the SUBSCRIBE it answers and the topic name it resolved. *)
Record subscribeTransaction := mkSubscribeTransaction {
  subscribe_TransactionBase : TransactionBase transactionState;
  snSubscribe : SubscribeMessage;
  subscribe_topic : string
}.

(** The values of the transaction table: a CONNECT transaction, a
    broker-side publish transaction (a structure that embeds
    [brokerPublishTransactionBase]) or a SUBSCRIBE transaction. *)
Inductive transaction :=
| TConnect (t : connectTransaction)
| TBrokerPublish (t : brokerPublishTransactionBase)
| TSubscribe (t : subscribeTransaction).

Definition baseOf (t : transaction) : TransactionBase transactionState :=
  match t with
  | TConnect c => timed_base (connect_TimedTransaction c)
  | TBrokerPublish b => retry_base (bp_RetryTransaction b)
  | TSubscribe s => subscribe_TransactionBase s
  end.

(** Closing [Done()] with the result [res]; the timer of the transaction is
    stopped. *)
Definition setDone (res : err) (t : transaction) : transaction :=
  match t with
  | TConnect c =>
      TConnect (mkConnectTransaction (timed_setDone res (connect_TimedTransaction c))
                  (authEnabled c) (mqConnect c) (authenticated c))
  | TBrokerPublish b =>
      TBrokerPublish (mkBrokerPublishTransactionBase
                        (retry_setDone res (bp_RetryTransaction b)) (snPublish b))
  | TSubscribe s =>
      TSubscribe (mkSubscribeTransaction (base_setDone res (subscribe_TransactionBase s))
                    (snSubscribe s) (subscribe_topic s))
  end.

(** A transaction is live from its creation until its completion. *)
Definition live (t : transaction) : Prop := done (baseOf t) = None.

(** ** The handler *)

(** The closures handed to the error group of the handler that are still
    running: [connectTransaction.Start] starts one that waits for the end of
    the transaction. *)
Inductive task :=
| WatchConnect (t : txref).

#[global] Instance task_eq_dec : EqDecision task.
Proof. solve_decision. Defined.

(** What the handler does that can be observed from outside, in the order
    it happens: the packets it writes to the client and to the broker, the
    changes of its session state and the closing of the broker connection. *)
Inductive Event :=
| EvSetState (s : util.State)
| EvSnSend (m : Message)
| EvMqttSend (p : ControlPacket)
| EvMqttClose.

Record handler := mkHandler {
  cfg : handlerConfig;
  predefinedTopics : topics.PredefinedTopics;
  clientID : string;
  state : util.State;
  byID : gmap Z txref;
  byType : gmap Z txref;
  registeredTopics : gmap Z string;
  nextTopicID : uint16;
  heap : list transaction;
  tasks : list task;
  groupErr : err;
  now : Z;
  snFault : err;
  mqttFault : err;
  trace : list (Z * Event)
}.

Definition set_clientID (v : string) (h : handler) : handler :=
  mkHandler (cfg h) (predefinedTopics h) v (state h) (byID h) (byType h) (registeredTopics h) (nextTopicID h) (heap h) (tasks h) (groupErr h) (now h) (snFault h) (mqttFault h) (trace h).

Definition set_state (v : util.State) (h : handler) : handler :=
  mkHandler (cfg h) (predefinedTopics h) (clientID h) v (byID h) (byType h) (registeredTopics h) (nextTopicID h) (heap h) (tasks h) (groupErr h) (now h) (snFault h) (mqttFault h) (trace h).

Definition set_byID (v : gmap Z txref) (h : handler) : handler :=
  mkHandler (cfg h) (predefinedTopics h) (clientID h) (state h) v (byType h) (registeredTopics h) (nextTopicID h) (heap h) (tasks h) (groupErr h) (now h) (snFault h) (mqttFault h) (trace h).

Definition set_byType (v : gmap Z txref) (h : handler) : handler :=
  mkHandler (cfg h) (predefinedTopics h) (clientID h) (state h) (byID h) v (registeredTopics h) (nextTopicID h) (heap h) (tasks h) (groupErr h) (now h) (snFault h) (mqttFault h) (trace h).

Definition set_registeredTopics (v : gmap Z string) (h : handler) : handler :=
  mkHandler (cfg h) (predefinedTopics h) (clientID h) (state h) (byID h) (byType h) v (nextTopicID h) (heap h) (tasks h) (groupErr h) (now h) (snFault h) (mqttFault h) (trace h).

Definition set_nextTopicID (v : uint16) (h : handler) : handler :=
  mkHandler (cfg h) (predefinedTopics h) (clientID h) (state h) (byID h) (byType h) (registeredTopics h) v (heap h) (tasks h) (groupErr h) (now h) (snFault h) (mqttFault h) (trace h).

Definition set_heap (v : list transaction) (h : handler) : handler :=
  mkHandler (cfg h) (predefinedTopics h) (clientID h) (state h) (byID h) (byType h) (registeredTopics h) (nextTopicID h) v (tasks h) (groupErr h) (now h) (snFault h) (mqttFault h) (trace h).

Definition set_tasks (v : list task) (h : handler) : handler :=
  mkHandler (cfg h) (predefinedTopics h) (clientID h) (state h) (byID h) (byType h) (registeredTopics h) (nextTopicID h) (heap h) v (groupErr h) (now h) (snFault h) (mqttFault h) (trace h).

Definition set_groupErr (v : err) (h : handler) : handler :=
  mkHandler (cfg h) (predefinedTopics h) (clientID h) (state h) (byID h) (byType h) (registeredTopics h) (nextTopicID h) (heap h) (tasks h) v (now h) (snFault h) (mqttFault h) (trace h).

Definition set_now (v : Z) (h : handler) : handler :=
  mkHandler (cfg h) (predefinedTopics h) (clientID h) (state h) (byID h) (byType h) (registeredTopics h) (nextTopicID h) (heap h) (tasks h) (groupErr h) v (snFault h) (mqttFault h) (trace h).

Definition set_snFault (v : err) (h : handler) : handler :=
  mkHandler (cfg h) (predefinedTopics h) (clientID h) (state h) (byID h) (byType h) (registeredTopics h) (nextTopicID h) (heap h) (tasks h) (groupErr h) (now h) v (mqttFault h) (trace h).

Definition set_mqttFault (v : err) (h : handler) : handler :=
  mkHandler (cfg h) (predefinedTopics h) (clientID h) (state h) (byID h) (byType h) (registeredTopics h) (nextTopicID h) (heap h) (tasks h) (groupErr h) (now h) (snFault h) v (trace h).

Definition set_trace (v : list (Z * Event)) (h : handler) : handler :=
  mkHandler (cfg h) (predefinedTopics h) (clientID h) (state h) (byID h) (byType h) (registeredTopics h) (nextTopicID h) (heap h) (tasks h) (groupErr h) (now h) (snFault h) (mqttFault h) v.


(** Modelled from the spec: [newHandler] is not under src.  "Initial
    DISCONNECTED"; no transaction, no registered topic. *)
Definition newHandler (cfg : handlerConfig) (predefinedTopics : topics.PredefinedTopics)
    : handler :=
  mkHandler cfg predefinedTopics EmptyString util.StateDisconnected ∅ ∅ ∅ MinTopicID
    [] [] None 0 None None [].

Abbreviation H := (M handler).

(** ** Input and output of the handler *)

Definition emit (e : Event) : H unit :=
  modify (fun h => set_trace (trace h ++ [(now h, e)]) h).

(** Modelled from the spec: [handler.snSend], [handler.mqttSend] and
    [handler.setState] are not under src.  A write hands the packet to the
    connection, or returns the error of the connection ([snFault],
    [mqttFault]) and writes nothing. *)
Definition snSend (m : Message) : H err :=
  f <- gets snFault ;;
  match f with
  | Some e => ret (Some e)
  | None => emit (EvSnSend m) ;;; ret None
  end.

Definition mqttSend (p : ControlPacket) : H err :=
  f <- gets mqttFault ;;
  match f with
  | Some e => ret (Some e)
  | None => emit (EvMqttSend p) ;;; ret None
  end.

Definition setState (s : util.State) : H unit :=
  modify (set_state s) ;;; emit (EvSetState s).

(** ** The transaction table *)

Definition GetByType (t : MessageType) : H (option txref) :=
  gets (fun h => byType h !! t).
Definition StoreByType (t : MessageType) (r : txref) : H unit :=
  modify (fun h => set_byType (<[t := r]> (byType h)) h).
Definition DeleteByType (t : MessageType) : H unit :=
  modify (fun h => set_byType (delete t (byType h)) h).
Definition Get (msgID : uint16) : H (option txref) :=
  gets (fun h => byID h !! msgID).
Definition Store (msgID : uint16) (r : txref) : H unit :=
  modify (fun h => set_byID (<[msgID := r]> (byID h)) h).
Definition Delete (msgID : uint16) : H unit :=
  modify (fun h => set_byID (delete msgID (byID h)) h).

(** ** The heap of transaction objects *)

Definition alloc (t : transaction) : H txref :=
  fun h => Some (length (heap h), set_heap (heap h ++ [t]) h).

(** Dereferencing: a dangling address is a nil dereference. *)
Definition load (r : txref) : H transaction :=
  fun h => match heap h !! r with
           | Some t => Some (t, h)
           | None => None
           end.

Definition store (r : txref) (t : transaction) : H unit :=
  modify (fun h => set_heap (<[r := t]> (heap h)) h).

Definition loadConnect (r : txref) : H connectTransaction :=
  t <- load r ;;
  match t with TConnect c => ret c | _ => panic end.

Definition loadBrokerPublish (r : txref) : H brokerPublishTransactionBase :=
  t <- load r ;;
  match t with TBrokerPublish b => ret b | _ => panic end.

Definition loadSubscribe (r : txref) : H subscribeTransaction :=
  t <- load r ;;
  match t with TSubscribe s => ret s | _ => panic end.

(** ** The error group and the end of the handler *)

(** Modelled from the spec: [handler.run] is not under src.  "first error in
    any task becomes the handler's exit error"; the handler then "tears
    everything down": the tasks of the group are cancelled and the broker
    connection is closed (the client connection is left to the caller). *)
Definition groupReturn (e : err) : H unit :=
  match e with
  | None => ret tt
  | Some e' =>
      g <- gets groupErr ;;
      match g with
      | Some _ => ret tt
      | None =>
          modify (set_groupErr (Some e')) ;;;
          modify (set_tasks []) ;;;
          emit EvMqttClose ;;;
          modify (set_mqttFault (Some (ErrWrite "MQTT connection closed")))
      end
  end.

(** The handler has terminated. *)
Definition terminated (h : handler) : Prop := is_Some (groupErr h).

(** ** The kernel on the heap: completion *)

Definition runFinalizer (f : finalizer) : H unit :=
  match f with
  | transactions.DeleteByType t => DeleteByType t
  | transactions.Delete msgID => Delete msgID
  end.

(** What the closure of [connectTransaction.Start] returns to the group
    once [t.Done()] is closed:
    [if err := t.Err(); err != nil { if err == Cancelled { return nil };
    return fmt.Errorf("CONNECT: %s", err) }; return nil]. *)
Definition watchConnectResult (res : err) : err :=
  match res with
  | Some Cancelled => None
  | Some e => Some (ErrTransaction "CONNECT" e)
  | None => None
  end.

Definition signalDone (r : txref) (res : err) : H unit :=
  ts <- gets tasks ;;
  if decide (WatchConnect r ∈ ts) then
    modify (set_tasks (filter (fun k => k ≠ WatchConnect r) ts)) ;;;
    groupReturn (watchConnectResult res)
  else ret tt.

(** Modelled from the spec: "completion is terminal; further inputs are
    ignored. Completion runs the finalizer exactly once."  [complete r res]
    closes [Done()] of a live transaction with the result [res], runs its
    finalizer and wakes the task that waits for it. *)
Definition complete (r : txref) (res : err) : H unit :=
  t <- load r ;;
  match done (baseOf t) with
  | Some _ => ret tt
  | None =>
      store r (setDone res t) ;;;
      runFinalizer (doneFn (baseOf t)) ;;;
      signalDone r res
  end.

Definition Fail (r : txref) (e : error) : H unit := complete r (Some e).
Definition Success (r : txref) : H unit := complete r None.

(** ** The CONNECT transaction (connect_transaction.go) *)

Section Connect.
(** The constant [connectTransactionTimeout] of the package. *)
Variable connectTransactionTimeout : Z.

Definition newConnectTransaction (authEnabled : bool) (mqConnect : ConnectPacket)
    : H txref :=
  now <- gets now ;;
  alloc (TConnect
           (mkConnectTransaction
              (NewTimedTransaction now connectTransactionTimeout
                 (transactions.DeleteByType CONNECT))
              authEnabled mqConnect false)).

(** [t.handler.group.Go(func() error { select { case <-t.Done(): ... } })] *)
Definition groupGo (k : task) : H unit :=
  modify (fun h => set_tasks (tasks h ++ [k]) h).

Definition Start (t : txref) : H err :=
  groupGo (WatchConnect t) ;;;
  c <- loadConnect t ;;
  if authEnabled c then
    (* Waiting for AUTH message. *)
    ret None
  else if WillFlag (mqConnect c) then
    (* Continue with WILLTOPICREQ. *)
    snSend (MWillTopicReq NewWillTopicReqMessage)
  else
    mqttSend (Connect (mqConnect c)).

(** Inform client that the CONNECT request was refused. *)
Definition SendConnack (t : txref) (code : messages.ReturnCode) : H err :=
  let snConnack := NewConnackMessage code in
  e <- snSend (MConnack snConnack) ;;
  match e with
  | Some e' => Fail t e' ;;; ret (Some e')
  | None => ret None
  end.

(** Assignments to the fields of [t.mqConnect]. *)
Definition updateMqConnect (t : txref) (f : ConnectPacket -> ConnectPacket) : H unit :=
  c <- loadConnect t ;;
  store t (TConnect (mkConnectTransaction (connect_TimedTransaction c) (authEnabled c)
                       (f (mqConnect c)) (authenticated c))).

Definition setCredentials (user : string) (password : bytes) (p : ConnectPacket)
    : ConnectPacket :=
  mkConnectPacket (ProtocolName p) (ProtocolVersion p) (CleanSession p) (WillFlag p)
    (WillQos p) (WillRetain p) true true (Keepalive p) (ClientIdentifier p)
    (WillTopic p) (WillMessage p) user password.

Definition setWillTopic (qos : uint8) (retain : bool) (topic : string) (p : ConnectPacket)
    : ConnectPacket :=
  mkConnectPacket (ProtocolName p) (ProtocolVersion p) (CleanSession p) (WillFlag p)
    qos retain (UsernameFlag p) (PasswordFlag p) (Keepalive p) (ClientIdentifier p)
    topic (WillMessage p) (Username p) (Password p).

Definition setWillMessage (msg : bytes) (p : ConnectPacket) : ConnectPacket :=
  mkConnectPacket (ProtocolName p) (ProtocolVersion p) (CleanSession p) (WillFlag p)
    (WillQos p) (WillRetain p) (UsernameFlag p) (PasswordFlag p) (Keepalive p)
    (ClientIdentifier p) (WillTopic p) msg (Username p) (Password p).

Definition Auth (t : txref) (snMsg : AuthMessage) : H err :=
  if decide (auth_Method snMsg = AUTH_PLAIN) then
    (* Extract username and password from PLAIN data. *)
    match DecodePlain snMsg with
    | inr e => Fail t e ;;; ret (Some e)
    | inl (user, password) =>
        updateMqConnect t (setCredentials user password) ;;;
        c <- loadConnect t ;;
        if WillFlag (mqConnect c) then
          (* Continue with WILLTOPICREQ. *)
          snSend (MWillTopicReq NewWillTopicReqMessage)
        else
          (* All information successfully gathered - send MQTT connect. *)
          mqttSend (Connect (mqConnect c))
    end
  else
    e <- SendConnack t RC_NOT_SUPPORTED ;;
    match e with
    | Some e' => ret (Some e')
    | None =>
        let e' := ErrUnknownAuthMethod (auth_Method snMsg) in
        Fail t e' ;;; ret (Some e')
    end.

Definition WillTopic (t : txref) (snWillTopic : WillTopicMessage) : H err :=
  updateMqConnect t
    (setWillTopic (willtopic_QOS snWillTopic) (willtopic_Retain snWillTopic)
       (willtopic_WillTopic snWillTopic)) ;;;
  (* Continue with WILLMSGREQ. *)
  snSend (MWillMsgReq NewWillMsgReqMessage).

Definition WillMsg (t : txref) (snWillMsg : WillMsgMessage) : H err :=
  updateMqConnect t (setWillMessage (willmsg_WillMsg snWillMsg)) ;;;
  c <- loadConnect t ;;
  (* All information successfully gathered - send MQTT connect. *)
  mqttSend (Connect (mqConnect c)).

Definition Connack (t : txref) (mqConnack : ConnackPacket) : H err :=
  if decide (ReturnCode mqConnack ≠ Accepted) then
    (* We misuse RC_CONGESTION here because MQTT-SN spec v. 1.2 does not
       define any suitable return code. *)
    e <- SendConnack t RC_CONGESTION ;;
    match e with
    | Some e' => ret (Some e')
    | None =>
        let e' := ErrConnectRefused (ReturnCode mqConnack) in
        Fail t e' ;;; ret (Some e')
    end
  else
    (* Must be set before snSend to avoid race condition in tests. *)
    setState util.StateActive ;;;
    e <- SendConnack t RC_ACCEPTED ;;
    match e with
    | Some e' => Fail t e' ;;; ret (Some e')
    | None => Success t ;;; ret None
    end.

(** ** The supervisor: CONNECT and the messages of its sub-flows *)

(** Modelled from the spec: the dispatch of the handler is not under src.
    "the SN CONNECT triggers construction with an MQTT CONNECT skeleton
    (ClientIdentifier, CleanSession, Keepalive=Duration, ProtocolVersion=4,
    ProtocolName=MQTT)"; the Will flag of the skeleton is the one of the
    SN CONNECT, which [Start] reads. *)
Definition mqConnectSkeleton (snConnect : ConnectMessage) : ConnectPacket :=
  mkConnectPacket "MQTT" 4 (connect_CleanSession snConnect) (connect_Will snConnect)
    0 false false false (connect_Duration snConnect)
    (string_of_list_byte (connect_ClientID snConnect)) EmptyString [] EmptyString [].

(** Modelled from the spec: "CONNECT always cancels any live CONNECT
    transaction, then creates a fresh one"; "Replacing a live CONNECT
    cancels the old one synchronously before installing the new";
    "cancellation returns the transaction's Done with the distinguished
    cancelled sentinel; finalizers still run (table removal)".  The handler
    learns the client id here: the predefined topics are per client. *)
Definition handleConnect (snConnect : ConnectMessage) : H err :=
  old <- GetByType CONNECT ;;
  match old with
  | Some t1 => Fail t1 Cancelled
  | None => ret tt
  end ;;;
  modify (set_clientID (string_of_list_byte (connect_ClientID snConnect))) ;;;
  auth <- gets (fun h => AuthEnabled (cfg h)) ;;
  t <- newConnectTransaction auth (mqConnectSkeleton snConnect) ;;
  StoreByType CONNECT t ;;;
  Start t.

End Connect.


(** ** Broker-side publish transactions *)

Definition setSNPublish (p : option PublishMessage) (b : brokerPublishTransactionBase)
    : brokerPublishTransactionBase :=
  mkBrokerPublishTransactionBase (bp_RetryTransaction b) p.

Definition setRetry (rt : RetryTransaction transactionState)
    (b : brokerPublishTransactionBase) : brokerPublishTransactionBase :=
  mkBrokerPublishTransactionBase rt (snPublish b).

Definition SetSNPublish (t : txref) (snPublish : PublishMessage) : H unit :=
  b <- loadBrokerPublish t ;;
  store t (TBrokerPublish (setSNPublish (Some snPublish) b)).

(** [t.Proceed(newState, msg)] on the transaction at address [t]. *)
Definition proceed (t : txref) (newState : transactionState) (msg : data) : H unit :=
  b <- loadBrokerPublish t ;;
  now <- gets now ;;
  store t (TBrokerPublish (setRetry (Proceed now newState msg (bp_RetryTransaction b)) b)).

Definition ProceedSN (t : txref) (newState : transactionState) (snMsg : Message) : H err :=
  proceed t newState (DataSN snMsg) ;;;
  e <- snSend snMsg ;;
  match e with
  | Some e' => Fail t e' ;;; ret (Some e')
  | None =>
      (if decide (newState = transactionDone) then Success t else ret tt) ;;;
      ret None
  end.

Definition ProceedMQTT (t : txref) (newState : transactionState) (mqMsg : ControlPacket)
    : H err :=
  proceed t newState (DataMQTT mqMsg) ;;;
  e <- mqttSend mqMsg ;;
  match e with
  | Some e' => Fail t e' ;;; ret (Some e')
  | None =>
      (if decide (newState = transactionDone) then Success t else ret tt) ;;;
      ret None
  end.

(** [t.handler.registeredTopics.Store(topicID, topicName)] *)
Definition registeredTopics_Store (topicID : uint16) (topicName : string) : H unit :=
  modify (fun h => set_registeredTopics (<[topicID := topicName]> (registeredTopics h)) h).

Definition regack (t : txref) (snRegack : RegackMessage) (newState : transactionState)
    : H err :=
  b <- loadBrokerPublish t ;;
  if decide (State (retry_base (bp_RetryTransaction b)) ≠ Some awaitingRegack) then
    (* Unexpected message: logged. *)
    ret None
  else if decide (regack_ReturnCode snRegack ≠ RC_ACCEPTED) then
    Fail t (ErrRegackReturnCode (regack_ReturnCode snRegack)) ;;;
    ret None
  else
    (* snRegister := t.Data.( *snMsgs.RegisterMessage) *)
    match Data (retry_base (bp_RetryTransaction b)) with
    | Some (DataSN (MRegister snRegister)) =>
        registeredTopics_Store (register_TopicID snRegister)
          (register_TopicName snRegister) ;;;
        match snPublish b with
        | Some p => ProceedSN t newState (MPublish p)
        | None => panic
        end
    | _ => panic
    end.

(** Resend MQTT or MQTT-SN message.  The message is an object the
    transaction keeps: [SetDUP(true)] and [publish.Dup = true] change that
    object, so the function also returns the message as it is afterwards,
    for the caller to write back to the fields that point to it
    ([sharedWithSNPublish]). *)
Definition resend (msgx : option data) : H (err * option data) :=
  match msgx with
  | Some (DataSN msg) =>
      (* Set DUP if applicable. *)
      let msg' := SetDUP true msg in
      e <- snSend msg' ;;
      ret (e, Some (DataSN msg'))
  | Some (DataMQTT msg) =>
      (* PUBLISH is the only message with DUP in MQTT. *)
      let msg' := match msg with
                  | mqttPackets.Publish publish => mqttPackets.Publish (setDup publish)
                  | _ => msg
                  end in
      e <- mqttSend msg' ;;
      ret (e, Some (DataMQTT msg'))
  | None => ret (Some ErrInvalidMessageType, None)
  end.

(** The SN PUBLISH a broker-side publish transaction has as its last message
    is the object [t.snPublish] points to: [regack] hands [t.snPublish] to
    [ProceedSN], and the handler of a PUBLISH of the broker hands one object
    to [SetSNPublish] and to [ProceedSN].  What [resend] has changed in the
    last message is therefore seen through [t.snPublish] too. *)
Definition sharedWithSNPublish (lastMsg : option data) (b : brokerPublishTransactionBase)
    : brokerPublishTransactionBase :=
  match lastMsg, snPublish b with
  | Some (DataSN (MPublish p)), Some _ => setSNPublish (Some p) b
  | _, _ => b
  end.

(** ** Timers *)

(** Modelled from the spec: the timers of package transactions are not
    under src.  [timerFired t] is the instant the timer of the transaction at
    [t] fires; a stopped timer does not fire.  "TimedTransaction: when fired,
    completes with an expired error."  "RetryTransaction: on each tick, if
    attempts remain, invokes resendFn with the last outgoing message; on
    exhaustion, fails with retry exhausted."  An error of the resend function
    fails the transaction. *)
Definition timerFired (t : txref) : H unit :=
  tx <- load t ;;
  match tx with
  | TConnect c =>
      match timed_timer (connect_TimedTransaction c) with
      | None => ret tt
      | Some deadline =>
          modify (fun h => set_now (Z.max (now h) deadline) h) ;;;
          Fail t ErrExpired
      end
  | TBrokerPublish b =>
      let rt := bp_RetryTransaction b in
      match retry_timer rt with
      | None => ret tt
      | Some deadline =>
          modify (fun h => set_now (Z.max (now h) deadline) h) ;;;
          match retries rt with
          | O => Fail t ErrNoMoreRetries
          | S _ =>
              r <- resend (Data (retry_base rt)) ;;
              now <- gets now ;;
              store t (TBrokerPublish
                         (sharedWithSNPublish (snd r)
                            (setRetry (retry_tick now (snd r) rt) b))) ;;;
              match fst r with
              | Some e => Fail t e
              | None => ret tt
              end
          end
      end
  | TSubscribe _ => ret tt
  end.

(** The timer of the transaction at [t] fires [n] times in a row. *)
Fixpoint timerFiredTimes (n : nat) (t : txref) : H unit :=
  match n with
  | O => ret tt
  | S n' => timerFired t ;;; timerFiredTimes n' t
  end.

(** ** Broker-side publish, QoS 1 *)

(** Modelled from the spec: the QoS 1 transaction and the handler of a
    PUBLISH of the broker are not under src.  "QoS 1: RetryTransaction
    AWAITING_PUBACK. The gateway resends SN PUBLISH up to RetryCount times
    at RetryDelay spacing. On SN PUBACK -> MQTT PUBACK to broker; succeed."
    "Non-ACCEPTED PUBACK return codes fail the transaction."  "When
    bridging, the SN message-id and the MQTT message-id are kept equal." *)
Definition newBrokerPublishQOS1Transaction (msgID : uint16) : H txref :=
  now <- gets now ;;
  c <- gets cfg ;;
  alloc (TBrokerPublish
           (mkBrokerPublishTransactionBase
              (NewRetryTransaction now (RetryDelay c) (RetryCount c)
                 (transactions.Delete msgID))
              None)).

Definition brokerPublishQOS1_Regack (t : txref) (snRegack : RegackMessage) : H err :=
  regack t snRegack awaitingPuback.

Definition brokerPublishQOS1_Puback (t : txref) (snPuback : PubackMessage) : H err :=
  b <- loadBrokerPublish t ;;
  if decide (State (retry_base (bp_RetryTransaction b)) ≠ Some awaitingPuback) then
    ret None
  else if decide (puback_ReturnCode snPuback ≠ RC_ACCEPTED) then
    Fail t (ErrPubackReturnCode (puback_ReturnCode snPuback)) ;;;
    ret None
  else
    ProceedMQTT t transactionDone (mqttPackets.Puback (puback_messageID snPuback)).

(** The SN PUBLISH that delivers an MQTT PUBLISH on a topic id already known
    to the client. *)
Definition snPublishOf (topicID : uint16) (topicIDType : uint8) (mqPublish : PublishPacket)
    : PublishMessage :=
  publish_SetMessageID (MessageID mqPublish)
    (NewPublishMessage topicID topicIDType (Payload mqPublish) (Qos mqPublish)
       (Retain mqPublish) false).

Definition handleMqttPublishQOS1 (topicID : uint16) (topicIDType : uint8)
    (mqPublish : PublishPacket) : H err :=
  let snPublish := snPublishOf topicID topicIDType mqPublish in
  t <- newBrokerPublishQOS1Transaction (MessageID mqPublish) ;;
  Store (MessageID mqPublish) t ;;;
  SetSNPublish t snPublish ;;;
  ProceedSN t awaitingPuback (MPublish snPublish).

(** Modelled from the spec: "Packets carrying a message-id route to the live
    transaction with that id; an id with no match is logged and ignored." *)
Definition handlePuback (snPuback : PubackMessage) : H err :=
  r <- Get (puback_messageID snPuback) ;;
  match r with
  | Some t => brokerPublishQOS1_Puback t snPuback
  | None => ret None
  end.

(** ** SUBSCRIBE *)

(** Modelled from the spec: [hasWildcard] is called by the tests and not
    under src.  A topic has a wildcard when it contains [+] or [#]. *)
Fixpoint hasWildcard (topic : string) : bool :=
  match topic with
  | EmptyString => false
  | String c rest =>
      if Ascii.eqb c "+"%char || Ascii.eqb c "#"%char then true else hasWildcard rest
  end.

(** The id a topic name is registered under, if any. *)
Definition registeredTopicID (topicName : string) : H (option uint16) :=
  gets (fun h =>
          match list_find (fun kv => kv.2 = topicName)
                  (map_to_list (registeredTopics h)) with
          | Some (_, (topicID, _)) => Some topicID
          | None => None
          end).

(** Modelled from the spec: the registry of topic ids is not under src.
    "the gateway allocates a registered id for the resolved topic (or
    re-uses the existing one)"; "TopicId: range 1..65534". *)
Definition registerTopic (topicName : string) : H (err * uint16) :=
  known <- registeredTopicID topicName ;;
  match known with
  | Some topicID => ret (None, topicID)
  | None =>
      next <- gets nextTopicID ;;
      if decide (MaxTopicID < next) then ret (Some ErrTopicIDsExhausted, 0)
      else
        modify (set_nextTopicID (next + 1)) ;;;
        registeredTopics_Store next topicName ;;;
        ret (None, next)
  end.

Definition newSubscribeTransaction (snSubscribe : SubscribeMessage) (topic : string)
    : H txref :=
  alloc (TSubscribe
           (mkSubscribeTransaction
              (NewTransactionBase (transactions.Delete (subscribe_messageID snSubscribe)))
              snSubscribe topic)).

(** Modelled from the spec: "client sends SUBSCRIBE(topic-id-type,
    topic-or-id, QoS, msg-id). Gateway forwards MQTT SUBSCRIBE"; "topic
    resolution handles string, short, and predefined forms".  A predefined id
    that is not configured is answered with INVALID_TOPIC_ID. *)
Definition resolveSubscribeTopic (snSubscribe : SubscribeMessage) : H (option string) :=
  if decide (subscribe_TopicIDType snSubscribe = TIT_STRING) then
    ret (Some (string_of_list_byte (subscribe_TopicName snSubscribe)))
  else if decide (subscribe_TopicIDType snSubscribe = TIT_PREDEFINED) then
    gets (fun h => topics.GetTopicName (predefinedTopics h) (clientID h)
                     (subscribe_TopicID snSubscribe))
  else if decide (subscribe_TopicIDType snSubscribe = TIT_SHORT) then
    ret (Some (DecodeShortTopic (subscribe_TopicID snSubscribe)))
  else ret None.

Definition handleSubscribe (snSubscribe : SubscribeMessage) : H err :=
  topic <- resolveSubscribeTopic snSubscribe ;;
  match topic with
  | None =>
      snSend (MSuback (suback_SetMessageID (subscribe_messageID snSubscribe)
                         (NewSubackMessage 0 RC_INVALID_TOPIC_ID
                            (subscribe_QOS snSubscribe))))
  | Some name =>
      t <- newSubscribeTransaction snSubscribe name ;;
      Store (subscribe_messageID snSubscribe) t ;;;
      mqttSend (mqttPackets.Subscribe
                  (mkSubscribePacket (subscribe_messageID snSubscribe) [name]
                     [subscribe_QOS snSubscribe]))
  end.

(** Modelled from the spec: "On MQTT SUBACK: for wildcard topic the
    response carries topic-id=0; for non-wildcard the gateway allocates a
    registered id for the resolved topic (or re-uses the existing one) and
    returns it in SN SUBACK together with the negotiated QoS."  The tests
    under src fix the case the spec leaves out: [testSetup.subscribeShort]
    asserts topic id 0 in the SUBACK of a subscription by short topic name.
    The granted QoS is the one return code of the MQTT SUBACK; the failure
    code 0x80 is surfaced as NOT_SUPPORTED and fails the transaction. *)
Definition subscribe_Suback (t : txref) (mqSuback : SubackPacket) : H err :=
  s <- loadSubscribe t ;;
  if decide (is_Some (done (subscribe_TransactionBase s))) then ret None else
  let snSub := snSubscribe s in
  match ReturnCodes mqSuback with
  | [rc] =>
      if decide (rc = 0x80) then
        e <- snSend (MSuback (suback_SetMessageID (subscribe_messageID snSub)
                                (NewSubackMessage 0 RC_NOT_SUPPORTED
                                   (subscribe_QOS snSub)))) ;;
        Fail t (ErrSubackReturnCodes rc) ;;;
        ret e
      else
        r <- (if hasWildcard (subscribe_topic s)
                 || bool_decide (subscribe_TopicIDType snSub = TIT_SHORT)
              then ret (None, 0)
              else registerTopic (subscribe_topic s)) ;;
        match fst r with
        | Some e => Fail t e ;;; ret (Some e)
        | None =>
            e <- snSend (MSuback (suback_SetMessageID (subscribe_messageID snSub)
                                    (NewSubackMessage (snd r) RC_ACCEPTED rc))) ;;
            match e with
            | Some e' => Fail t e' ;;; ret (Some e')
            | None => Success t ;;; ret None
            end
        end
  | rcs =>
      let e := ErrSubackReturnCodes (Z.of_nat (length rcs)) in
      Fail t e ;;; ret (Some e)
  end.

(** The dispatch of an MQTT SUBACK: by message id, "an unmatched id is
    ignored". *)
Definition handleSuback (mqSuback : SubackPacket) : H err :=
  r <- Get (suback_MessageID mqSuback) ;;
  match r with
  | Some t => subscribe_Suback t mqSuback
  | None => ret None
  end.

(** ** The supervisor: MQTT-SN packets in state DISCONNECTED *)

Section Supervisor.
Variable connectTransactionTimeout : Z.

(** The dispatch of the supervisor for a session that is not in state
    DISCONNECTED. *)
Variable dispatchConnected : Message -> H err.

(** What the handler does with a QoS -1 PUBLISH whose predefined topic id
    is configured for no topic: neither the specification nor a source
    under src says. *)
Variable publishUnknownTopic : PublishMessage -> H err.

(** The type of a message: [msg.MessageType()]. *)
Definition headerOf (m : Message) : Header :=
  match m with
  | MAdvertise m => advertise_Header m
  | MSearchGw m => searchgw_Header m
  | MGwInfo m => gwinfo_Header m
  | MAuth m => auth_Header m
  | MConnect m => connect_Header m
  | MConnack m => connack_Header m
  | MWillTopicReq m => willtopicreq_Header m
  | MWillTopic m => willtopic_Header m
  | MWillMsgReq m => willmsgreq_Header m
  | MWillMsg m => willmsg_Header m
  | MRegister m => register_Header m
  | MRegack m => regack_Header m
  | MPublish m => publish_Header m
  | MPuback m => puback_Header m
  | MPubcomp m => pubcomp_Header m
  | MPubrec m => pubrec_Header m
  | MPubrel m => pubrel_Header m
  | MSubscribe m => subscribe_Header m
  | MSuback m => suback_Header m
  | MUnsubscribe m => unsubscribe_Header m
  | MUnsuback m => unsuback_Header m
  | MPingreq m => pingreq_Header m
  | MPingresp m => pingresp_Header m
  | MDisconnect m => disconnect_Header m
  | MWillTopicUpdate m => willtopicupd_Header m
  | MWillTopicResp m => willtopicresp_Header m
  | MWillMsgUpdate m => willmsgupd_Header m
  | MWillMsgResp m => willmsgresp_Header m
  end.

(** Modelled from the spec: "QoS -1: fire-and-forget; forwarded as MQTT
    QoS 0. Permitted without prior CONNECT only for PREDEFINED and SHORT
    topic-id types, and only when authentication is disabled."  The QoS
    field holds 3 for QoS -1. *)
Definition publishQOS3Allowed (authEnabled : bool) (snPublish : PublishMessage) : bool :=
  bool_decide (publish_QOS snPublish = 3)
  && (bool_decide (publish_TopicIDType snPublish = TIT_PREDEFINED)
      || bool_decide (publish_TopicIDType snPublish = TIT_SHORT))
  && negb authEnabled.

Definition publishQOS3Topic (snPublish : PublishMessage) : H (option string) :=
  if decide (publish_TopicIDType snPublish = TIT_SHORT) then
    ret (Some (DecodeShortTopic (publish_TopicID snPublish)))
  else
    gets (fun h => topics.GetTopicName (predefinedTopics h) (clientID h)
                     (publish_TopicID snPublish)).

Definition handlePublishQOS3 (snPublish : PublishMessage) : H err :=
  topic <- publishQOS3Topic snPublish ;;
  match topic with
  | Some name =>
      mqttSend (mqttPackets.Publish
                  (mkPublishPacket false 0 (publish_Retain snPublish) name 0
                     (publish_Data snPublish)))
  | None => publishUnknownTopic snPublish
  end.

(** "Anything else causes immediate handler termination (no DISCONNECT
    sent)": the reader returns an error. *)
Definition illegal (m : Message) : H err :=
  ret (Some (ErrIllegalMessage (msgType (headerOf m)))).

(** Modelled from the spec: AUTH, WILLTOPIC and WILLMSG belong to the
    CONNECT transaction (section 4.3 of the specification); the tests under
    src deliver them while the state is still DISCONNECTED, TestAuthSuccess
    an AUTH and TestLastWill a WILLTOPIC and a WILLMSG, each after CONNECT
    and before the CONNACK that sets the state.  Without a CONNECT
    transaction they are what rule 1 of the dispatch calls anything else. *)
Definition toConnectTransaction (m : Message) (k : txref -> H err) : H err :=
  r <- GetByType CONNECT ;;
  match r with
  | Some t => k t
  | None => illegal m
  end.

(** Modelled from the spec: "SN DISCONNECT from client with Duration=0:
    forward MQTT DISCONNECT; reply SN DISCONNECT(0); transition to
    DISCONNECTED; terminate handler."  [testSetup.disconnect] of the tests
    sees the two packets in this order and then the end of the handler, in
    TestDisconnectedPublishQOS3Short and TestDisconnectedPublishQOS3Predefined
    without any CONNECT before.  The handler ends by the value [Shutdown]
    the reader returns to the group. *)
Definition handleDisconnect : H err :=
  e <- mqttSend mqttPackets.Disconnect ;;
  match e with
  | Some e' => ret (Some e')
  | None =>
      e <- snSend (MDisconnect (NewDisconnectMessage 0)) ;;
      match e with
      | Some e' => ret (Some e')
      | None => setState util.StateDisconnected ;;; ret (Some Shutdown)
      end
  end.

(** Modelled from the spec: the dispatch of the handler is not under src.
    "In state DISCONNECTED, only CONNECT, PUBLISH with QoS -1 on predefined
    or short topics (when auth disabled), SEARCHGW, and ADVERTISE-related
    packets are legal. Anything else causes immediate handler termination
    (no DISCONNECT sent)."  The tests under src add two cases to these
    words: the packets of the sub-flows of a CONNECT transaction
    ([toConnectTransaction]) and the DISCONNECT with duration 0
    ([handleDisconnect]).  A DISCONNECT with another duration asks for a
    sleep no session is there for: anything else. *)
Definition handleSN (m : Message) : H err :=
  st <- gets state ;;
  match st with
  | util.StateDisconnected =>
      match m with
      | MConnect snConnect => handleConnect connectTransactionTimeout snConnect
      | MAuth snAuth => toConnectTransaction m (fun t => Auth t snAuth)
      | MWillTopic snWillTopic => toConnectTransaction m (fun t => WillTopic t snWillTopic)
      | MWillMsg snWillMsg => toConnectTransaction m (fun t => WillMsg t snWillMsg)
      | MPublish snPublish =>
          auth <- gets (fun h => AuthEnabled (cfg h)) ;;
          if publishQOS3Allowed auth snPublish then handlePublishQOS3 snPublish
          else illegal m
      | MDisconnect snDisconnect =>
          if decide (disconnect_Duration snDisconnect = 0) then handleDisconnect
          else illegal m
      | MSearchGw _ | MAdvertise _ | MGwInfo _ => ret None
      | _ => illegal m
      end
  | _ => dispatchConnected m
  end.

(** One turn of the task that reads the client connection: the packet is
    dispatched, and an error ends the task: it goes to the error group. *)
Definition snReceive (m : Message) : H unit :=
  e <- handleSN m ;;
  groupReturn e.

End Supervisor.

(** The packets rule 1 of the dispatch names as legal in state
    DISCONNECTED: CONNECT, SEARCHGW, the ADVERTISE-related ones, and the
    QoS -1 PUBLISH on a predefined or short topic with authentication
    disabled. *)
Definition legalWhenDisconnected (authEnabled : bool) (m : Message) : bool :=
  match m with
  | MConnect _ | MSearchGw _ | MAdvertise _ | MGwInfo _ => true
  | MPublish snPublish => publishQOS3Allowed authEnabled snPublish
  | _ => false
  end.

(** The packets of the sub-flows of a CONNECT transaction. *)
Definition connectSubflow (m : Message) : bool :=
  match m with
  | MAuth _ | MWillTopic _ | MWillMsg _ => true
  | _ => false
  end.

(** A DISCONNECT with duration 0. *)
Definition disconnectNow (m : Message) : bool :=
  match m with
  | MDisconnect snDisconnect => bool_decide (disconnect_Duration snDisconnect = 0)
  | _ => false
  end.

(** The handler ends on the packet [m]: the reader returns an error to the
    group, the broker connection is closed, and nothing else happens:
    nothing is written to the broker or to the client. *)
Definition rejects (connectTransactionTimeout : Z) (dispatchConnected : Message -> H err)
    (publishUnknownTopic : PublishMessage -> H err) (h : handler) (m : Message) : Prop :=
  exists h',
    snReceive connectTransactionTimeout dispatchConnected publishUnknownTopic m h
      = Some (tt, h') /\
    terminated h' /\
    trace h' = trace h ++ [(now h, EvMqttClose)].

(** ** Reading the trace *)

(** The packets written to the client, oldest first. *)
Fixpoint snSent (tr : list (Z * Event)) : list Message :=
  match tr with
  | [] => []
  | (_, EvSnSend m) :: rest => m :: snSent rest
  | _ :: rest => snSent rest
  end.

(** The packets written to the broker, oldest first. *)
Fixpoint mqttSent (tr : list (Z * Event)) : list ControlPacket :=
  match tr with
  | [] => []
  | (_, EvMqttSend p) :: rest => p :: mqttSent rest
  | _ :: rest => mqttSent rest
  end.

(** The packets written to the client with the instant of each write. *)
Fixpoint snSentAt (tr : list (Z * Event)) : list (Z * Message) :=
  match tr with
  | [] => []
  | (time, EvSnSend m) :: rest => (time, m) :: snSentAt rest
  | _ :: rest => snSentAt rest
  end.

(** The transaction at [t] exists and is live. *)
Definition liveAt (h : handler) (t : txref) : Prop :=
  exists tx, heap h !! t = Some tx /\ live tx.

(** The retry timer of the broker-side publish transaction at [t] is
    stopped. *)
Definition stoppedAt (h : handler) (t : txref) : Prop :=
  exists b, heap h !! t = Some (TBrokerPublish b) /\
            retry_timer (bp_RetryTransaction b) = None.

(** The result of a transaction: [None] while it is live. *)
Definition resultOf (h : handler) (t : txref) : option err :=
  match heap h !! t with
  | Some tx => done (baseOf tx)
  | None => None
  end.

End gateway.

(* ===================================================================== *)
(** * Package [client]: two transactions of the MQTT-SN client            *)
(* ===================================================================== *)

Module client.
Import messages transactions.

(** The transaction states of package client: the constants are declared
    outside src; the transactions under src name [awaitingPuback].  The
    stages are the ones of the specification. *)
Inductive transactionState :=
| transactionDone
| awaitingRegack
| awaitingPuback
| awaitingPubrec
| awaitingPubrel
| awaitingPubcomp.

#[global] Instance transactionState_eq_dec : EqDecision transactionState.
Proof. solve_decision. Defined.

Definition txref := nat.

(** [publishQOS1Transaction] embeds [transaction], which embeds
    [RetryTransaction]. *)
Record publishQOS1Transaction := mkPublishQOS1Transaction {
  qos1_RetryTransaction : RetryTransaction transactionState
}.

Record brokerPublishQOS2Transaction := mkBrokerPublishQOS2Transaction {
  qos2_TransactionBase : TransactionBase transactionState;
  publish : option PublishMessage
}.

Inductive transaction :=
| TPublishQOS1 (t : publishQOS1Transaction)
| TBrokerPublishQOS2 (t : brokerPublishQOS2Transaction).

Definition baseOf (t : transaction) : TransactionBase transactionState :=
  match t with
  | TPublishQOS1 q => retry_base (qos1_RetryTransaction q)
  | TBrokerPublishQOS2 q => qos2_TransactionBase q
  end.

Definition setDone (res : err) (t : transaction) : transaction :=
  match t with
  | TPublishQOS1 q =>
      TPublishQOS1 (mkPublishQOS1Transaction (retry_setDone res (qos1_RetryTransaction q)))
  | TBrokerPublishQOS2 q =>
      TBrokerPublishQOS2
        (mkBrokerPublishQOS2Transaction (base_setDone res (qos2_TransactionBase q))
           (publish q))
  end.

(** The client: its transaction table, the heap of transaction objects,
    the messages it wrote to the gateway, and the calls of
    [messageHandlers.handle] it made, both in the order they happened. *)
Record Client := mkClient {
  transactions : gmap Z txref;
  heap : list transaction;
  sent : list Message;
  handled : list (string * PublishMessage);
  sendFault : err
}.

Definition set_transactions (v : gmap Z txref) (c : Client) : Client :=
  mkClient v (heap c) (sent c) (handled c) (sendFault c).
Definition set_heap (v : list transaction) (c : Client) : Client :=
  mkClient (transactions c) v (sent c) (handled c) (sendFault c).
Definition set_sent (v : list Message) (c : Client) : Client :=
  mkClient (transactions c) (heap c) v (handled c) (sendFault c).
Definition set_handled (v : list (string * PublishMessage)) (c : Client) : Client :=
  mkClient (transactions c) (heap c) (sent c) v (sendFault c).

Abbreviation C := (M Client).

Definition alloc (t : transaction) : C txref :=
  fun c => Some (length (heap c), set_heap (heap c ++ [t]) c).

Definition load (r : txref) : C transaction :=
  fun c => match heap c !! r with
           | Some t => Some (t, c)
           | None => None
           end.

Definition store (r : txref) (t : transaction) : C unit :=
  modify (fun c => set_heap (<[r := t]> (heap c)) c).

Definition loadPublishQOS1 (r : txref) : C publishQOS1Transaction :=
  t <- load r ;;
  match t with TPublishQOS1 q => ret q | _ => panic end.

Definition loadBrokerPublishQOS2 (r : txref) : C brokerPublishQOS2Transaction :=
  t <- load r ;;
  match t with TBrokerPublishQOS2 q => ret q | _ => panic end.

(** Modelled from the spec: [client.send] is not under src.  The message is
    written to the gateway, or the error of the connection is returned. *)
Definition send (m : Message) : C err :=
  f <- gets sendFault ;;
  match f with
  | Some e => ret (Some e)
  | None => modify (fun c => set_sent (sent c ++ [m]) c) ;;; ret None
  end.

(** [t.client.messageHandlers.handle(t.client, topic, publish)]: the
    subscription handlers of the topic are run on the message. *)
Definition messageHandlers_handle (topic : string) (publish : PublishMessage) : C unit :=
  modify (fun c => set_handled (handled c ++ [(topic, publish)]) c).

Definition runFinalizer (f : finalizer) : C unit :=
  match f with
  | transactions.Delete msgID =>
      modify (fun c => set_transactions (delete msgID (transactions c)) c)
  | transactions.DeleteByType _ => ret tt
  end.

(** Modelled from the spec: "completion is terminal; further inputs are
    ignored. Completion runs the finalizer exactly once." *)
Definition complete (r : txref) (res : err) : C unit :=
  t <- load r ;;
  match done (baseOf t) with
  | Some _ => ret tt
  | None => store r (setDone res t) ;;; runFinalizer (doneFn (baseOf t))
  end.

Definition Success (r : txref) : C unit := complete r None.
Definition Fail (r : txref) (e : error) : C unit := complete r (Some e).

(** ** [publishQOS1Transaction] *)

Definition newPublishQOS1Transaction (retryDelay : Z) (retryCount : nat) (msgID : uint16)
    : C txref :=
  alloc (TPublishQOS1
           (mkPublishQOS1Transaction
              (NewRetryTransaction 0 retryDelay retryCount (transactions.Delete msgID)))).

Definition publishQOS1_Puback (t : txref) (puback : PubackMessage) : C unit :=
  q <- loadPublishQOS1 t ;;
  if decide (State (retry_base (qos1_RetryTransaction q)) ≠ Some awaitingPuback) then
    (* Unexpected message: logged. *)
    ret tt
  else
    Success t.

(** ** [brokerPublishQOS2Transaction] *)

Section BrokerPublishQOS2.
(** [client.topicForPublish]: the topic name a PUBLISH of the gateway is
    about, or an error. *)
Variable topicForPublish : PublishMessage -> Client -> string + error.

Definition newBrokerPublishQOS2Transaction (msgID : uint16) : C txref :=
  alloc (TBrokerPublishQOS2
           (mkBrokerPublishQOS2Transaction
              (NewTransactionBase (transactions.Delete msgID)) None)).

Definition Publish (t : txref) (p : PublishMessage) : C err :=
  q <- loadBrokerPublishQOS2 t ;;
  store t (TBrokerPublishQOS2
             (mkBrokerPublishQOS2Transaction (qos2_TransactionBase q) (Some p))) ;;;
  let pubrec := pubrec_SetMessageID (publish_messageID p) NewPubrecMessage in
  send (MPubrec pubrec).

Definition Pubrel (t : txref) (pubrel : PubrelMessage) : C err :=
  let pubcomp := pubcomp_SetMessageID (pubrel_messageID pubrel) NewPubcompMessage in
  q <- loadBrokerPublishQOS2 t ;;
  match publish q with
  | None => panic
  | Some p =>
      r <- gets (topicForPublish p) ;;
      match r with
      | inr e => ret (Some e)
      | inl topic =>
          messageHandlers_handle topic p ;;;
          e <- send (MPubcomp pubcomp) ;;
          match e with
          | Some e' => ret (Some e')
          | None => Success t ;;; ret None
          end
      end
  end.

(** Modelled from the spec: the dispatch of the client is not under src.
    A QoS 2 PUBLISH of the gateway creates the transaction of its message
    id and stores it in the table; "packets carrying a message-id route to
    the live transaction with that id; an id with no match is logged and
    ignored". *)
Definition handlePublishQOS2 (p : PublishMessage) : C err :=
  t <- newBrokerPublishQOS2Transaction (publish_messageID p) ;;
  modify (fun c => set_transactions (<[publish_messageID p := t]> (transactions c)) c) ;;;
  Publish t p.

Definition handlePubrel (pubrel : PubrelMessage) : C err :=
  r <- gets (fun c => transactions c !! pubrel_messageID pubrel) ;;
  match r with
  | Some t => Pubrel t pubrel
  | None => ret None
  end.

(** The packets of a QoS 2 delivery that reach the client. *)
Inductive input :=
| InPublish (p : PublishMessage)
| InPubrel (r : PubrelMessage).

Definition receive (i : input) : C err :=
  match i with
  | InPublish p => handlePublishQOS2 p
  | InPubrel r => handlePubrel r
  end.

(** The client reads the packets one after the other; an error ends it. *)
Fixpoint receiveAll (l : list input) : C err :=
  match l with
  | [] => ret None
  | i :: rest =>
      e <- receive i ;;
      match e with
      | Some e' => ret (Some e')
      | None => receiveAll rest
      end
  end.
End BrokerPublishQOS2.

(** The table holds, under the message id of the PUBLISH [p], a live
    transaction that keeps [p]. *)
Definition holdsPublish (c : Client) (p : PublishMessage) : Prop :=
  exists t,
    transactions c !! publish_messageID p = Some t /\
    heap c !! t =
      Some (TBrokerPublishQOS2
              (mkBrokerPublishQOS2Transaction
                 (NewTransactionBase (transactions.Delete (publish_messageID p)))
                 (Some p))).

End client.

(* ===================================================================== *)
(** * Sample sessions                                                     *)
(* ===================================================================== *)

Module samples.
Import messages mqttPackets transactions gateway.

(** The configuration of the handler in gateway_test.go: one second of
    retry delay (in milliseconds), two retries. *)
Definition testConfig (auth : bool) : handlerConfig := mkHandlerConfig auth 1000 2.

Definition connectTimeout : Z := 10000.

(** [snMsgs.NewConnectMessage(clientID, true, false, 1)] of the tests. *)
Definition sampleConnect : ConnectMessage :=
  NewConnectMessage (list_byte_of_string "test-client") true false 1.

(** The handler of the tests after the CONNECT of the client. *)
Definition afterConnect (auth : bool) : handler :=
  match handleConnect connectTimeout sampleConnect (newHandler (testConfig auth) ∅) with
  | Some (_, h) => h
  | None => newHandler (testConfig auth) ∅
  end.

(** Two CONNECTs in a row on a fresh handler, both forwarded to the broker
    as MQTT CONNECT: what the broker has received after the second one. *)
Definition bothConnectsForwarded (cfg : handlerConfig) (c1 c2 : ConnectMessage) : Prop :=
  exists h1 h2,
    exec (handleConnect connectTimeout c1) (newHandler cfg ∅) = Some h1 /\
    exec (handleConnect connectTimeout c2) h1 = Some h2 /\
    mqttSent (trace h2) = [Connect (mqConnectSkeleton c1); Connect (mqConnectSkeleton c2)].

(** [snMsgs.NewAuthPlain("test-user", []byte("test-pwd"))] of the tests. *)
Definition sampleAuth : AuthMessage :=
  NewAuthPlain "test-user" (list_byte_of_string "test-pwd").

(** ** A broker-side QoS 1 delivery

    The handler [h] receives the MQTT PUBLISH [mqPublish] on a topic the
    client knows as [topicID]; the client then loses [N] PUBACKs in a row. *)
Section Delivery.
Variables (h : handler) (topicID : uint16) (topicIDType : uint8)
          (mqPublish : PublishPacket).

Definition firstPublish : PublishMessage := snPublishOf topicID topicIDType mqPublish.
Definition dupPublish : PublishMessage := publish_SetDUP true firstPublish.

(** The instant of the [i]-th resend. *)
Definition resendTime (i : nat) : Z := now h + Z.of_nat i * RetryDelay (cfg h).

(** What the client receives: the PUBLISH, then [N] resends. *)
Definition received (N : nat) : list (Z * Message) :=
  (now h, MPublish firstPublish)
  :: map (fun i => (resendTime i, MPublish dupPublish)) (seq 1 N).

Definition receivedEvents (N : nat) : list (Z * Event) :=
  map (fun x => (fst x, EvSnSend (snd x))) (received N).

(** The transaction after [N] resends, still waiting for PUBACK: the
    PUBLISH it keeps has its DUP flag set by the first resend. *)
Definition waitingTransaction (N : nat) : transaction :=
  TBrokerPublish
    (mkBrokerPublishTransactionBase
       (mkRetryTransaction
          (mkTransactionBase (Some awaitingPuback)
             (Some (DataSN (MPublish (match N with
                                      | O => firstPublish
                                      | S _ => dupPublish
                                      end))))
             None (transactions.Delete (MessageID mqPublish)))
          (RetryDelay (cfg h)) (RetryCount (cfg h)) (RetryCount (cfg h) - N)
          (Some (resendTime (S N))))
       (Some (match N with
              | O => firstPublish
              | S _ => dupPublish
              end))).

(** The handler after [N] resends. *)
Definition waiting (N : nat) : handler :=
  set_trace (trace h ++ receivedEvents N)
    (set_now (resendTime N)
       (set_heap (heap h ++ [waitingTransaction N])
          (set_byID (<[MessageID mqPublish := length (heap h)]> (byID h)) h))).
End Delivery.

(** The MQTT PUBLISH of TestSubscribeQOS1, and the id the topic has for the
    client. *)
Definition samplePublish : PublishPacket :=
  mkPublishPacket false 1 false "test/topic" 1 (list_byte_of_string "test-msg-1").

Definition sampleTopicID : uint16 := 1.

(** ** Subscriptions *)

(** [testSetup.subscribeShort("ab", 0)]: a SUBSCRIBE by short topic name,
    with the message id the test gives it. *)
Definition sampleShortSubscribe : SubscribeMessage :=
  subscribe_SetMessageID 1
    (NewSubscribeMessage (EncodeShortTopic "ab") TIT_SHORT [] 0 false).

(** [testSetup.subscribe("test/topic", 1)]. *)
Definition sampleSubscribe : SubscribeMessage :=
  subscribe_SetMessageID 1
    (NewSubscribeMessage 0 TIT_STRING (list_byte_of_string "test/topic") 1 false).

(** The handler after the SUBSCRIBE [m] on a fresh session. *)
Definition afterSubscribe (m : SubscribeMessage) : handler :=
  match handleSubscribe m (newHandler (testConfig false) ∅) with
  | Some (_, h) => h
  | None => newHandler (testConfig false) ∅
  end.

(** The topic id of a SUBACK as the specification has it: zero for a
    topic with a wildcard, a registered topic id otherwise. *)
Definition subackTopicIDAsClaimed (topic : string) (snSuback : SubackMessage) : Prop :=
  if hasWildcard topic then suback_TopicID snSuback = 0
  else MinTopicID <= suback_TopicID snSuback <= MaxTopicID.

(** ** The client *)

(** A client with one QoS 1 publish transaction that has not sent its
    PUBLISH yet: its state is still nil. *)
Definition clientWithPublish : client.Client :=
  match client.newPublishQOS1Transaction 1000 2 1
          (client.mkClient ∅ [] [] [] None) with
  | Some (_, c) => c
  | None => client.mkClient ∅ [] [] [] None
  end.

(** The QoS 2 PUBLISH of TestSubscribeQOS2 as the client receives it. *)
Definition sampleQOS2Publish : PublishMessage :=
  publish_SetMessageID 1
    (NewPublishMessage sampleTopicID TIT_REGISTERED (list_byte_of_string "test-msg-1")
       2 false false).

Definition sampleTopicForPublish (p : PublishMessage) (c : client.Client) : string + error :=
  inl "test/topic"%string.

End samples.

(* ===================================================================== *)
(** * More sample sessions                                                *)
(* ===================================================================== *)

Module scenarios.
Import messages mqttPackets transactions gateway samples.

(** [snMsgs.NewConnectMessage(clientID, true, true, keepalive)] of
    TestLastWill: a CONNECT with the Will flag. *)
Definition willConnect : ConnectMessage :=
  NewConnectMessage (list_byte_of_string "test-client") true true 1.

(** The handler after that CONNECT. *)
Definition afterWillConnect (auth : bool) : handler :=
  match handleConnect connectTimeout willConnect (newHandler (testConfig auth) ∅) with
  | Some (_, h) => h
  | None => newHandler (testConfig auth) ∅
  end.

(** The CONNECT transaction [afterWillConnect] and [afterConnect] hold at
    address 0. *)
Definition connectTransactionOf (auth : bool) (snConnect : ConnectMessage)
    : connectTransaction :=
  mkConnectTransaction
    (NewTimedTransaction 0 connectTimeout (transactions.DeleteByType CONNECT))
    auth (mqConnectSkeleton snConnect) false.

(** The CONNECT transaction [c] after an assignment to the fields of
    [c.mqConnect]. *)
Definition withMqConnect (f : ConnectPacket -> ConnectPacket) (c : connectTransaction)
    : connectTransaction :=
  mkConnectTransaction (connect_TimedTransaction c) (authEnabled c) (f (mqConnect c))
    (authenticated c).

(** The WILLTOPIC and WILLMSG of TestLastWill. *)
Definition sampleWillTopic : WillTopicMessage := NewWillTopicMessage "test/status" 1 true.
Definition sampleWillMsg : WillMsgMessage :=
  NewWillMsgMessage (list_byte_of_string "offline").

(** A handler with the CONNECT transaction of [snConnect] created and in
    the table, before [Start]. *)
Definition installed (auth : bool) (snConnect : ConnectMessage) : handler :=
  match (t <- newConnectTransaction connectTimeout auth (mqConnectSkeleton snConnect) ;;
         StoreByType CONNECT t) (newHandler (testConfig auth) ∅) with
  | Some (_, h) => h
  | None => newHandler (testConfig auth) ∅
  end.

(** A handler whose connection to the client, or to the broker, is broken:
    every write returns the error. *)
Definition clientGone (h : handler) : handler :=
  set_snFault (Some (ErrWrite "broken pipe")) h.
Definition brokerGone (h : handler) : handler :=
  set_mqttFault (Some (ErrWrite "broken pipe")) h.

(** ** Packets in state DISCONNECTED *)

(** The QoS -1 PUBLISH of TestDisconnectedPublishQOS3Short, on the short
    topic "ab", with the message id the test gives it. *)
Definition shortPublishQOS3 : PublishMessage :=
  publish_SetMessageID 1
    (NewPublishMessage (EncodeShortTopic "ab") TIT_SHORT (list_byte_of_string "test-msg-0")
       3 false false).

(** One packet of the client read by a handler; the session of these
    samples never leaves state DISCONNECTED, and their predefined topics
    resolve. *)
Definition afterPacket (m : Message) (h : handler) : handler :=
  match snReceive connectTimeout (fun _ => ret None) (fun _ => ret None) m h with
  | Some (_, h') => h'
  | None => h
  end.

(** The handler of that test after the PUBLISH, with no CONNECT before. *)
Definition afterPublishQOS3 : handler :=
  afterPacket (MPublish shortPublishQOS3) (newHandler (testConfig false) ∅).

(** The handler of TestLastWill after CONNECT and WILLTOPIC. *)
Definition afterWillTopic : handler :=
  afterPacket (MWillTopic sampleWillTopic) (afterWillConnect false).

(** An AUTH with method PLAIN and no data. *)
Definition emptyAuth : AuthMessage := NewAuthMessage AUTH_PLAIN [].

(** ** A broker-side publish that waits for REGACK

    The broker has published on "test/topic", which the client does not
    know yet: the gateway has sent REGISTER with a fresh topic id and keeps
    the PUBLISH for later. *)
Definition sampleRegister : RegisterMessage :=
  register_SetMessageID 1 (NewRegisterMessage sampleTopicID "test/topic").

Definition awaitingRegackTransaction : brokerPublishTransactionBase :=
  mkBrokerPublishTransactionBase
    (Proceed 0 awaitingRegack (DataSN (MRegister sampleRegister))
       (NewRetryTransaction 0 1000 2 (transactions.Delete 1)))
    (Some (firstPublish sampleTopicID TIT_REGISTERED samplePublish)).

Definition awaitingRegackHandler : handler :=
  set_byID (<[1 := 0%nat]> ∅)
    (set_heap [TBrokerPublish awaitingRegackTransaction] (newHandler (testConfig false) ∅)).

(** ** The client *)

(** A client whose QoS 1 PUBLISH with message id 1 is sent and not yet
    acknowledged. *)
Definition clientAwaitingPuback : client.Client :=
  client.mkClient (<[1 := 0%nat]> ∅)
    [client.TPublishQOS1
       (client.mkPublishQOS1Transaction
          (Proceed 0 client.awaitingPuback (DataSN (MPublish sampleQOS2Publish))
             (NewRetryTransaction 0 1000 2 (transactions.Delete 1))))]
    [] [] None.

(** A client with a fresh broker-side QoS 2 transaction for message id 1,
    and the same client after the PUBLISH. *)
Definition clientWithQOS2 : client.Client :=
  client.mkClient (<[1 := 0%nat]> ∅)
    [client.TBrokerPublishQOS2
       (client.mkBrokerPublishQOS2Transaction
          (NewTransactionBase (transactions.Delete 1)) None)]
    [] [] None.

Definition clientHoldingPublish (fault : err) : client.Client :=
  client.mkClient (<[1 := 0%nat]> ∅)
    [client.TBrokerPublishQOS2
       (client.mkBrokerPublishQOS2Transaction
          (NewTransactionBase (transactions.Delete 1)) (Some sampleQOS2Publish))]
    [] [] fault.

(** A second PUBLISH with the message id of [sampleQOS2Publish] and another
    payload. *)
Definition otherQOS2Publish : PublishMessage :=
  publish_SetMessageID 1
    (NewPublishMessage sampleTopicID TIT_REGISTERED (list_byte_of_string "test-msg-2")
       2 false false).

End scenarios.

(* ===================================================================== *)
(** * Properties                                                          *)
(* ===================================================================== *)

Import messages mqttPackets transactions gateway.

(** Unfolding of the operations of the handler monad. *)
Create HintDb gw discriminated.
#[local] Hint Unfold Connack Auth WillTopic WillMsg Start SendConnack updateMqConnect
  handleConnect newConnectTransaction
  loadConnect loadBrokerPublish loadSubscribe Success Fail complete
  signalDone runFinalizer groupReturn groupGo setState snSend mqttSend emit
  GetByType StoreByType DeleteByType Get Store Delete alloc load store
  registeredTopics_Store bind modify gets get ret panic : gw.

Ltac gw_unfold := repeat autounfold with gw in *.

Lemma snSent_app tr1 tr2 : snSent (tr1 ++ tr2) = snSent tr1 ++ snSent tr2.
Proof.
  induction tr1 as [|[time e] tr1 IH]; [reflexivity|].
  destruct e; cbn; rewrite IH; reflexivity.
Qed.

Lemma mqttSent_app tr1 tr2 : mqttSent (tr1 ++ tr2) = mqttSent tr1 ++ mqttSent tr2.
Proof.
  induction tr1 as [|[time e] tr1 IH]; [reflexivity|].
  destruct e; cbn; rewrite IH; reflexivity.
Qed.

Lemma snSentAt_app tr1 tr2 : snSentAt (tr1 ++ tr2) = snSentAt tr1 ++ snSentAt tr2.
Proof.
  induction tr1 as [|[time e] tr1 IH]; [reflexivity|].
  destruct e; cbn; rewrite IH; reflexivity.
Qed.

Lemma done_setDone res tx : done (gateway.baseOf (gateway.setDone res tx)) = Some res.
Proof. destruct tx; reflexivity. Qed.

Lemma doneFn_setDone res tx :
  doneFn (gateway.baseOf (gateway.setDone res tx)) = doneFn (gateway.baseOf tx).
Proof. destruct tx; reflexivity. Qed.

(** The newest object of a heap. *)
Lemma lookup_last {A} (l : list A) (x : A) : (l ++ [x]) !! length l = Some x.
Proof. apply list_lookup_middle. reflexivity. Qed.

Lemma insert_last {A} (l : list A) (x y : A) : <[length l := y]> (l ++ [x]) = l ++ [y].
Proof.
  rewrite insert_app_r_alt by lia. rewrite Nat.sub_diag. reflexivity.
Qed.

Ltac heap_last := repeat (rewrite ?insert_last, ?lookup_last; cbn).

(** Two handlers are equal when their fields are. *)
Lemma handler_eq (h1 h2 : handler) :
  cfg h1 = cfg h2 -> predefinedTopics h1 = predefinedTopics h2 ->
  clientID h1 = clientID h2 -> state h1 = state h2 -> byID h1 = byID h2 ->
  byType h1 = byType h2 -> registeredTopics h1 = registeredTopics h2 ->
  nextTopicID h1 = nextTopicID h2 -> heap h1 = heap h2 -> tasks h1 = tasks h2 ->
  groupErr h1 = groupErr h2 -> now h1 = now h2 -> snFault h1 = snFault h2 ->
  mqttFault h1 = mqttFault h2 -> trace h1 = trace h2 ->
  h1 = h2.
Proof. destruct h1, h2; cbn; intros; subst; reflexivity. Qed.

(** The fields of a handler built by field updates. *)
Ltac handler_fields :=
  cbn [set_clientID set_state set_byID set_byType set_registeredTopics
       set_nextTopicID set_heap set_tasks set_groupErr set_now set_snFault
       set_mqttFault set_trace
       cfg predefinedTopics clientID state byID byType registeredTopics nextTopicID
       heap tasks groupErr now snFault mqttFault trace].

(* ===================================================================== *)
(** * The CONNECT transaction                                             *)
(* ===================================================================== *)

Import samples scenarios.


(** C3, with the forwarding as the code has it: for a live CONNECT
    transaction T1 of the handler, a second SN CONNECT cancels T1 (its
    result is the sentinel [Cancelled], its finalizer empties the CONNECT
    slot of the transaction table, the group of the handler records no
    error) and installs a fresh CONNECT transaction T2 different from T1.
    Each of the two CONNECTs, the first on a handler with no CONNECT
    transaction and the second, is forwarded to the broker as an MQTT
    CONNECT at once exactly when authentication is disabled and the CONNECT
    has no Will flag; with authentication disabled and the Will flag the
    client is sent WILLTOPICREQ and the broker nothing, and with
    authentication enabled nothing is written at all. *)
Theorem C3_second_connect_cancels_first
    (timeout : Z) (h : handler) (t1 : txref) (tx1 : transaction) (snConnect : ConnectMessage) :
  byType h !! CONNECT = Some t1 ->
  heap h !! t1 = Some tx1 ->
  live tx1 ->
  doneFn (baseOf tx1) = transactions.DeleteByType CONNECT ->
  groupErr h = None ->
  snFault h = None ->
  mqttFault h = None ->
  (exists h1 h2 t2 c2,
    (* T1 is cancelled: Done fires with the sentinel, the finalizer empties
       the slot of the table, the handler goes on *)
    Fail t1 Cancelled h = Some (tt, h1) /\
    resultOf h1 t1 = Some (Some Cancelled) /\
    byType h1 !! CONNECT = None /\
    groupErr h1 = None /\
    trace h1 = trace h /\
    (* T2 is installed *)
    handleConnect timeout snConnect h = Some (None, h2) /\
    resultOf h2 t1 = Some (Some Cancelled) /\
    byType h2 !! CONNECT = Some t2 /\
    t2 <> t1 /\
    heap h !! t2 = None /\
    heap h2 !! t2 = Some (TConnect c2) /\
    live (TConnect c2) /\
    mqConnect c2 = mqConnectSkeleton snConnect /\
    groupErr h2 = None /\
    (* and the second CONNECT is forwarded at once exactly when nothing else
       is to be gathered *)
    (AuthEnabled (cfg h) = false -> connect_Will snConnect = false ->
       trace h2 = trace h ++ [(now h, EvMqttSend (Connect (mqConnectSkeleton snConnect)))]) /\
    (AuthEnabled (cfg h) = false -> connect_Will snConnect = true ->
       trace h2 = trace h ++ [(now h, EvSnSend (MWillTopicReq NewWillTopicReqMessage))]) /\
    (AuthEnabled (cfg h) = true -> trace h2 = trace h) /\
    mqttSent (trace h2) =
      mqttSent (trace h)
      ++ (if negb (AuthEnabled (cfg h)) && negb (connect_Will snConnect)
          then [Connect (mqConnectSkeleton snConnect)] else [])) /\
  (* the first CONNECT, on a handler with no CONNECT transaction *)
  (forall (h0 : handler) (snConnect1 : ConnectMessage),
     byType h0 !! CONNECT = None ->
     snFault h0 = None ->
     mqttFault h0 = None ->
     exists h1 t c,
       handleConnect timeout snConnect1 h0 = Some (None, h1) /\
       byType h1 !! CONNECT = Some t /\
       heap h1 !! t = Some (TConnect c) /\
       live (TConnect c) /\
       doneFn (baseOf (TConnect c)) = transactions.DeleteByType CONNECT /\
       mqConnect c = mqConnectSkeleton snConnect1 /\
       groupErr h1 = groupErr h0 /\
       snFault h1 = None /\
       mqttFault h1 = None /\
       (AuthEnabled (cfg h0) = false -> connect_Will snConnect1 = false ->
          trace h1 = trace h0
                     ++ [(now h0, EvMqttSend (Connect (mqConnectSkeleton snConnect1)))]) /\
       (AuthEnabled (cfg h0) = false -> connect_Will snConnect1 = true ->
          trace h1 = trace h0
                     ++ [(now h0, EvSnSend (MWillTopicReq NewWillTopicReqMessage))]) /\
       (AuthEnabled (cfg h0) = true -> trace h1 = trace h0) /\
       mqttSent (trace h1) =
         mqttSent (trace h0)
         ++ (if negb (AuthEnabled (cfg h0)) && negb (connect_Will snConnect1)
             then [Connect (mqConnectSkeleton snConnect1)] else [])) /\
  (* the MQTT CONNECT of an SN CONNECT *)
  ClientIdentifier (mqConnectSkeleton snConnect)
    = string_of_list_byte (connect_ClientID snConnect) /\
  CleanSession (mqConnectSkeleton snConnect) = connect_CleanSession snConnect /\
  Keepalive (mqConnectSkeleton snConnect) = connect_Duration snConnect /\
  WillFlag (mqConnectSkeleton snConnect) = connect_Will snConnect.
Proof.
  intros Htab Hheap Hlive Hfin Hgroup Hsn Hmq. unfold live in Hlive.
  assert (Hlt : (t1 < length (heap h))%nat) by (eapply lookup_lt_Some; eauto).
  assert (Hnew : forall x y, (<[t1:=x]> (heap h) ++ [y]) !! length (heap h) = Some y)
    by (intros; apply list_lookup_middle; rewrite length_insert; reflexivity).
  assert (Hold : forall x y, (<[t1:=x]> (heap h) ++ [y]) !! t1 = Some x).
  { intros. rewrite lookup_app_l by (rewrite length_insert; assumption).
    apply list_lookup_insert_eq; assumption. }
  split; [|split; [|repeat split; reflexivity]].
  - unfold resultOf.
    gw_unfold. cbn. rewrite Htab. cbn. rewrite Hheap. cbn. rewrite Hlive, Hfin. cbn.
    destruct (decide (WatchConnect t1 ∈ tasks h)); cbn; rewrite ?length_insert, ?Hnew; cbn;
      destruct (AuthEnabled (cfg h)); cbn;
      destruct (connect_Will snConnect); cbn; rewrite ?Hsn, ?Hmq; cbn;
      (eexists; eexists; exists (length (heap h)); eexists; repeat split;
       (cbn;
        rewrite ?Hold, ?Hnew, ?list_lookup_insert_eq by assumption; cbn;
        rewrite ?done_setDone, ?lookup_delete_eq, ?lookup_insert_eq, ?length_insert;
        rewrite ?mqttSent_app, ?app_nil_r; cbn; rewrite ?app_nil_r;
        try reflexivity; try assumption; try congruence; try lia;
        try (apply lookup_ge_None; lia);
        try (intros; first [discriminate | reflexivity]))).
  - intros h0 snConnect1 Htab0 Hsn0 Hmq0.
    gw_unfold. cbn. rewrite Htab0. cbn. rewrite !lookup_last. cbn.
    destruct (AuthEnabled (cfg h0)); cbn;
      destruct (connect_Will snConnect1); cbn; rewrite ?Hsn0, ?Hmq0; cbn;
      (eexists; exists (length (heap h0)); eexists; repeat split;
       (cbn; rewrite ?lookup_insert_eq, ?lookup_last, ?mqttSent_app, ?app_nil_r; cbn;
        rewrite ?app_nil_r; try reflexivity; try assumption;
        try (intros; first [discriminate | reflexivity]))).
Qed.




(** C5: on an MQTT CONNACK with a return code other than Accepted the
    gateway writes one SN CONNACK to the client, with return code
    CONGESTION, and nothing to the broker, the CONNECT transaction fails
    with an error that carries the return code of the broker, the handler
    ends with that error, and its state is still DISCONNECTED, the state a
    session has from its start up to an accepted CONNACK: a CONNECT on a new
    handler leaves a transaction and a handler as the theorem takes them. *)
Theorem C5_connack_refused
    (h : handler) (t : txref) (c : connectTransaction) (mqConnack : ConnackPacket) :
  heap h !! t = Some (TConnect c) ->
  live (TConnect c) ->
  WatchConnect t ∈ tasks h ->
  groupErr h = None ->
  snFault h = None ->
  state h = util.StateDisconnected ->
  mqttPackets.ReturnCode mqConnack ≠ Accepted ->
  (exists h' snConnack,
    Connack t mqConnack h
      = Some (Some (ErrConnectRefused (mqttPackets.ReturnCode mqConnack)), h') /\
    snSent (trace h') = snSent (trace h) ++ [MConnack snConnack] /\
    connack_ReturnCode snConnack = RC_CONGESTION /\
    mqttSent (trace h') = mqttSent (trace h) /\
    resultOf h' t = Some (Some (ErrConnectRefused (mqttPackets.ReturnCode mqConnack))) /\
    groupErr h' = Some (ErrTransaction "CONNECT"
                          (ErrConnectRefused (mqttPackets.ReturnCode mqConnack))) /\
    terminated h' /\
    state h' = util.StateDisconnected) /\
  (* the handler of a new session after its CONNECT *)
  (forall (timeout : Z) (cfg0 : handlerConfig) (topics0 : topics.PredefinedTopics)
          (snConnect : ConnectMessage),
     exists h1 c1,
       handleConnect timeout snConnect (newHandler cfg0 topics0) = Some (None, h1) /\
       heap h1 !! 0%nat = Some (TConnect c1) /\
       live (TConnect c1) /\
       WatchConnect 0%nat ∈ tasks h1 /\
       groupErr h1 = None /\
       snFault h1 = None /\
       state h1 = util.StateDisconnected).
Proof.
  intros Hheap Hlive Htask Hgroup Hsn Hstate Hrc. unfold live in Hlive. cbn in Hlive.
  assert (Hlt : (t < length (heap h))%nat) by (eapply lookup_lt_Some; eauto).
  split.
  - unfold resultOf, terminated.
    gw_unfold.
    destruct (decide (ReturnCode mqConnack ≠ Accepted)) as [_|n]; [|contradiction].
    cbn. rewrite Hsn. cbn. rewrite Hheap. cbn. rewrite Hlive.
    destruct (doneFn _); cbn;
    (destruct (decide (WatchConnect t ∈ tasks h)) as [_|n]; [|contradiction]);
    cbn; rewrite Hgroup; cbn;
    (do 2 eexists; split; [reflexivity|]; cbn;
     rewrite !snSent_app, !mqttSent_app; cbn; rewrite !app_nil_r;
     repeat split; try reflexivity; try assumption; try (eexists; reflexivity);
     rewrite list_lookup_insert_eq by assumption; reflexivity).
  - intros timeout cfg0 topics0 snConnect.
    gw_unfold. cbn. rewrite lookup_empty. cbn.
    destruct (AuthEnabled cfg0); cbn; destruct (connect_Will snConnect); cbn;
      (do 2 eexists; repeat split; cbn; try reflexivity; apply list_elem_of_here).
Qed.

Lemma C5_witness :
  exists h' snConnack,
    Connack 0%nat (mkConnackPacket false ErrRefusedNotAuthorised) (afterConnect true)
      = Some (Some (ErrConnectRefused ErrRefusedNotAuthorised), h') /\
    snSent (trace h') = snSent (trace (afterConnect true)) ++ [MConnack snConnack] /\
    connack_ReturnCode snConnack = RC_CONGESTION /\
    mqttSent (trace h') = mqttSent (trace (afterConnect true)) /\
    resultOf h' 0%nat = Some (Some (ErrConnectRefused ErrRefusedNotAuthorised)) /\
    groupErr h' = Some (ErrTransaction "CONNECT" (ErrConnectRefused ErrRefusedNotAuthorised)) /\
    terminated h' /\
    state h' = util.StateDisconnected.
Proof.
  eapply (C5_connack_refused (afterConnect true) 0%nat).
  - vm_compute. reflexivity.
  - vm_compute. reflexivity.
  - vm_compute. apply list_elem_of_here.
  - vm_compute. reflexivity.
  - vm_compute. reflexivity.
  - vm_compute. reflexivity.
  - vm_compute. discriminate.
Defined.

Lemma splitAtZero_app (u p : bytes) :
  Forall (fun b => b <> x00) u -> splitAtZero (u ++ x00 :: p) = Some (u, p).
Proof.
  induction 1 as [|b u Hb Hu IH]; cbn; [reflexivity|].
  destruct (Byte.eqb b x00) eqn:E.
  - apply Byte.byte_dec_bl in E. contradiction.
  - rewrite IH. reflexivity.
Qed.

Lemma DecodePlain_NewAuthPlain (user : string) (password : bytes) :
  Forall (fun b => b <> x00) (list_byte_of_string user) ->
  DecodePlain (NewAuthPlain user password) = inl (user, password).
Proof.
  intros Hu. unfold DecodePlain, NewAuthPlain, NewAuthMessage. cbn.
  rewrite splitAtZero_app by assumption.
  rewrite string_of_list_byte_of_string. reflexivity.
Qed.


(** C7, for [Start] and [Auth] as they are: with authentication enabled
    [Start] writes nothing, to the broker or to the client, and leaves the
    CONNECT transaction as it is, for the AUTH of the client; AUTH with
    method PLAIN sets UsernameFlag, Username, PasswordFlag and Password of
    the MQTT CONNECT to the decoded user and password and goes on (the MQTT
    CONNECT is written when there is no Will flag, WILLTOPICREQ otherwise);
    AUTH with another method writes one SN CONNACK, with return code
    NOT_SUPPORTED, to the client and fails the transaction; the PLAIN data
    of a user and a password decodes to that user and password. *)
Theorem C7_connect_waits_for_auth
    (h : handler) (t : txref) (c : connectTransaction) (snMsg : AuthMessage) :
  heap h !! t = Some (TConnect c) ->
  live (TConnect c) ->
  authEnabled c = true ->
  snFault h = None ->
  mqttFault h = None ->
  (* Start neither writes to the broker nor to the client *)
  (exists h0, Start t h = Some (None, h0) /\ trace h0 = trace h /\
              heap h0 !! t = Some (TConnect c)) /\
  (* AUTH with method PLAIN *)
  (auth_Method snMsg = AUTH_PLAIN ->
   forall user password, DecodePlain snMsg = inl (user, password) ->
   exists h' c',
     Auth t snMsg h = Some (None, h') /\
     heap h' !! t = Some (TConnect c') /\
     live (TConnect c') /\
     UsernameFlag (mqConnect c') = true /\ Username (mqConnect c') = user /\
     PasswordFlag (mqConnect c') = true /\ Password (mqConnect c') = password /\
     mqConnect c' = setCredentials user password (mqConnect c) /\
     trace h' = trace h ++
       [(now h, if WillFlag (mqConnect c)
                then EvSnSend (MWillTopicReq NewWillTopicReqMessage)
                else EvMqttSend (Connect (mqConnect c')))]) /\
  (* AUTH with another method *)
  (auth_Method snMsg <> AUTH_PLAIN ->
   exists h' snConnack,
     Auth t snMsg h = Some (Some (ErrUnknownAuthMethod (auth_Method snMsg)), h') /\
     snSent (trace h') = snSent (trace h) ++ [MConnack snConnack] /\
     connack_ReturnCode snConnack = RC_NOT_SUPPORTED /\
     mqttSent (trace h') = mqttSent (trace h) /\
     resultOf h' t = Some (Some (ErrUnknownAuthMethod (auth_Method snMsg)))) /\
  (* the PLAIN data is \0user\0password *)
  (forall user password,
     Forall (fun b => b <> x00) (list_byte_of_string user) ->
     DecodePlain (NewAuthPlain user password) = inl (user, password)).
Proof.
  intros Hheap Hlive Hauth Hsn Hmq. unfold live in Hlive. cbn in Hlive.
  assert (Hlt : (t < length (heap h))%nat) by (eapply lookup_lt_Some; eauto).
  repeat split.
  - gw_unfold. cbn. rewrite Hheap. cbn. rewrite Hauth.
    eexists. repeat split; cbn; try reflexivity. assumption.
  - intros Hm user password Hdec. unfold Auth. rewrite Hdec.
    destruct (decide (auth_Method snMsg = AUTH_PLAIN)) as [_|n]; [|contradiction].
    gw_unfold. cbn. rewrite Hheap. cbn.
    rewrite list_lookup_insert_eq by assumption. cbn.
    destruct (WillFlag (mqConnect c)); cbn; rewrite ?Hsn, ?Hmq; cbn;
      (do 2 eexists; repeat split;
       (cbn; rewrite ?list_lookup_insert_eq by assumption; try reflexivity; try assumption)).
  - intros Hm. unfold Auth, resultOf.
    destruct (decide (auth_Method snMsg = AUTH_PLAIN)) as [e|_]; [contradiction|].
    gw_unfold. cbn. rewrite Hsn. cbn. rewrite Hheap. cbn. rewrite Hlive.
    destruct (doneFn _); cbn;
      destruct (decide (WatchConnect t ∈ tasks h)); cbn;
      destruct (groupErr h); cbn;
      (do 2 eexists; repeat split;
       (cbn; rewrite ?snSent_app, ?mqttSent_app, ?list_lookup_insert_eq by assumption;
        cbn; rewrite ?app_nil_r; try reflexivity)).
  - apply DecodePlain_NewAuthPlain.
Qed.

(** Authentication enabled, CONNECT, then WILLMSG and no AUTH: [Start] has
    written nothing, and [WillMsg] writes the MQTT CONNECT to the broker,
    without a user name or a password. *)
Lemma C7_counterexample :
  heap (installed true sampleConnect) !! 0%nat
    = Some (TConnect (connectTransactionOf true sampleConnect)) /\
  authEnabled (connectTransactionOf true sampleConnect) = true /\
  exists h0 h' p,
    Start 0%nat (installed true sampleConnect) = Some (None, h0) /\
    trace h0 = [] /\
    WillMsg 0%nat sampleWillMsg h0 = Some (None, h') /\
    mqttSent (trace h') = [Connect p] /\
    UsernameFlag p = false /\
    PasswordFlag p = false.
Proof.
  split; [reflexivity|]. split; [reflexivity|].
  do 3 eexists. split; [vm_compute; reflexivity|]. split; [reflexivity|].
  split; [vm_compute; reflexivity|]. repeat split; reflexivity.
Qed.

Lemma C3_counterexample :
  ~ bothConnectsForwarded (testConfig true) sampleConnect sampleConnect.
Proof.
  intros (h1 & h2 & H1 & H2 & Hsent).
  vm_compute in H1. injection H1 as <-.
  vm_compute in H2. injection H2 as <-.
  vm_compute in Hsent. discriminate Hsent.
Qed.

Lemma C3_witness :
  exists h2 t2 c2,
    handleConnect connectTimeout sampleConnect (afterConnect false) = Some (None, h2) /\
    resultOf h2 0%nat = Some (Some Cancelled) /\
    byType h2 !! CONNECT = Some t2 /\
    t2 <> 0%nat /\
    heap h2 !! t2 = Some (TConnect c2) /\
    mqttSent (trace h2) = [Connect (mqConnectSkeleton sampleConnect);
                           Connect (mqConnectSkeleton sampleConnect)].
Proof.
  destruct (C3_second_connect_cancels_first connectTimeout (afterConnect false) 0%nat
              (TConnect (mkConnectTransaction
                           (NewTimedTransaction 0 connectTimeout
                              (transactions.DeleteByType CONNECT))
                           false (mqConnectSkeleton sampleConnect) false))
              sampleConnect)
    as [(h1 & h2 & t2 & c2 & _ & _ & _ & _ & _ & Hrun & Hres & Htab & Hne & _ & Hheap & _ & _ &
         _ & _ & _ & _ & Hfwd) _].
  - vm_compute. reflexivity.
  - vm_compute. reflexivity.
  - vm_compute. reflexivity.
  - vm_compute. reflexivity.
  - vm_compute. reflexivity.
  - vm_compute. reflexivity.
  - vm_compute. reflexivity.
  - exists h2, t2, c2. repeat split; assumption.
Defined.

Lemma C7_witness :
  exists h',
    Auth 0%nat sampleAuth (afterConnect true) = Some (None, h') /\
    mqttSent (trace h') =
      [Connect (setCredentials "test-user" (list_byte_of_string "test-pwd")
                  (mqConnectSkeleton sampleConnect))].
Proof.
  destruct (C7_connect_waits_for_auth (afterConnect true) 0%nat
              (mkConnectTransaction
                 (NewTimedTransaction 0 connectTimeout (transactions.DeleteByType CONNECT))
                 true (mqConnectSkeleton sampleConnect) false)
              sampleAuth)
    as (_ & Hplain & _).
  - vm_compute. reflexivity.
  - vm_compute. reflexivity.
  - reflexivity.
  - vm_compute. reflexivity.
  - vm_compute. reflexivity.
  - destruct (Hplain eq_refl "test-user"%string (list_byte_of_string "test-pwd"))
      as (h' & c' & Hrun & _ & _ & _ & _ & _ & _ & Hmq & Htrace).
    + vm_compute. reflexivity.
    + exists h'. split; [assumption|].
      rewrite Htrace, mqttSent_app, Hmq. reflexivity.
Defined.

(* ===================================================================== *)
(** * The supervisor in state DISCONNECTED                                *)
(* ===================================================================== *)

Import scenarios.

#[local] Hint Unfold snReceive handleSN handlePublishQOS3 publishQOS3Topic illegal
  toConnectTransaction handleDisconnect : gw.

(** C1, with the DISCONNECT of duration 0 and the packets of the sub-flows
    of a live CONNECT transaction exempted: in state DISCONNECTED every SN
    packet that is neither CONNECT, SEARCHGW, ADVERTISE or GWINFO, nor a
    QoS -1 PUBLISH on a predefined or short topic with authentication
    disabled, nor a DISCONNECT with duration 0, nor an AUTH, WILLTOPIC or
    WILLMSG while a CONNECT transaction is in the table, ends the handler:
    the broker connection is closed and nothing is written to the broker or
    to the client.  A QoS -1 PUBLISH on a registered topic, or on a short
    topic with authentication enabled, is rejected this way; a QoS -1
    PUBLISH on a short or predefined topic with authentication disabled is
    forwarded as an MQTT PUBLISH with QoS 0. *)
Theorem C1_illegal_packet_ends_handler
    (timeout : Z) (dispatch : Message -> M handler err)
    (unknownTopic : PublishMessage -> M handler err) (h : handler) :
  state h = util.StateDisconnected ->
  groupErr h = None ->
  (* a packet that is not legal, no DISCONNECT with duration 0, and no
     packet for a CONNECT transaction that is there *)
  (forall m,
     legalWhenDisconnected (AuthEnabled (cfg h)) m = false ->
     disconnectNow m = false ->
     (connectSubflow m = true -> byType h !! CONNECT = None) ->
     rejects timeout dispatch unknownTopic h m) /\
  (* QoS -1 on a registered topic *)
  (forall p,
     publish_QOS p = 3 -> publish_TopicIDType p = TIT_REGISTERED ->
     rejects timeout dispatch unknownTopic h (MPublish p)) /\
  (* QoS -1 on a short topic with authentication enabled *)
  (forall p,
     publish_QOS p = 3 -> publish_TopicIDType p = TIT_SHORT ->
     AuthEnabled (cfg h) = true ->
     rejects timeout dispatch unknownTopic h (MPublish p)) /\
  (* QoS -1 on a short or predefined topic with authentication disabled *)
  (forall p name,
     publish_QOS p = 3 ->
     publish_TopicIDType p = TIT_SHORT /\ name = DecodeShortTopic (publish_TopicID p)
     \/ publish_TopicIDType p = TIT_PREDEFINED /\
        topics.GetTopicName (predefinedTopics h) (clientID h) (publish_TopicID p) = Some name ->
     AuthEnabled (cfg h) = false ->
     mqttFault h = None ->
     exists h',
       snReceive timeout dispatch unknownTopic (MPublish p) h = Some (tt, h') /\
       trace h' = trace h ++
         [(now h, EvMqttSend (mqttPackets.Publish
                                (mkPublishPacket false 0 (publish_Retain p) name 0
                                   (publish_Data p))))] /\
       groupErr h' = None).
Proof.
  intros Hstate Hgroup.
  assert (Hillegal : forall m e,
            handleSN timeout dispatch unknownTopic m h = Some (Some e, h) ->
            rejects timeout dispatch unknownTopic h m).
  { intros m e Hm. unfold rejects, snReceive, bind. rewrite Hm.
    gw_unfold. cbn. rewrite Hgroup. cbn.
    eexists. split; [reflexivity|]. split; [eexists; reflexivity | reflexivity]. }
  assert (Hpub : forall p, publishQOS3Allowed (AuthEnabled (cfg h)) p = false ->
                           rejects timeout dispatch unknownTopic h (MPublish p)).
  { intros p Hp. eapply Hillegal. gw_unfold. rewrite Hstate. cbn. rewrite Hp. reflexivity. }
  repeat split.
  - intros m Hlegal Hnow Hsub.
    destruct m; cbn in Hlegal, Hnow, Hsub; try discriminate;
      try (eapply Hillegal; gw_unfold; rewrite Hstate; cbn; reflexivity);
      try (eapply Hillegal; gw_unfold; rewrite Hstate; cbn;
           rewrite (Hsub eq_refl); reflexivity).
    + apply Hpub. assumption.
    + eapply Hillegal. gw_unfold. rewrite Hstate. cbn.
      apply bool_decide_eq_false in Hnow.
      destruct (decide (disconnect_Duration m = 0)) as [e|_]; [contradiction|].
      reflexivity.
  - intros p Hq Ht. apply Hpub. unfold publishQOS3Allowed. rewrite Ht. cbn.
    rewrite andb_false_r. reflexivity.
  - intros p Hq Ht Hauth. apply Hpub. unfold publishQOS3Allowed. rewrite Hauth.
    apply andb_false_r.
  - intros p name Hq Htopic Hauth Hmq. clear Hillegal Hpub.
    assert (Hallowed : publishQOS3Allowed false p = true).
    { unfold publishQOS3Allowed. rewrite Hq.
      destruct Htopic as [[-> _] | [-> _]]; reflexivity. }
    repeat autounfold with gw. rewrite Hstate. cbn. rewrite Hauth, Hallowed.
    destruct Htopic as [[Ht ->] | [Ht Hname]]; rewrite Ht;
      (destruct (decide _) as [Heq|Hne];
       [try discriminate Heq | try (contradiction Hne; reflexivity)]);
      cbn -[DecodeShortTopic]; rewrite ?Hname, Hmq; cbn -[DecodeShortTopic];
      (eexists; repeat split; try reflexivity; assumption).
Qed.

(** TestDisconnectedPublishQOS3Short: a DISCONNECT with duration 0 and no
    CONNECT before is none of the packets the specification lists, and the
    handler forwards it to the broker and answers it.  TestAuthSuccess and
    TestLastWill: AUTH, WILLTOPIC and WILLMSG reach the handler in state
    DISCONNECTED, after CONNECT, and go to the CONNECT transaction. *)
Lemma C1_counterexample :
  (state afterPublishQOS3 = util.StateDisconnected /\
   legalWhenDisconnected false (MDisconnect (NewDisconnectMessage 0)) = false /\
   exists h',
     snReceive connectTimeout (fun _ => ret None) (fun _ => ret None)
       (MDisconnect (NewDisconnectMessage 0)) afterPublishQOS3 = Some (tt, h') /\
     snSent (trace h') = snSent (trace afterPublishQOS3)
                         ++ [MDisconnect (NewDisconnectMessage 0)] /\
     mqttSent (trace h') = mqttSent (trace afterPublishQOS3) ++ [mqttPackets.Disconnect]) /\
  (state (afterConnect true) = util.StateDisconnected /\
   legalWhenDisconnected true (MAuth sampleAuth) = false /\
   ~ rejects connectTimeout (fun _ => ret None) (fun _ => ret None)
       (afterConnect true) (MAuth sampleAuth)) /\
  (state (afterWillConnect false) = util.StateDisconnected /\
   legalWhenDisconnected false (MWillTopic sampleWillTopic) = false /\
   ~ rejects connectTimeout (fun _ => ret None) (fun _ => ret None)
       (afterWillConnect false) (MWillTopic sampleWillTopic)) /\
  (state afterWillTopic = util.StateDisconnected /\
   legalWhenDisconnected false (MWillMsg sampleWillMsg) = false /\
   ~ rejects connectTimeout (fun _ => ret None) (fun _ => ret None)
       afterWillTopic (MWillMsg sampleWillMsg)).
Proof.
  split; [|split; [|split]].
  - split; [reflexivity|]. split; [reflexivity|].
    eexists. split; [vm_compute; reflexivity|]. split; vm_compute; reflexivity.
  - split; [reflexivity|]. split; [reflexivity|].
    intros (h' & Hrun & [e He] & _).
    vm_compute in Hrun. injection Hrun as <-.
    vm_compute in He. discriminate He.
  - split; [reflexivity|]. split; [reflexivity|].
    intros (h' & Hrun & [e He] & _).
    vm_compute in Hrun. injection Hrun as <-.
    vm_compute in He. discriminate He.
  - split; [reflexivity|]. split; [reflexivity|].
    intros (h' & Hrun & [e He] & _).
    vm_compute in Hrun. injection Hrun as <-.
    vm_compute in He. discriminate He.
Qed.

(** TestDisconnectedRegister: REGISTER without previous CONNECT. *)
Lemma C1_witness :
  rejects connectTimeout (fun _ => ret None) (fun _ => ret None)
    (newHandler (testConfig false) ∅)
    (MRegister (NewRegisterMessage 0 "test-topic-0")).
Proof.
  destruct (C1_illegal_packet_ends_handler connectTimeout (fun _ => ret None)
              (fun _ => ret None) (newHandler (testConfig false) ∅)) as [Hreject _].
  - reflexivity.
  - reflexivity.
  - apply Hreject; [reflexivity | reflexivity | discriminate].
Defined.

(* ===================================================================== *)
(** * Broker-side publish, QoS 1                                          *)
(* ===================================================================== *)

#[local] Hint Unfold handleMqttPublishQOS1 newBrokerPublishQOS1Transaction SetSNPublish
  ProceedSN ProceedMQTT proceed timerFired resend brokerPublishQOS1_Puback handlePuback : gw.

Lemma stopped_timerFired h t : stoppedAt h t -> timerFired t h = Some (tt, h).
Proof.
  intros (b & Hb & Htimer). unfold timerFired, load, bind. rewrite Hb. cbn.
  rewrite Htimer. reflexivity.
Qed.

Lemma stopped_timerFiredTimes h t n : stoppedAt h t -> timerFiredTimes n t h = Some (tt, h).
Proof.
  intros Hs. induction n as [|n IH]; [reflexivity|].
  cbn. unfold bind. rewrite (stopped_timerFired h t Hs). exact IH.
Qed.

Lemma snSentAt_sends (l : list (Z * Message)) :
  snSentAt (map (fun x => (fst x, EvSnSend (snd x))) l) = l.
Proof.
  induction l as [|[time m] l IH]; [reflexivity|]. cbn. rewrite IH. reflexivity.
Qed.

Lemma mqttSent_sends (l : list (Z * Message)) :
  mqttSent (map (fun x => (fst x, EvSnSend (snd x))) l) = [].
Proof.
  induction l as [|[time m] l IH]; [reflexivity|]. cbn. exact IH.
Qed.

Section DeliveryProofs.
Variables (h : handler) (topicID : uint16) (topicIDType : uint8)
          (mqPublish : PublishPacket).
Hypothesis Hsn : snFault h = None.
Hypothesis Hmq : mqttFault h = None.
Hypothesis Hdelay : 0 <= RetryDelay (cfg h).
Hypothesis Htasks : WatchConnect (length (heap h)) ∉ tasks h.

Abbreviation W := (waiting h topicID topicIDType mqPublish).
Abbreviation t := (length (heap h)).
Abbreviation K := (RetryCount (cfg h)).

Lemma delivery_start :
  handleMqttPublishQOS1 topicID topicIDType mqPublish h = Some (None, W 0).
Proof.
  repeat autounfold with gw. cbn -[receivedEvents resendTime]. heap_last. rewrite Hsn.
  cbn -[receivedEvents resendTime].
  destruct (decide (awaitingPuback = transactionDone)) as [E|_]; [discriminate E|].
  f_equal. f_equal.
  apply handler_eq; unfold waiting; handler_fields; try reflexivity.
  f_equal. unfold waitingTransaction, Proceed, setRetry, setSNPublish, NewRetryTransaction,
    NewTransactionBase, resendTime.
  cbn [bp_RetryTransaction snPublish retry_base retryDelay retryCount retries
       retry_timer State Data done doneFn].
  all: try (unfold resendTime; lia).
  rewrite Nat.sub_0_r. repeat f_equal; lia.
Qed.

Lemma resendTime_le N : resendTime h N <= resendTime h (S N).
Proof. unfold resendTime. nia. Qed.

Lemma receivedEvents_S N :
  receivedEvents h topicID topicIDType mqPublish (S N)
  = receivedEvents h topicID topicIDType mqPublish N
    ++ [(resendTime h (S N), EvSnSend (MPublish (dupPublish topicID topicIDType mqPublish)))].
Proof.
  unfold receivedEvents, received. rewrite seq_S. cbn [map].
  rewrite !map_app. rewrite app_comm_cons. reflexivity.
Qed.

Lemma delivery_tick N :
  (N < K)%nat -> timerFired t (W N) = Some (tt, W (S N)).
Proof.
  intros HN.
  unfold timerFired, load, bind. cbn -[receivedEvents resendTime dupPublish firstPublish].
  heap_last.
  destruct (K - N)%nat as [|r] eqn:Hr; [lia|].
  unfold modify. cbn -[receivedEvents resendTime dupPublish firstPublish]. heap_last.
  rewrite Z.max_r by apply resendTime_le.
  unfold resend.
  assert (Hdup : publish_SetDUP true (dupPublish topicID topicIDType mqPublish)
                 = dupPublish topicID topicIDType mqPublish) by reflexivity.
  destruct N as [|N];
    cbn -[receivedEvents resendTime dupPublish firstPublish];
    fold (dupPublish topicID topicIDType mqPublish); rewrite ?Hdup;
    repeat autounfold with gw;
    cbn -[receivedEvents resendTime dupPublish firstPublish];
    rewrite Hsn; cbn -[receivedEvents resendTime dupPublish firstPublish]; heap_last;
    (f_equal; f_equal;
     apply handler_eq; unfold waiting; handler_fields; try reflexivity;
     [ f_equal; unfold waitingTransaction, retry_tick, setRetry, sharedWithSNPublish,
         setSNPublish;
       cbn [bp_RetryTransaction snPublish retry_base retryDelay retryCount retries
            retry_timer State Data done doneFn Nat.pred];
       (replace (K - S _)%nat with r by lia);
       repeat f_equal; unfold resendTime; lia
     | rewrite <- app_assoc; f_equal; rewrite receivedEvents_S; reflexivity ]).
Qed.

Lemma delivery_ticks n : forall m,
  (m + n <= K)%nat -> timerFiredTimes n t (W m) = Some (tt, W (m + n)).
Proof.
  induction n as [|n IH]; intros m Hm.
  - rewrite Nat.add_0_r. reflexivity.
  - cbn. unfold bind. rewrite delivery_tick by lia.
    rewrite IH by lia. replace (m + S n)%nat with (S m + n)%nat by lia. reflexivity.
Qed.

Lemma waiting_sent N :
  snSentAt (trace (W N)) = snSentAt (trace h) ++ received h topicID topicIDType mqPublish N /\
  mqttSent (trace (W N)) = mqttSent (trace h).
Proof.
  unfold waiting. handler_fields. rewrite snSentAt_app, mqttSent_app.
  unfold receivedEvents. rewrite snSentAt_sends, mqttSent_sends, app_nil_r.
  split; reflexivity.
Qed.

Lemma waiting_live N : liveAt (W N) t.
Proof.
  eexists. split; [apply lookup_last | reflexivity].
Qed.

Lemma delivery_exhausted :
  exists hF,
    timerFired t (W K) = Some (tt, hF) /\
    trace hF = trace (W K) /\
    resultOf hF t = Some (Some ErrNoMoreRetries) /\
    stoppedAt hF t.
Proof.
  unfold timerFired, load, bind. cbn. heap_last.
  rewrite Nat.sub_diag. unfold modify. cbn.
  repeat autounfold with gw. cbn. heap_last.
  destruct (decide (WatchConnect t ∈ tasks h)) as [Hin|_]; [contradiction|].
  eexists. split; [reflexivity|]. unfold resultOf, stoppedAt. cbn. heap_last.
  repeat split. eexists. split; reflexivity.
Qed.

Lemma delivery_puback N (snPuback : PubackMessage) :
  puback_messageID snPuback = MessageID mqPublish ->
  puback_ReturnCode snPuback = RC_ACCEPTED ->
  exists hA,
    handlePuback snPuback (W N) = Some (None, hA) /\
    trace hA = trace (W N) ++
               [(resendTime h N, EvMqttSend (mqttPackets.Puback (MessageID mqPublish)))] /\
    resultOf hA t = Some None /\
    stoppedAt hA t.
Proof.
  intros Hid Hrc.
  unfold handlePuback, Get, bind, gets. cbn. rewrite Hid, lookup_insert_eq.
  unfold brokerPublishQOS1_Puback, loadBrokerPublish, load, bind, ret. cbn. heap_last.
  destruct (decide (Some awaitingPuback ≠ Some awaitingPuback)) as [Hne|_];
    [contradiction Hne; reflexivity|].
  rewrite Hrc.
  destruct (decide (RC_ACCEPTED ≠ RC_ACCEPTED)) as [Hne|_];
    [contradiction Hne; reflexivity|].
  repeat autounfold with gw. cbn. heap_last. rewrite Hmq. cbn. heap_last.
  destruct (decide (transactionDone = transactionDone)) as [_|Hne];
    [|contradiction Hne; reflexivity].
  cbn. heap_last.
  destruct (decide (WatchConnect t ∈ tasks h)) as [Hin|_]; [contradiction|].
  eexists. split; [reflexivity|]. unfold resultOf, stoppedAt. cbn. heap_last.
  rewrite ?Hid. repeat split. eexists. split; reflexivity.
Qed.
Lemma delivery_puback_rejected N (snPuback : PubackMessage) :
  puback_messageID snPuback = MessageID mqPublish ->
  puback_ReturnCode snPuback <> RC_ACCEPTED ->
  exists hR,
    handlePuback snPuback (W N) = Some (None, hR) /\
    trace hR = trace (W N) /\
    resultOf hR t = Some (Some (ErrPubackReturnCode (puback_ReturnCode snPuback))) /\
    stoppedAt hR t.
Proof.
  intros Hid Hrc.
  unfold handlePuback, Get, bind, gets. cbn. rewrite Hid, lookup_insert_eq.
  unfold brokerPublishQOS1_Puback, loadBrokerPublish, load, bind, ret. cbn. heap_last.
  destruct (decide (Some awaitingPuback ≠ Some awaitingPuback)) as [Hne|_];
    [contradiction Hne; reflexivity|].
  destruct (decide (puback_ReturnCode snPuback ≠ RC_ACCEPTED)) as [_|Hne];
    [|contradiction].
  repeat autounfold with gw. cbn. heap_last.
  destruct (decide (WatchConnect t ∈ tasks h)) as [Hin|_]; [contradiction|].
  eexists. split; [reflexivity|]. unfold resultOf, stoppedAt. cbn. heap_last.
  repeat split. eexists. split; reflexivity.
Qed.
End DeliveryProofs.

Lemma timerFiredTimes_app n m t h h' :
  timerFiredTimes n t h = Some (tt, h') ->
  timerFiredTimes (n + m) t h = timerFiredTimes m t h'.
Proof.
  revert h. induction n as [|n IH]; intros h Hn; cbn in *.
  - injection Hn as <-. reflexivity.
  - unfold bind in *. destruct (timerFired t h) as [[[] h1]|]; [|discriminate].
    apply IH. exact Hn.
Qed.


(** C2, with the PUBACK that ends the delivery being one with return code
    ACCEPTED: for a broker-side QoS 1 publish, when N <= RetryCount PUBACKs
    are lost the client has been sent exactly N+1 SN PUBLISH with the
    message id of the MQTT PUBLISH, the first with DUP false at the start
    and the i-th resend with DUP true, and nothing else changed, at
    i * RetryDelay after it; a PUBACK with that message id and return code
    ACCEPTED then makes the gateway write an MQTT PUBACK with the same id,
    ends the transaction with success, and no timer resends any more; a
    PUBACK with another return code fails the transaction and nothing is
    written to the broker; when every PUBACK is lost, RetryCount + 1
    PUBLISH are sent, the transaction fails, and nothing more is sent. *)
Theorem C2_broker_publish_qos1_retries
    (h : handler) (topicID : uint16) (topicIDType : uint8) (mqPublish : PublishPacket) :
  snFault h = None ->
  mqttFault h = None ->
  0 <= RetryDelay (cfg h) ->
  WatchConnect (length (heap h)) ∉ tasks h ->
  let t := length (heap h) in
  let K := RetryCount (cfg h) in
  let msgID := MessageID mqPublish in
  let first := firstPublish topicID topicIDType mqPublish in
  let resent := dupPublish topicID topicIDType mqPublish in
  (* the first PUBLISH *)
  publish_messageID first = msgID /\
  publish_dup first = false /\
  publish_TopicID first = topicID /\
  publish_TopicIDType first = topicIDType /\
  publish_Data first = Payload mqPublish /\
  (* a resend: the DUP flag is set, and nothing else differs *)
  publish_dup resent = true /\
  publish_messageID resent = msgID /\
  publish_Header resent = publish_Header first /\
  publish_Retain resent = publish_Retain first /\
  publish_QOS resent = publish_QOS first /\
  publish_TopicIDType resent = publish_TopicIDType first /\
  publish_TopicID resent = publish_TopicID first /\
  publish_Data resent = publish_Data first /\
  exists h0,
    handleMqttPublishQOS1 topicID topicIDType mqPublish h = Some (None, h0) /\
    (* N PUBACKs are lost: the client has received N+1 PUBLISH, the
       transaction waits; a PUBACK then ends it *)
    (forall N, (N <= K)%nat ->
       exists hN,
         timerFiredTimes N t h0 = Some (tt, hN) /\
         snSentAt (trace hN) =
           snSentAt (trace h)
           ++ (now h, MPublish first)
              :: map (fun i => (now h + Z.of_nat i * RetryDelay (cfg h), MPublish resent))
                   (seq 1 N) /\
         mqttSent (trace hN) = mqttSent (trace h) /\
         liveAt hN t /\
         (forall snPuback,
            puback_messageID snPuback = msgID ->
            puback_ReturnCode snPuback = RC_ACCEPTED ->
            exists hA,
              handlePuback snPuback hN = Some (None, hA) /\
              snSentAt (trace hA) = snSentAt (trace hN) /\
              mqttSent (trace hA) = mqttSent (trace hN) ++ [mqttPackets.Puback msgID] /\
              resultOf hA t = Some None /\
              forall M, timerFiredTimes M t hA = Some (tt, hA)) /\
         (forall snPuback,
            puback_messageID snPuback = msgID ->
            puback_ReturnCode snPuback <> RC_ACCEPTED ->
            exists hR,
              handlePuback snPuback hN = Some (None, hR) /\
              snSentAt (trace hR) = snSentAt (trace hN) /\
              mqttSent (trace hR) = mqttSent (trace hN) /\
              resultOf hR t =
                Some (Some (ErrPubackReturnCode (puback_ReturnCode snPuback))) /\
              forall M, timerFiredTimes M t hR = Some (tt, hR))) /\
    (* every PUBACK is lost: after RetryCount resends the transaction fails
       and nothing more is sent *)
    (exists hF,
       timerFiredTimes (S K) t h0 = Some (tt, hF) /\
       snSentAt (trace hF) =
         snSentAt (trace h)
         ++ (now h, MPublish first)
            :: map (fun i => (now h + Z.of_nat i * RetryDelay (cfg h), MPublish resent))
                 (seq 1 K) /\
       mqttSent (trace hF) = mqttSent (trace h) /\
       resultOf hF t = Some (Some ErrNoMoreRetries) /\
       forall M, timerFiredTimes M t hF = Some (tt, hF)).
Proof.
  intros Hsn Hmq Hdelay Htasks t K msgID first resent.
  subst t K msgID first resent.
  do 13 (split; [reflexivity|]).
  exists (waiting h topicID topicIDType mqPublish 0).
  split; [apply delivery_start; assumption|]. split.
  - intros N HN. exists (waiting h topicID topicIDType mqPublish N).
    destruct (waiting_sent h topicID topicIDType mqPublish N) as [Hs Hm].
    split; [apply (delivery_ticks h topicID topicIDType mqPublish Hsn Hdelay N 0%nat); lia|].
    split; [exact Hs|]. split; [exact Hm|]. split; [apply waiting_live|]. split.
    + intros snPuback Hid Hrc.
      destruct (delivery_puback h topicID topicIDType mqPublish Hmq Htasks N snPuback Hid Hrc)
        as (hA & Hrun & Htrace & Hres & Hstop).
      exists hA. split; [exact Hrun|].
      rewrite Htrace, snSentAt_app, mqttSent_app. cbn. rewrite app_nil_r.
      repeat split; try assumption.
      intros M. apply stopped_timerFiredTimes. exact Hstop.
    + intros snPuback Hid Hrc.
      destruct (delivery_puback_rejected h topicID topicIDType mqPublish Htasks N snPuback
                  Hid Hrc) as (hR & Hrun & Htrace & Hres & Hstop).
      exists hR. split; [exact Hrun|]. rewrite Htrace.
      repeat split; try assumption.
      intros M. apply stopped_timerFiredTimes. exact Hstop.
  - destruct (delivery_exhausted h topicID topicIDType mqPublish Htasks)
      as (hF & Hrun & Htrace & Hres & Hstop).
    destruct (waiting_sent h topicID topicIDType mqPublish (RetryCount (cfg h))) as [Hs Hm].
    exists hF. split.
    + replace (S (RetryCount (cfg h))) with (RetryCount (cfg h) + 1)%nat by lia.
      rewrite (timerFiredTimes_app (RetryCount (cfg h)) 1 (length (heap h)) _
                 (waiting h topicID topicIDType mqPublish (RetryCount (cfg h)))).
      * cbn [timerFiredTimes]. unfold bind. rewrite Hrun. reflexivity.
      * apply (delivery_ticks h topicID topicIDType mqPublish Hsn Hdelay
                 (RetryCount (cfg h)) 0%nat). lia.
    + rewrite Htrace. repeat split; try assumption.
      intros M. apply stopped_timerFiredTimes. exact Hstop.
Qed.

(** A PUBACK with return code CONGESTION for the PUBLISH of
    TestSubscribeQOS1: the SN PUBACK has arrived, no MQTT PUBACK goes to the
    broker, and the transaction has failed. *)
Lemma C2_counterexample :
  exists h0 hR,
    handleMqttPublishQOS1 sampleTopicID TIT_REGISTERED samplePublish
      (newHandler (testConfig false) ∅) = Some (None, h0) /\
    handlePuback (puback_SetMessageID 1 (NewPubackMessage sampleTopicID RC_CONGESTION)) h0
      = Some (None, hR) /\
    mqttSent (trace hR) = [] /\
    resultOf hR 0%nat = Some (Some (ErrPubackReturnCode RC_CONGESTION)).
Proof.
  do 2 eexists. split; [vm_compute; reflexivity|].
  split; [vm_compute; reflexivity|]. split; vm_compute; reflexivity.
Qed.

(** TestSubscribeQOS1: two lost PUBACKs, two resends one second apart, then
    the PUBACK. *)
Lemma C2_witness :
  exists h0 h2 hA,
    handleMqttPublishQOS1 sampleTopicID TIT_REGISTERED samplePublish
      (newHandler (testConfig false) ∅) = Some (None, h0) /\
    timerFiredTimes 2 0%nat h0 = Some (tt, h2) /\
    snSentAt (trace h2) =
      [(0, MPublish (firstPublish sampleTopicID TIT_REGISTERED samplePublish));
       (1000, MPublish (dupPublish sampleTopicID TIT_REGISTERED samplePublish));
       (2000, MPublish (dupPublish sampleTopicID TIT_REGISTERED samplePublish))] /\
    handlePuback (puback_SetMessageID 1 (NewPubackMessage sampleTopicID RC_ACCEPTED)) h2
      = Some (None, hA) /\
    mqttSent (trace hA) = [mqttPackets.Puback 1] /\
    resultOf hA 0%nat = Some None.
Proof.
  destruct (C2_broker_publish_qos1_retries (newHandler (testConfig false) ∅)
              sampleTopicID TIT_REGISTERED samplePublish)
    as (_ & _ & _ & _ & _ & _ & _ & _ & _ & _ & _ & _ & _ & h0 & Hstart & Hlost & _).
  - reflexivity.
  - reflexivity.
  - vm_compute. discriminate.
  - vm_compute. apply not_elem_of_nil.
  - destruct (Hlost 2%nat) as (h2 & Hticks & Hsent & Hmq & _ & Hack & _).
    + vm_compute. lia.
    + destruct (Hack (puback_SetMessageID 1 (NewPubackMessage sampleTopicID RC_ACCEPTED)))
        as (hA & Hrun & _ & HmqA & Hres & _).
      * reflexivity.
      * reflexivity.
      * exists h0, h2, hA. repeat split; try assumption.
        rewrite HmqA, Hmq. reflexivity.
Defined.

(* ===================================================================== *)
(** * Messages a transaction does not expect                              *)
(* ===================================================================== *)

Import scenarios.


(** C10, for the transactions that check their state: a message for a
    transaction whose state does not expect it changes nothing: a REGACK for
    a broker-side publish transaction that is not in state awaitingRegack,
    and a PUBACK for a client QoS 1 publish transaction that is not in state
    awaitingPuback, leave the whole handler (client) as it was: no state
    change, nothing sent, the transaction not ended. *)
Theorem C10_unexpected_message_is_ignored :
  (* a broker-side publish transaction that does not wait for REGACK *)
  (forall (h : handler) (t : txref) (b : brokerPublishTransactionBase)
          (snRegack : RegackMessage) (newState : transactionState),
     heap h !! t = Some (TBrokerPublish b) ->
     State (retry_base (bp_RetryTransaction b)) <> Some awaitingRegack ->
     regack t snRegack newState h = Some (None, h)) /\
  (* a client QoS 1 publish transaction that does not wait for PUBACK *)
  (forall (c : client.Client) (t : client.txref) (q : client.publishQOS1Transaction)
          (puback : PubackMessage),
     client.heap c !! t = Some (client.TPublishQOS1 q) ->
     State (retry_base (client.qos1_RetryTransaction q)) <> Some client.awaitingPuback ->
     client.publishQOS1_Puback t puback c = Some (tt, c)).
Proof.
  split.
  - intros h t b snRegack newState Hheap Hstate.
    unfold regack, loadBrokerPublish, load, bind, ret. rewrite Hheap.
    destruct (decide _) as [_|Hn]; [reflexivity | contradiction].
  - intros c t q puback Hheap Hstate.
    unfold client.publishQOS1_Puback, client.loadPublishQOS1, client.load, bind, ret.
    rewrite Hheap.
    destruct (decide _) as [_|Hn]; [reflexivity | contradiction].
Qed.

(** The CONNECT transaction keeps no state and checks none.  The one of
    TestRepeatedConnect has written its MQTT CONNECT and waits for the
    CONNACK of the broker; a WILLMSG, which nothing asked for, changes the
    MQTT CONNECT it holds and writes it to the broker a second time. *)
Lemma C10_counterexample :
  heap (installed false sampleConnect) !! 0%nat
    = Some (TConnect (connectTransactionOf false sampleConnect)) /\
  exists h0 h' c',
    Start 0%nat (installed false sampleConnect) = Some (None, h0) /\
    mqttSent (trace h0) = [Connect (mqConnect (connectTransactionOf false sampleConnect))] /\
    WillMsg 0%nat sampleWillMsg h0 = Some (None, h') /\
    heap h' !! 0%nat = Some (TConnect c') /\
    mqConnect c' <> mqConnect (connectTransactionOf false sampleConnect) /\
    mqttSent (trace h') = mqttSent (trace h0) ++ [Connect (mqConnect c')].
Proof.
  split; [reflexivity|].
  do 3 eexists. split; [vm_compute; reflexivity|]. split; [reflexivity|].
  split; [vm_compute; reflexivity|]. split; [reflexivity|].
  split; [intros H; discriminate H | reflexivity].
Qed.

(** A REGACK for the transaction of TestSubscribeQOS1, which waits for
    PUBACK, and a PUBACK for a client transaction whose state is nil. *)
Lemma C10_witness :
  regack 0%nat (NewRegackMessage sampleTopicID RC_ACCEPTED) awaitingPuback
    (waiting (newHandler (testConfig false) ∅) sampleTopicID TIT_REGISTERED samplePublish 0)
  = Some (None,
          waiting (newHandler (testConfig false) ∅) sampleTopicID TIT_REGISTERED
            samplePublish 0) /\
  client.publishQOS1_Puback 0%nat (NewPubackMessage sampleTopicID RC_ACCEPTED)
    clientWithPublish
  = Some (tt, clientWithPublish).
Proof.
  destruct C10_unexpected_message_is_ignored as [Hregack Hpuback].
  split.
  - eapply Hregack.
    + vm_compute. reflexivity.
    + vm_compute. discriminate.
  - eapply Hpuback.
    + vm_compute. reflexivity.
    + vm_compute. discriminate.
Defined.

(* ===================================================================== *)
(** * The client: delivery of a QoS 2 PUBLISH of the gateway              *)
(* ===================================================================== *)

Section QOS2Delivery.
Variable topicForPublish : PublishMessage -> client.Client -> string + error.
Variables (p : PublishMessage) (topic : string).
Hypothesis Htopic : forall c, topicForPublish p c = inl topic.

Abbreviation msgID := (publish_messageID p).
Abbreviation pubrec := (MPubrec (pubrec_SetMessageID msgID NewPubrecMessage)).
Abbreviation pubcomp := (MPubcomp (pubcomp_SetMessageID msgID NewPubcompMessage)).

Abbreviation holds := (fun c => client.holdsPublish c p).

Lemma publish_once c :
  client.sendFault c = None ->
  exists c',
    client.handlePublishQOS2 p c = Some (None, c') /\
    client.handled c' = client.handled c /\
    client.sent c' = client.sent c ++ [pubrec] /\
    client.sendFault c' = None /\
    holds c'.
Proof.
  intros Hsend.
  unfold client.handlePublishQOS2, client.newBrokerPublishQOS2Transaction, client.Publish,
    client.loadBrokerPublishQOS2, client.load, client.store, client.alloc, client.send,
    bind, modify, gets, ret.
  cbn. heap_last. rewrite Hsend. cbn.
  eexists. split; [reflexivity|]. cbn. repeat split; try assumption.
  exists (length (client.heap c)). cbn. heap_last.
  rewrite lookup_insert_eq. split; reflexivity.
Qed.

Lemma publish_many k : forall c,
  client.sendFault c = None ->
  exists c',
    client.receiveAll topicForPublish (repeat (client.InPublish p) (S k)) c
      = Some (None, c') /\
    client.handled c' = client.handled c /\
    client.sent c' = client.sent c ++ repeat pubrec (S k) /\
    client.sendFault c' = None /\
    holds c'.
Proof.
  induction k as [|k IH]; intros c Hsend.
  - destruct (publish_once c Hsend) as (c' & Hrun & Hh & Hs & Hf & Hholds).
    exists c'. cbn [repeat client.receiveAll client.receive].
    unfold bind at 1. rewrite Hrun. repeat split; assumption.
  - destruct (publish_once c Hsend) as (c1 & Hrun & Hh & Hs & Hf & _).
    destruct (IH c1 Hf) as (c' & Hrun' & Hh' & Hs' & Hf' & Hholds').
    exists c'. change (repeat (client.InPublish p) (S (S k)))
      with (client.InPublish p :: repeat (client.InPublish p) (S k)).
    cbn [client.receiveAll client.receive]. unfold bind at 1. rewrite Hrun.
    rewrite Hrun'. repeat split; try assumption.
    + congruence.
    + rewrite Hs', Hs, <- app_assoc. reflexivity.
Qed.

Lemma pubrel_first c (pubrel : PubrelMessage) :
  client.sendFault c = None ->
  holds c ->
  pubrel_messageID pubrel = msgID ->
  exists c',
    client.handlePubrel topicForPublish pubrel c = Some (None, c') /\
    client.handled c' = client.handled c ++ [(topic, p)] /\
    client.sent c' = client.sent c ++ [pubcomp] /\
    client.transactions c' !! msgID = None.
Proof.
  intros Hsend (t & Htab & Hheap) Hid.
  unfold client.handlePubrel, bind, gets. rewrite Hid, Htab.
  unfold client.Pubrel, client.loadBrokerPublishQOS2, client.load, bind, ret, gets.
  rewrite Hheap. cbn. rewrite Htopic.
  unfold client.messageHandlers_handle, client.send, client.Success, client.complete,
    client.load, client.store, client.runFinalizer, bind, modify, gets, ret.
  cbn. rewrite Hsend. cbn. rewrite Hheap. cbn.
  eexists. split; [reflexivity|]. cbn. rewrite Hid.
  repeat split. apply lookup_delete_eq.
Qed.

Lemma pubrel_ignored j : forall c (pubrel : PubrelMessage),
  client.transactions c !! msgID = None ->
  pubrel_messageID pubrel = msgID ->
  client.receiveAll topicForPublish (repeat (client.InPubrel pubrel) j) c = Some (None, c).
Proof.
  induction j as [|j IH]; intros c pubrel Htab Hid; [reflexivity|].
  cbn. unfold bind, client.handlePubrel, gets. cbn. rewrite Hid, Htab. cbn.
  apply IH; assumption.
Qed.
End QOS2Delivery.


(** C6: for a broker-side QoS 2 publish the message handlers of the client
    run exactly once for the message id, on the first PUBREL and not on the
    PUBLISH: the PUBLISH, also when it is received again, is answered with
    PUBREC and kept by the transaction; the first PUBREL runs the handlers on
    the kept PUBLISH and is answered with PUBCOMP; further PUBRELs with that
    id run nothing. *)
Theorem C6_handlers_run_once_on_pubrel
    (topicForPublish : PublishMessage -> client.Client -> string + error)
    (c : client.Client) (p : PublishMessage) (topic : string) (k j : nat) :
  client.sendFault c = None ->
  (forall c', topicForPublish p c' = inl topic) ->
  let msgID := publish_messageID p in
  exists c1,
    (* the PUBLISH, and k resends of it: PUBREC each time, no handler *)
    client.receiveAll topicForPublish (repeat (client.InPublish p) (S k)) c = Some (None, c1) /\
    client.handled c1 = client.handled c /\
    client.sent c1 =
      client.sent c ++ repeat (MPubrec (pubrec_SetMessageID msgID NewPubrecMessage)) (S k) /\
    (exists t q,
       client.transactions c1 !! msgID = Some t /\
       client.heap c1 !! t = Some (client.TBrokerPublishQOS2 q) /\
       client.publish q = Some p /\
       done (client.qos2_TransactionBase q) = None) /\
    (* the PUBREL, and j resends of it: the handlers run on the first one,
       on the PUBLISH the transaction kept; one PUBCOMP *)
    forall pubrel,
      pubrel_messageID pubrel = msgID ->
      exists c2,
        client.receiveAll topicForPublish (repeat (client.InPubrel pubrel) (S j)) c1
          = Some (None, c2) /\
        client.handled c2 = client.handled c ++ [(topic, p)] /\
        client.sent c2 =
          client.sent c1 ++ [MPubcomp (pubcomp_SetMessageID msgID NewPubcompMessage)] /\
        client.transactions c2 !! msgID = None.
Proof.
  intros Hsend Htopic msgID.
  destruct (publish_many topicForPublish p k c Hsend)
    as (c1 & Hrun & Hh & Hs & Hf & Hholds).
  exists c1. repeat split; try assumption.
  - destruct Hholds as (t & Htab & Hheap). exists t. eexists.
    repeat split; [exact Htab | exact Hheap | reflexivity | reflexivity].
  - intros pubrel Hid.
    destruct (pubrel_first topicForPublish p topic Htopic c1 pubrel Hf Hholds Hid)
      as (c2 & Hrun2 & Hh2 & Hs2 & Htab2).
    exists c2. change (repeat (client.InPubrel pubrel) (S j))
      with (client.InPubrel pubrel :: repeat (client.InPubrel pubrel) j).
    cbn [client.receiveAll client.receive]. unfold bind at 1. rewrite Hrun2.
    rewrite (pubrel_ignored topicForPublish p j c2 pubrel Htab2 Hid).
    repeat split; try assumption. congruence.
Qed.

(** The PUBLISH once and twice again, then the PUBREL twice. *)
Lemma C6_witness :
  exists c1 c2,
    client.receiveAll sampleTopicForPublish
      (repeat (client.InPublish sampleQOS2Publish) 3) (client.mkClient ∅ [] [] [] None)
      = Some (None, c1) /\
    client.handled c1 = [] /\
    client.receiveAll sampleTopicForPublish
      (repeat (client.InPubrel (pubrel_SetMessageID 1 NewPubrelMessage)) 2) c1
      = Some (None, c2) /\
    client.handled c2 = [("test/topic"%string, sampleQOS2Publish)].
Proof.
  destruct (C6_handlers_run_once_on_pubrel sampleTopicForPublish
              (client.mkClient ∅ [] [] [] None) sampleQOS2Publish "test/topic" 2 1)
    as (c1 & Hrun & Hh & _ & _ & Hrel).
  - reflexivity.
  - reflexivity.
  - destruct (Hrel (pubrel_SetMessageID 1 NewPubrelMessage)) as (c2 & Hrun2 & Hh2 & _).
    + reflexivity.
    + exists c1, c2. repeat split; assumption.
Defined.

(* ===================================================================== *)
(** * SUBSCRIBE                                                           *)
(* ===================================================================== *)

#[local] Hint Unfold subscribe_Suback registerTopic registeredTopicID handleSuback
  handleSubscribe newSubscribeTransaction resolveSubscribeTopic : gw.

Lemma registeredTopicID_Some (m : gmap Z string) (topic : string) i topicID name :
  list_find (fun kv : Z * string => kv.2 = topic) (map_to_list m) = Some (i, (topicID, name)) ->
  m !! topicID = Some topic.
Proof.
  intros Hfind. apply list_find_Some in Hfind as (Hlook & Hname & _).
  cbn in Hname. subst name.
  apply elem_of_map_to_list. eapply list_elem_of_lookup_2. exact Hlook.
Qed.

Lemma registeredTopicID_None (m : gmap Z string) (topic : string) :
  list_find (fun kv : Z * string => kv.2 = topic) (map_to_list m) = None ->
  forall topicID, m !! topicID <> Some topic.
Proof.
  intros Hfind topicID Hlook. apply list_find_None in Hfind.
  apply elem_of_map_to_list in Hlook.
  rewrite Forall_forall in Hfind. apply (Hfind _ Hlook). reflexivity.
Qed.





(* ===================================================================== *)
(** * The codec: serialising, then parsing                                *)
(* ===================================================================== *)

Lemma Z_of_byte_of_Z_mod (z : Z) : Z_of_byte (byte_of_Z z) = z mod 256.
Proof.
  unfold Z_of_byte, byte_of_Z.
  assert (Hlt : (Z.to_N (z mod 256) < 256)%N).
  { pose proof (Z.mod_pos_bound z 256 ltac:(lia)). lia. }
  destruct (Byte.of_N (Z.to_N (z mod 256))) as [b|] eqn:Hb.
  - apply Byte.to_of_N in Hb. rewrite Hb.
    pose proof (Z.mod_pos_bound z 256 ltac:(lia)). lia.
  - apply Byte.of_N_None_iff in Hb. lia.
Qed.

Lemma Z_of_byte_of_Z (z : Z) : is_uint8 z -> Z_of_byte (byte_of_Z z) = z.
Proof.
  intros Hz. rewrite Z_of_byte_of_Z_mod. apply Z.mod_small. exact Hz.
Qed.

Lemma uint16_roundtrip (v : Z) :
  is_uint16 v -> 256 * Z_of_byte (byte_of_Z (v / 256)) + Z_of_byte (byte_of_Z v) = v.
Proof.
  intros Hv. unfold is_uint16 in Hv.
  rewrite Z_of_byte_of_Z, Z_of_byte_of_Z_mod.
  - pose proof (Z.div_mod v 256 ltac:(lia)). lia.
  - unfold is_uint8. split.
    + apply Z.div_pos; lia.
    + apply Z.div_lt_upper_bound; lia.
Qed.

Lemma readByte_byte (v : Z) (r : bytes) :
  is_uint8 v -> readByte (byte_of_Z v :: r) = Some ((v, None), r).
Proof. intros Hv. unfold readByte. rewrite Z_of_byte_of_Z by assumption. reflexivity. Qed.

Lemma readUint16_encode (v : Z) (r : bytes) :
  is_uint16 v -> readUint16 (encodeUint16 v ++ r) = Some ((v, None), r).
Proof.
  intros Hv. unfold readUint16, encodeUint16. cbn [app].
  rewrite uint16_roundtrip by assumption. reflexivity.
Qed.

Lemma encodeFlags_uint8 (f : Flags) : is_uint8 (encodeFlags f).
Proof.
  unfold is_uint8, encodeFlags.
  assert (H3 : forall z, 0 <= Z.land z 3 < 4).
  { intros z. change 3 with (Z.ones 2). rewrite Z.land_ones by lia.
    apply Z.mod_pos_bound. reflexivity. }
  pose proof (H3 (flag_QOS f)) as Hq. pose proof (H3 (flag_TopicIDType f)) as Ht.
  set (q := Z.land (flag_QOS f) 3) in *. set (t := Z.land (flag_TopicIDType f) 3) in *.
  assert (Hq' : q = 0 \/ q = 1 \/ q = 2 \/ q = 3) by lia.
  assert (Ht' : t = 0 \/ t = 1 \/ t = 2 \/ t = 3) by lia.
  destruct f as [d qq r w c tt]; cbn [flag_DUP flag_Retain flag_Will flag_CleanSession].
  destruct Hq' as [->|[->|[->| ->]]], Ht' as [->|[->|[->| ->]]], d, r, w, c;
    vm_compute; (split; [intros H; discriminate H | reflexivity]).
Qed.

Lemma flags_roundtrip (f : Flags) :
  is_2bit (flag_QOS f) -> is_2bit (flag_TopicIDType f) ->
  decodeFlags (Z_of_byte (byte_of_Z (encodeFlags f))) = f.
Proof.
  intros Hq Ht. rewrite Z_of_byte_of_Z by apply encodeFlags_uint8.
  destruct f as [d q r w c t]. unfold is_2bit in *. cbn in Hq, Ht.
  assert (Hq' : q = 0 \/ q = 1 \/ q = 2 \/ q = 3) by lia.
  assert (Ht' : t = 0 \/ t = 1 \/ t = 2 \/ t = 3) by lia.
  destruct Hq' as [->|[->|[->| ->]]], Ht' as [->|[->|[->| ->]]], d, r, w, c; reflexivity.
Qed.

Lemma length_list_byte_of_string (s : string) :
  length (list_byte_of_string s) = String.length s.
Proof.
  unfold list_byte_of_string. rewrite length_map.
  induction s as [|c s IH]; [reflexivity|]. cbn. rewrite IH. reflexivity.
Qed.

Ltac rd := cbv beta iota; cbn [fst snd app].

Lemma Header_roundtrip (h : Header) (rest : bytes) :
  is_uint8 (msgType h) -> 0 <= varPartLength h -> fits (varPartLength h) ->
  Header_Unpack (Header_pack h ++ rest) = Some ((h, None), rest).
Proof.
  intros Ht Hv Hfits. destruct h as [t v]. cbn [msgType varPartLength] in *.
  unfold fits, longHeaderLength in Hfits.
  unfold Header_pack, Header_Unpack, MessageLength, orReturn, bind, ret,
    shortHeaderLength, longHeaderLength. cbn [msgType varPartLength].
  case_decide; rd.
  - rewrite (readByte_byte (v + 2)) by (unfold is_uint8; lia). rd.
    case_decide; [lia|]. rd.
    rewrite (readByte_byte t) by assumption. rd.
    case_decide; [lia|].
    repeat f_equal. lia.
  - change x01 with (byte_of_Z 1).
    rewrite (readByte_byte 1) by (unfold is_uint8; lia). rd.
    case_decide; [|contradiction]. rd. rewrite <- app_assoc.
    rewrite (readUint16_encode (v + 4)) by (unfold is_uint16; lia). rd.
    rewrite (readByte_byte t) by assumption. rd.
    case_decide; [lia|].
    repeat f_equal. lia.
Qed.

Lemma ReadPacket_Write (h : Header) (body rest : bytes) (m0 m : Message) :
  is_uint8 (msgType h) -> fits (varPartLength h) ->
  blen body = varPartLength h ->
  NewMessageWithHeader h = Some m0 ->
  Unpack m0 body = Some ((m, None), rest) ->
  ReadPacket (Header_pack h ++ body) = (Some m, None).
Proof.
  intros Ht Hfits Hlen Hnew Hunpack. unfold ReadPacket.
  assert (Hv : 0 <= varPartLength h) by (rewrite <- Hlen; unfold blen; lia).
  rewrite Header_roundtrip by assumption.
  case_decide; [lia|].
  rewrite Hnew.
  rewrite firstn_all2 by (unfold blen in Hlen; lia).
  rewrite Hunpack. reflexivity.
Qed.

Lemma flags_decode_encode (f : Flags) :
  is_2bit (flag_QOS f) -> is_2bit (flag_TopicIDType f) ->
  decodeFlags (encodeFlags f) = f.
Proof.
  intros Hq Ht. rewrite <- (Z_of_byte_of_Z (encodeFlags f)) by apply encodeFlags_uint8.
  apply flags_roundtrip; assumption.
Qed.

Lemma is_2bit_0 : is_2bit 0.
Proof. unfold is_2bit. lia. Qed.

Lemma readUint16_encode_last (v : Z) :
  is_uint16 v -> readUint16 (encodeUint16 v) = Some ((v, None), []).
Proof.
  intros Hv. rewrite <- (app_nil_r (encodeUint16 v)). apply readUint16_encode. exact Hv.
Qed.

(** The type byte of a header a constructor builds, and the length of a
    body. *)
Ltac header_type := vm_compute; split; [intros H; discriminate H | reflexivity].

Ltac body_length :=
  unfold blen, slen, encodeUint16, topicFieldLength, disconnectVarPartLength, NewHeader,
    pubackVarPartLength in *;
  cbn [varPartLength];
  rewrite ?length_app, ?length_list_byte_of_string; cbn [length];
  repeat case_decide; try congruence; lia.

Lemma advertise_roundtrip (m : AdvertiseMessage) :
  advertise_wf m -> ReadPacket (advertise_Write m) = (Some (MAdvertise m), None).
Proof.
  destruct m as [hdr f_GatewayID f_Duration]. unfold advertise_wf. cbn [advertise_Header
      advertise_GatewayID advertise_Duration].
  intros Hwf. destruct_and!. subst hdr.
  unfold advertise_Write. cbn [advertise_Header advertise_GatewayID advertise_Duration].
  eapply ReadPacket_Write; [header_type | assumption | body_length | reflexivity |].
  unfold Unpack, advertise_Unpack, orReturn, bind, ret. cbn [advertise_Header advertise_GatewayID
      advertise_Duration].
  rd. rewrite (readByte_byte f_GatewayID) by assumption. rd. cbn [advertise_Header
      advertise_GatewayID advertise_Duration].
  rewrite (readUint16_encode_last f_Duration) by assumption. rd. cbn [advertise_Header
      advertise_GatewayID advertise_Duration].
  reflexivity.
Qed.

Lemma searchgw_roundtrip (m : SearchGwMessage) :
  searchgw_wf m -> ReadPacket (searchgw_Write m) = (Some (MSearchGw m), None).
Proof.
  destruct m as [hdr f_Radius]. unfold searchgw_wf. cbn [searchgw_Header searchgw_Radius].
  intros Hwf. destruct_and!. subst hdr.
  unfold searchgw_Write. cbn [searchgw_Header searchgw_Radius].
  eapply ReadPacket_Write; [header_type | assumption | body_length | reflexivity |].
  unfold Unpack, searchgw_Unpack, orReturn, bind, ret. cbn [searchgw_Header searchgw_Radius].
  rd. rewrite (readByte_byte f_Radius) by assumption. rd. cbn [searchgw_Header searchgw_Radius].
  reflexivity.
Qed.

Lemma gwinfo_roundtrip (m : GwInfoMessage) :
  gwinfo_wf m -> ReadPacket (gwinfo_Write m) = (Some (MGwInfo m), None).
Proof.
  destruct m as [hdr f_GatewayID f_GatewayAddress]. unfold gwinfo_wf. cbn [gwinfo_Header
      gwinfo_GatewayID gwinfo_GatewayAddress].
  intros Hwf. destruct_and!. subst hdr.
  unfold gwinfo_Write. cbn [gwinfo_Header gwinfo_GatewayID gwinfo_GatewayAddress].
  eapply ReadPacket_Write; [header_type | assumption | body_length | reflexivity |].
  unfold Unpack, gwinfo_Unpack, orReturn, bind, ret. cbn [gwinfo_Header gwinfo_GatewayID
      gwinfo_GatewayAddress].
  rd. rewrite (readByte_byte f_GatewayID) by assumption. rd. cbn [gwinfo_Header gwinfo_GatewayID
      gwinfo_GatewayAddress].
  unfold readRest. rd. cbn [gwinfo_Header gwinfo_GatewayID gwinfo_GatewayAddress].
  reflexivity.
Qed.

Lemma auth_roundtrip (m : AuthMessage) :
  auth_wf m -> ReadPacket (auth_Write m) = (Some (MAuth m), None).
Proof.
  destruct m as [hdr f_Method f_Data]. unfold auth_wf. cbn [auth_Header auth_Method auth_Data].
  intros Hwf. destruct_and!. subst hdr.
  unfold auth_Write. cbn [auth_Header auth_Method auth_Data].
  eapply ReadPacket_Write; [header_type | assumption | body_length | reflexivity |].
  unfold Unpack, auth_Unpack, orReturn, bind, ret. cbn [auth_Header auth_Method auth_Data].
  rd. rewrite (readByte_byte f_Method) by assumption. rd. cbn [auth_Header auth_Method auth_Data].
  unfold readRest. rd. cbn [auth_Header auth_Method auth_Data].
  reflexivity.
Qed.

Lemma connect_roundtrip (m : ConnectMessage) :
  connect_wf m -> ReadPacket (connect_Write m) = (Some (MConnect m), None).
Proof.
  destruct m as [hdr f_Will f_CleanSession f_ProtocolID f_Duration f_ClientID]. unfold
      connect_wf. cbn [connect_Header connect_Will connect_CleanSession connect_ProtocolID
      connect_Duration connect_ClientID].
  intros Hwf. destruct_and!. subst hdr.
  unfold connect_Write. cbn [connect_Header connect_Will connect_CleanSession connect_ProtocolID
      connect_Duration connect_ClientID].
  eapply ReadPacket_Write; [header_type | assumption | body_length | reflexivity |].
  unfold Unpack, connect_Unpack, orReturn, bind, ret. cbn [connect_Header connect_Will
      connect_CleanSession connect_ProtocolID connect_Duration connect_ClientID].
  rd. rewrite (readByte_byte (encodeFlags (mkFlags false 0 false f_Will f_CleanSession 0))) by
      apply encodeFlags_uint8.
  rd. rewrite flags_decode_encode by (cbn [flag_QOS flag_TopicIDType]; first [assumption | apply
      is_2bit_0]).
  cbn [flag_DUP flag_QOS flag_Retain flag_Will flag_CleanSession flag_TopicIDType connect_Header
      connect_Will connect_CleanSession connect_ProtocolID connect_Duration connect_ClientID].
  rd. rewrite (readByte_byte f_ProtocolID) by assumption. rd. cbn [connect_Header connect_Will
      connect_CleanSession connect_ProtocolID connect_Duration connect_ClientID].
  rewrite (readUint16_encode f_Duration) by assumption. rd. cbn [connect_Header connect_Will
      connect_CleanSession connect_ProtocolID connect_Duration connect_ClientID].
  unfold readRest. rd. cbn [connect_Header connect_Will connect_CleanSession connect_ProtocolID
      connect_Duration connect_ClientID].
  reflexivity.
Qed.

Lemma connack_roundtrip (m : ConnackMessage) :
  connack_wf m -> ReadPacket (connack_Write m) = (Some (MConnack m), None).
Proof.
  destruct m as [hdr f_ReturnCode]. unfold connack_wf. cbn [connack_Header connack_ReturnCode].
  intros Hwf. destruct_and!. subst hdr.
  unfold connack_Write. cbn [connack_Header connack_ReturnCode].
  eapply ReadPacket_Write; [header_type | assumption | body_length | reflexivity |].
  unfold Unpack, connack_Unpack, orReturn, bind, ret. cbn [connack_Header connack_ReturnCode].
  rd. rewrite (readByte_byte f_ReturnCode) by assumption. rd. cbn [connack_Header
      connack_ReturnCode].
  reflexivity.
Qed.

Lemma willtopicreq_roundtrip (m : WillTopicReqMessage) :
  willtopicreq_wf m -> ReadPacket (willtopicreq_Write m) = (Some (MWillTopicReq m), None).
Proof.
  destruct m as [hdr]. unfold willtopicreq_wf. cbn [willtopicreq_Header].
  intros Hwf. destruct_and!. subst hdr.
  unfold willtopicreq_Write. cbn [willtopicreq_Header].
  rewrite <- (app_nil_r (Header_pack _)).
  eapply ReadPacket_Write; [header_type | assumption | body_length | reflexivity |].
  unfold Unpack, willtopicreq_Unpack, orReturn, bind, ret. cbn [willtopicreq_Header].
  reflexivity.
Qed.

Lemma willtopic_roundtrip (m : WillTopicMessage) :
  willtopic_wf m -> ReadPacket (willtopic_Write m) = (Some (MWillTopic m), None).
Proof.
  destruct m as [hdr f_QOS f_Retain f_WillTopic]. unfold willtopic_wf. cbn [willtopic_Header
      willtopic_QOS willtopic_Retain willtopic_WillTopic].
  intros Hwf. destruct_and!. subst hdr.
  unfold willtopic_Write. cbn [willtopic_Header willtopic_QOS willtopic_Retain willtopic_WillTopic].
  eapply ReadPacket_Write; [header_type | assumption | body_length | reflexivity |].
  unfold Unpack, willtopic_Unpack, orReturn, bind, ret. cbn [willtopic_Header willtopic_QOS
      willtopic_Retain willtopic_WillTopic].
  rd. rewrite (readByte_byte (encodeFlags (mkFlags false f_QOS f_Retain false false 0))) by apply
      encodeFlags_uint8.
  rd. rewrite flags_decode_encode by (cbn [flag_QOS flag_TopicIDType]; first [assumption | apply
      is_2bit_0]).
  cbn [flag_DUP flag_QOS flag_Retain flag_Will flag_CleanSession flag_TopicIDType
      willtopic_Header willtopic_QOS willtopic_Retain willtopic_WillTopic].
  unfold readRest. rd. cbn [willtopic_Header willtopic_QOS willtopic_Retain willtopic_WillTopic].
      rewrite string_of_list_byte_of_string.
  reflexivity.
Qed.

Lemma willmsgreq_roundtrip (m : WillMsgReqMessage) :
  willmsgreq_wf m -> ReadPacket (willmsgreq_Write m) = (Some (MWillMsgReq m), None).
Proof.
  destruct m as [hdr]. unfold willmsgreq_wf. cbn [willmsgreq_Header].
  intros Hwf. destruct_and!. subst hdr.
  unfold willmsgreq_Write. cbn [willmsgreq_Header].
  rewrite <- (app_nil_r (Header_pack _)).
  eapply ReadPacket_Write; [header_type | assumption | body_length | reflexivity |].
  unfold Unpack, willmsgreq_Unpack, orReturn, bind, ret. cbn [willmsgreq_Header].
  reflexivity.
Qed.

Lemma willmsg_roundtrip (m : WillMsgMessage) :
  willmsg_wf m -> ReadPacket (willmsg_Write m) = (Some (MWillMsg m), None).
Proof.
  destruct m as [hdr f_WillMsg]. unfold willmsg_wf. cbn [willmsg_Header willmsg_WillMsg].
  intros Hwf. destruct_and!. subst hdr.
  unfold willmsg_Write. cbn [willmsg_Header willmsg_WillMsg].
  eapply ReadPacket_Write; [header_type | assumption | body_length | reflexivity |].
  unfold Unpack, willmsg_Unpack, orReturn, bind, ret. cbn [willmsg_Header willmsg_WillMsg].
  unfold readRest. rd. cbn [willmsg_Header willmsg_WillMsg].
  reflexivity.
Qed.

Lemma register_roundtrip (m : RegisterMessage) :
  register_wf m -> ReadPacket (register_Write m) = (Some (MRegister m), None).
Proof.
  destruct m as [hdr f_messageID f_TopicID f_TopicName]. unfold register_wf. cbn [register_Header
      register_messageID register_TopicID register_TopicName].
  intros Hwf. destruct_and!. subst hdr.
  unfold register_Write. cbn [register_Header register_messageID register_TopicID
      register_TopicName].
  eapply ReadPacket_Write; [header_type | assumption | body_length | reflexivity |].
  unfold Unpack, register_Unpack, orReturn, bind, ret. cbn [register_Header register_messageID
      register_TopicID register_TopicName].
  rewrite (readUint16_encode f_TopicID) by assumption. rd. cbn [register_Header
      register_messageID register_TopicID register_TopicName].
  rewrite (readUint16_encode f_messageID) by assumption. rd. cbn [register_Header
      register_messageID register_TopicID register_TopicName].
  unfold readRest. rd. cbn [register_Header register_messageID register_TopicID
      register_TopicName]. rewrite string_of_list_byte_of_string.
  reflexivity.
Qed.

Lemma regack_roundtrip (m : RegackMessage) :
  regack_wf m -> ReadPacket (regack_Write m) = (Some (MRegack m), None).
Proof.
  destruct m as [hdr f_messageID f_TopicID f_ReturnCode]. unfold regack_wf. cbn [regack_Header
      regack_messageID regack_TopicID regack_ReturnCode].
  intros Hwf. destruct_and!. subst hdr.
  unfold regack_Write. cbn [regack_Header regack_messageID regack_TopicID regack_ReturnCode].
  eapply ReadPacket_Write; [header_type | assumption | body_length | reflexivity |].
  unfold Unpack, regack_Unpack, orReturn, bind, ret. cbn [regack_Header regack_messageID
      regack_TopicID regack_ReturnCode].
  rewrite (readUint16_encode f_TopicID) by assumption. rd. cbn [regack_Header regack_messageID
      regack_TopicID regack_ReturnCode].
  rewrite (readUint16_encode f_messageID) by assumption. rd. cbn [regack_Header regack_messageID
      regack_TopicID regack_ReturnCode].
  rd. rewrite (readByte_byte f_ReturnCode) by assumption. rd. cbn [regack_Header regack_messageID
      regack_TopicID regack_ReturnCode].
  reflexivity.
Qed.

Lemma publish_roundtrip (m : PublishMessage) :
  publish_wf m -> ReadPacket (publish_Write m) = (Some (MPublish m), None).
Proof.
  destruct m as [hdr f_messageID f_dup f_Retain f_QOS f_TopicIDType f_TopicID f_Data]. unfold
      publish_wf. cbn [publish_Header publish_messageID publish_dup publish_Retain publish_QOS
      publish_TopicIDType publish_TopicID publish_Data].
  intros Hwf. destruct_and!. subst hdr.
  unfold publish_Write. cbn [publish_Header publish_messageID publish_dup publish_Retain
      publish_QOS publish_TopicIDType publish_TopicID publish_Data].
  eapply ReadPacket_Write; [header_type | assumption | body_length | reflexivity |].
  unfold Unpack, publish_Unpack, orReturn, bind, ret. cbn [publish_Header publish_messageID
      publish_dup publish_Retain publish_QOS publish_TopicIDType publish_TopicID publish_Data].
  rd. rewrite (readByte_byte (encodeFlags (mkFlags f_dup f_QOS f_Retain false false
      f_TopicIDType))) by apply encodeFlags_uint8.
  rd. rewrite flags_decode_encode by (cbn [flag_QOS flag_TopicIDType]; first [assumption | apply
      is_2bit_0]).
  cbn [flag_DUP flag_QOS flag_Retain flag_Will flag_CleanSession flag_TopicIDType publish_Header
      publish_messageID publish_dup publish_Retain publish_QOS publish_TopicIDType
      publish_TopicID publish_Data].
  rewrite (readUint16_encode f_TopicID) by assumption. rd. cbn [publish_Header publish_messageID
      publish_dup publish_Retain publish_QOS publish_TopicIDType publish_TopicID publish_Data].
  rewrite (readUint16_encode f_messageID) by assumption. rd. cbn [publish_Header
      publish_messageID publish_dup publish_Retain publish_QOS publish_TopicIDType
      publish_TopicID publish_Data].
  unfold readRest. rd. cbn [publish_Header publish_messageID publish_dup publish_Retain
      publish_QOS publish_TopicIDType publish_TopicID publish_Data].
  reflexivity.
Qed.

Lemma pubcomp_roundtrip (m : PubcompMessage) :
  pubcomp_wf m -> ReadPacket (pubcomp_Write m) = (Some (MPubcomp m), None).
Proof.
  destruct m as [hdr f_messageID]. unfold pubcomp_wf. cbn [pubcomp_Header pubcomp_messageID].
  intros Hwf. destruct_and!. subst hdr.
  unfold pubcomp_Write. cbn [pubcomp_Header pubcomp_messageID].
  eapply ReadPacket_Write; [header_type | assumption | body_length | reflexivity |].
  unfold Unpack, pubcomp_Unpack, orReturn, bind, ret. cbn [pubcomp_Header pubcomp_messageID].
  rewrite (readUint16_encode_last f_messageID) by assumption. rd. cbn [pubcomp_Header
      pubcomp_messageID].
  reflexivity.
Qed.

Lemma pubrec_roundtrip (m : PubrecMessage) :
  pubrec_wf m -> ReadPacket (pubrec_Write m) = (Some (MPubrec m), None).
Proof.
  destruct m as [hdr f_messageID]. unfold pubrec_wf. cbn [pubrec_Header pubrec_messageID].
  intros Hwf. destruct_and!. subst hdr.
  unfold pubrec_Write. cbn [pubrec_Header pubrec_messageID].
  eapply ReadPacket_Write; [header_type | assumption | body_length | reflexivity |].
  unfold Unpack, pubrec_Unpack, orReturn, bind, ret. cbn [pubrec_Header pubrec_messageID].
  rewrite (readUint16_encode_last f_messageID) by assumption. rd. cbn [pubrec_Header
      pubrec_messageID].
  reflexivity.
Qed.

Lemma pubrel_roundtrip (m : PubrelMessage) :
  pubrel_wf m -> ReadPacket (pubrel_Write m) = (Some (MPubrel m), None).
Proof.
  destruct m as [hdr f_messageID]. unfold pubrel_wf. cbn [pubrel_Header pubrel_messageID].
  intros Hwf. destruct_and!. subst hdr.
  unfold pubrel_Write. cbn [pubrel_Header pubrel_messageID].
  eapply ReadPacket_Write; [header_type | assumption | body_length | reflexivity |].
  unfold Unpack, pubrel_Unpack, orReturn, bind, ret. cbn [pubrel_Header pubrel_messageID].
  rewrite (readUint16_encode_last f_messageID) by assumption. rd. cbn [pubrel_Header
      pubrel_messageID].
  reflexivity.
Qed.

Lemma suback_roundtrip (m : SubackMessage) :
  suback_wf m -> ReadPacket (suback_Write m) = (Some (MSuback m), None).
Proof.
  destruct m as [hdr f_messageID f_QOS f_ReturnCode f_TopicID]. unfold suback_wf. cbn
      [suback_Header suback_messageID suback_QOS suback_ReturnCode suback_TopicID].
  intros Hwf. destruct_and!. subst hdr.
  unfold suback_Write. cbn [suback_Header suback_messageID suback_QOS suback_ReturnCode
      suback_TopicID].
  eapply ReadPacket_Write; [header_type | assumption | body_length | reflexivity |].
  unfold Unpack, suback_Unpack, orReturn, bind, ret. cbn [suback_Header suback_messageID
      suback_QOS suback_ReturnCode suback_TopicID].
  rd. rewrite (readByte_byte (encodeFlags (mkFlags false f_QOS false false false 0))) by apply
      encodeFlags_uint8.
  rd. rewrite flags_decode_encode by (cbn [flag_QOS flag_TopicIDType]; first [assumption | apply
      is_2bit_0]).
  cbn [flag_DUP flag_QOS flag_Retain flag_Will flag_CleanSession flag_TopicIDType suback_Header
      suback_messageID suback_QOS suback_ReturnCode suback_TopicID].
  rewrite (readUint16_encode f_TopicID) by assumption. rd. cbn [suback_Header suback_messageID
      suback_QOS suback_ReturnCode suback_TopicID].
  rewrite (readUint16_encode f_messageID) by assumption. rd. cbn [suback_Header suback_messageID
      suback_QOS suback_ReturnCode suback_TopicID].
  rd. rewrite (readByte_byte f_ReturnCode) by assumption. rd. cbn [suback_Header suback_messageID
      suback_QOS suback_ReturnCode suback_TopicID].
  reflexivity.
Qed.

Lemma unsuback_roundtrip (m : UnsubackMessage) :
  unsuback_wf m -> ReadPacket (unsuback_Write m) = (Some (MUnsuback m), None).
Proof.
  destruct m as [hdr f_messageID]. unfold unsuback_wf. cbn [unsuback_Header unsuback_messageID].
  intros Hwf. destruct_and!. subst hdr.
  unfold unsuback_Write. cbn [unsuback_Header unsuback_messageID].
  eapply ReadPacket_Write; [header_type | assumption | body_length | reflexivity |].
  unfold Unpack, unsuback_Unpack, orReturn, bind, ret. cbn [unsuback_Header unsuback_messageID].
  rewrite (readUint16_encode_last f_messageID) by assumption. rd. cbn [unsuback_Header
      unsuback_messageID].
  reflexivity.
Qed.

Lemma pingreq_roundtrip (m : PingreqMessage) :
  pingreq_wf m -> ReadPacket (pingreq_Write m) = (Some (MPingreq m), None).
Proof.
  destruct m as [hdr f_ClientID]. unfold pingreq_wf. cbn [pingreq_Header pingreq_ClientID].
  intros Hwf. destruct_and!. subst hdr.
  unfold pingreq_Write. cbn [pingreq_Header pingreq_ClientID].
  eapply ReadPacket_Write; [header_type | assumption | body_length | reflexivity |].
  unfold Unpack, pingreq_Unpack, orReturn, bind, ret. cbn [pingreq_Header pingreq_ClientID].
  unfold readRest. rd. cbn [pingreq_Header pingreq_ClientID].
  reflexivity.
Qed.

Lemma pingresp_roundtrip (m : PingrespMessage) :
  pingresp_wf m -> ReadPacket (pingresp_Write m) = (Some (MPingresp m), None).
Proof.
  destruct m as [hdr]. unfold pingresp_wf. cbn [pingresp_Header].
  intros Hwf. destruct_and!. subst hdr.
  unfold pingresp_Write. cbn [pingresp_Header].
  rewrite <- (app_nil_r (Header_pack _)).
  eapply ReadPacket_Write; [header_type | assumption | body_length | reflexivity |].
  unfold Unpack, pingresp_Unpack, orReturn, bind, ret. cbn [pingresp_Header].
  reflexivity.
Qed.

Lemma willtopicupd_roundtrip (m : WillTopicUpdateMessage) :
  willtopicupd_wf m -> ReadPacket (willtopicupd_Write m) = (Some (MWillTopicUpdate m), None).
Proof.
  destruct m as [hdr f_QOS f_Retain f_WillTopic]. unfold willtopicupd_wf. cbn
      [willtopicupd_Header willtopicupd_QOS willtopicupd_Retain willtopicupd_WillTopic].
  intros Hwf. destruct_and!. subst hdr.
  unfold willtopicupd_Write. cbn [willtopicupd_Header willtopicupd_QOS willtopicupd_Retain
      willtopicupd_WillTopic].
  eapply ReadPacket_Write; [header_type | assumption | body_length | reflexivity |].
  unfold Unpack, willtopicupd_Unpack, orReturn, bind, ret. cbn [willtopicupd_Header
      willtopicupd_QOS willtopicupd_Retain willtopicupd_WillTopic].
  rd. rewrite (readByte_byte (encodeFlags (mkFlags false f_QOS f_Retain false false 0))) by apply
      encodeFlags_uint8.
  rd. rewrite flags_decode_encode by (cbn [flag_QOS flag_TopicIDType]; first [assumption | apply
      is_2bit_0]).
  cbn [flag_DUP flag_QOS flag_Retain flag_Will flag_CleanSession flag_TopicIDType
      willtopicupd_Header willtopicupd_QOS willtopicupd_Retain willtopicupd_WillTopic].
  unfold readRest. rd. cbn [willtopicupd_Header willtopicupd_QOS willtopicupd_Retain
      willtopicupd_WillTopic].
  reflexivity.
Qed.

Lemma willtopicresp_roundtrip (m : WillTopicRespMessage) :
  willtopicresp_wf m -> ReadPacket (willtopicresp_Write m) = (Some (MWillTopicResp m), None).
Proof.
  destruct m as [hdr f_ReturnCode]. unfold willtopicresp_wf. cbn [willtopicresp_Header
      willtopicresp_ReturnCode].
  intros Hwf. destruct_and!. subst hdr.
  unfold willtopicresp_Write. cbn [willtopicresp_Header willtopicresp_ReturnCode].
  eapply ReadPacket_Write; [header_type | assumption | body_length | reflexivity |].
  unfold Unpack, willtopicresp_Unpack, orReturn, bind, ret. cbn [willtopicresp_Header
      willtopicresp_ReturnCode].
  rd. rewrite (readByte_byte f_ReturnCode) by assumption. rd. cbn [willtopicresp_Header
      willtopicresp_ReturnCode].
  reflexivity.
Qed.

Lemma willmsgupd_roundtrip (m : WillMsgUpdateMessage) :
  willmsgupd_wf m -> ReadPacket (willmsgupd_Write m) = (Some (MWillMsgUpdate m), None).
Proof.
  destruct m as [hdr f_WillMsg]. unfold willmsgupd_wf. cbn [willmsgupd_Header willmsgupd_WillMsg].
  intros Hwf. destruct_and!. subst hdr.
  unfold willmsgupd_Write. cbn [willmsgupd_Header willmsgupd_WillMsg].
  eapply ReadPacket_Write; [header_type | assumption | body_length | reflexivity |].
  unfold Unpack, willmsgupd_Unpack, orReturn, bind, ret. cbn [willmsgupd_Header willmsgupd_WillMsg].
  unfold readRest. rd. cbn [willmsgupd_Header willmsgupd_WillMsg].
  reflexivity.
Qed.

Lemma willmsgresp_roundtrip (m : WillMsgRespMessage) :
  willmsgresp_wf m -> ReadPacket (willmsgresp_Write m) = (Some (MWillMsgResp m), None).
Proof.
  destruct m as [hdr f_ReturnCode]. unfold willmsgresp_wf. cbn [willmsgresp_Header
      willmsgresp_ReturnCode].
  intros Hwf. destruct_and!. subst hdr.
  unfold willmsgresp_Write. cbn [willmsgresp_Header willmsgresp_ReturnCode].
  eapply ReadPacket_Write; [header_type | assumption | body_length | reflexivity |].
  unfold Unpack, willmsgresp_Unpack, orReturn, bind, ret. cbn [willmsgresp_Header
      willmsgresp_ReturnCode].
  rd. rewrite (readByte_byte f_ReturnCode) by assumption. rd. cbn [willmsgresp_Header
      willmsgresp_ReturnCode].
  reflexivity.
Qed.
Ltac topic_length :=
  unfold topicFieldLength, blen, encodeUint16, NewHeader in *;
  cbn [varPartLength]; rewrite ?length_app; cbn [length];
  case_decide; cbn [length]; lia.

Lemma puback_roundtrip (m : PubackMessage) :
  puback_wf m -> ReadPacket (puback_Write m) = (Some (MPuback m), None).
Proof.
  destruct m as [hdr id topic rc]. unfold puback_wf.
  cbn [puback_Header puback_messageID puback_TopicID puback_ReturnCode].
  intros Hwf. destruct_and!. subst hdr.
  unfold puback_Write.
  cbn [puback_Header puback_messageID puback_TopicID puback_ReturnCode].
  eapply ReadPacket_Write; [header_type | assumption | body_length | reflexivity |].
  unfold Unpack, puback_Unpack, bind, ret.
  cbn [puback_Header puback_messageID puback_TopicID puback_ReturnCode].
  rewrite (readUint16_encode topic) by assumption. rd.
  rewrite (readUint16_encode id) by assumption. rd.
  rewrite (readByte_byte rc) by assumption. rd.
  reflexivity.
Qed.

Lemma subscribe_roundtrip (m : SubscribeMessage) :
  subscribe_wf m -> ReadPacket (subscribe_Write m) = (Some (MSubscribe m), None).
Proof.
  destruct m as [hdr id dup qos tit topicID name]. unfold subscribe_wf.
  cbn [subscribe_Header subscribe_messageID subscribe_dup subscribe_QOS
       subscribe_TopicIDType subscribe_TopicID subscribe_TopicName].
  intros Hwf. destruct_and!. subst hdr.
  unfold subscribe_Write.
  cbn [subscribe_Header subscribe_messageID subscribe_dup subscribe_QOS
       subscribe_TopicIDType subscribe_TopicID subscribe_TopicName].
  eapply ReadPacket_Write; [header_type | assumption | topic_length | reflexivity |].
  unfold Unpack, subscribe_Unpack, orReturn, bind, ret.
  cbn [subscribe_Header subscribe_messageID subscribe_dup subscribe_QOS
       subscribe_TopicIDType subscribe_TopicID subscribe_TopicName].
  rd. rewrite (readByte_byte (encodeFlags (mkFlags dup qos false false false tit)))
    by apply encodeFlags_uint8.
  rd. rewrite flags_decode_encode by (cbn [flag_QOS flag_TopicIDType]; assumption).
  cbn [flag_DUP flag_QOS flag_TopicIDType subscribe_Header subscribe_messageID subscribe_dup
       subscribe_QOS subscribe_TopicIDType subscribe_TopicID subscribe_TopicName].
  rewrite (readUint16_encode id) by assumption. rd.
  cbn [subscribe_Header subscribe_messageID subscribe_dup subscribe_QOS
       subscribe_TopicIDType subscribe_TopicID subscribe_TopicName].
  repeat case_decide; try contradiction; subst.
  - unfold readRest. rd. reflexivity.
  - rewrite (readUint16_encode_last topicID) by assumption. rd. reflexivity.
Qed.

Lemma unsubscribe_roundtrip (m : UnsubscribeMessage) :
  unsubscribe_wf m -> ReadPacket (unsubscribe_Write m) = (Some (MUnsubscribe m), None).
Proof.
  destruct m as [hdr id tit topicID name]. unfold unsubscribe_wf.
  cbn [unsubscribe_Header unsubscribe_messageID unsubscribe_TopicIDType
       unsubscribe_TopicID unsubscribe_TopicName].
  intros Hwf. destruct_and!. subst hdr.
  unfold unsubscribe_Write.
  cbn [unsubscribe_Header unsubscribe_messageID unsubscribe_TopicIDType
       unsubscribe_TopicID unsubscribe_TopicName].
  eapply ReadPacket_Write; [header_type | assumption | topic_length | reflexivity |].
  unfold Unpack, unsubscribe_Unpack, orReturn, bind, ret.
  cbn [unsubscribe_Header unsubscribe_messageID unsubscribe_TopicIDType
       unsubscribe_TopicID unsubscribe_TopicName].
  rd. rewrite (readByte_byte (encodeFlags (mkFlags false 0 false false false tit)))
    by apply encodeFlags_uint8.
  rd. rewrite flags_decode_encode
    by (cbn [flag_QOS flag_TopicIDType]; first [assumption | apply is_2bit_0]).
  cbn [flag_TopicIDType unsubscribe_Header unsubscribe_messageID unsubscribe_TopicIDType
       unsubscribe_TopicID unsubscribe_TopicName].
  rewrite (readUint16_encode id) by assumption. rd.
  cbn [unsubscribe_Header unsubscribe_messageID unsubscribe_TopicIDType
       unsubscribe_TopicID unsubscribe_TopicName].
  repeat case_decide; try contradiction; subst.
  - unfold readRest. rd. reflexivity.
  - rewrite (readUint16_encode_last topicID) by assumption. rd. reflexivity.
Qed.

Lemma disconnect_roundtrip (m : DisconnectMessage) :
  disconnect_wf m -> ReadPacket (disconnect_Write m) = (Some (MDisconnect m), None).
Proof.
  destruct m as [hdr duration]. unfold disconnect_wf.
  cbn [disconnect_Header disconnect_Duration].
  intros Hwf. destruct_and!. subst hdr.
  unfold disconnect_Write. cbn [disconnect_Header disconnect_Duration].
  assert (Hfits : fits (disconnectVarPartLength duration)).
  { unfold fits, disconnectVarPartLength, longHeaderLength. case_decide; lia. }
  eapply ReadPacket_Write; [header_type | assumption | | reflexivity |].
  { unfold disconnectVarPartLength, NewHeader, encodeUint16. cbn [varPartLength].
    case_decide; reflexivity. }
  unfold Unpack, disconnect_Unpack, orReturn, bind, ret, disconnectVarPartLength, NewHeader.
  cbn [disconnect_Header disconnect_Duration varPartLength].
  destruct (decide (duration = 0)) as [->|Hne].
  - reflexivity.
  - case_decide; [discriminate|].
    rewrite (readUint16_encode_last duration) by assumption. rd. reflexivity.
Qed.

(** C8: for every MQTT-SN message type and every well-formed message [m] of
    that type, reading a packet from the bytes [Write m] succeeds and yields a
    message equal to [m] in every field, header included. *)
Theorem C8_read_packet_inverts_write (m : Message) :
  WellFormed m -> ReadPacket (Write m) = (Some m, None).
Proof.
  destruct m as [m|m|m|m|m|m|m|m|m|m|m|m|m|m|m|m|m|m|m|m|m|m|m|m|m|m|m|m];
    cbn [WellFormed Write].
  - apply advertise_roundtrip.
  - apply searchgw_roundtrip.
  - apply gwinfo_roundtrip.
  - apply auth_roundtrip.
  - apply connect_roundtrip.
  - apply connack_roundtrip.
  - apply willtopicreq_roundtrip.
  - apply willtopic_roundtrip.
  - apply willmsgreq_roundtrip.
  - apply willmsg_roundtrip.
  - apply register_roundtrip.
  - apply regack_roundtrip.
  - apply publish_roundtrip.
  - apply puback_roundtrip.
  - apply pubcomp_roundtrip.
  - apply pubrec_roundtrip.
  - apply pubrel_roundtrip.
  - apply subscribe_roundtrip.
  - apply suback_roundtrip.
  - apply unsubscribe_roundtrip.
  - apply unsuback_roundtrip.
  - apply pingreq_roundtrip.
  - apply pingresp_roundtrip.
  - apply disconnect_roundtrip.
  - apply willtopicupd_roundtrip.
  - apply willtopicresp_roundtrip.
  - apply willmsgupd_roundtrip.
  - apply willmsgresp_roundtrip.
Qed.

(** The PUBACK the gateway sends for message 12 on topic 7. *)
Lemma C8_witness :
  WellFormed (MPuback (puback_SetMessageID 12 (NewPubackMessage 7 RC_ACCEPTED))) /\
  ReadPacket (Write (MPuback (puback_SetMessageID 12 (NewPubackMessage 7 RC_ACCEPTED)))) =
    (Some (MPuback (puback_SetMessageID 12 (NewPubackMessage 7 RC_ACCEPTED))), None).
Proof.
  assert (Hwf : WellFormed (MPuback (puback_SetMessageID 12 (NewPubackMessage 7 RC_ACCEPTED)))).
  { unfold WellFormed, puback_wf, fits, is_uint16, is_uint8, puback_SetMessageID,
      NewPubackMessage, pubackVarPartLength, longHeaderLength, RC_ACCEPTED.
    cbn [puback_Header puback_messageID puback_TopicID puback_ReturnCode].
    repeat split; lia. }
  split; [exact Hwf | apply C8_read_packet_inverts_write; exact Hwf].
Defined.

(* ===================================================================== *)
(** * More on the CONNECT transaction                                     *)
(* ===================================================================== *)

Import scenarios.

(** ** One call of a method of the CONNECT transaction, as an equation *)

Lemma Start_eq (h : handler) (t : txref) (c : connectTransaction) :
  heap h !! t = Some (TConnect c) ->
  Start t h =
    let h0 := set_tasks (tasks h ++ [WatchConnect t]) h in
    if authEnabled c then Some (None, h0)
    else if WillFlag (mqConnect c) then snSend (MWillTopicReq NewWillTopicReqMessage) h0
    else mqttSend (Connect (mqConnect c)) h0.
Proof.
  intros Hheap. unfold Start, groupGo, loadConnect, load, bind, modify, ret. cbn.
  rewrite Hheap. destruct (authEnabled c); [reflexivity|].
  destruct (WillFlag (mqConnect c)); reflexivity.
Qed.

Lemma snSend_ok (h : handler) (m : Message) :
  snFault h = None ->
  snSend m h = Some (None, set_trace (trace h ++ [(now h, EvSnSend m)]) h).
Proof. intros Hsn. unfold snSend, emit, bind, gets, modify, ret. rewrite Hsn. reflexivity. Qed.

Lemma snSend_fault (h : handler) (m : Message) (e : error) :
  snFault h = Some e -> snSend m h = Some (Some e, h).
Proof. intros Hsn. unfold snSend, bind, gets, ret. rewrite Hsn. reflexivity. Qed.

Lemma mqttSend_ok (h : handler) (p : ControlPacket) :
  mqttFault h = None ->
  mqttSend p h = Some (None, set_trace (trace h ++ [(now h, EvMqttSend p)]) h).
Proof. intros Hmq. unfold mqttSend, emit, bind, gets, modify, ret. rewrite Hmq. reflexivity. Qed.

Lemma mqttSend_fault (h : handler) (p : ControlPacket) (e : error) :
  mqttFault h = Some e -> mqttSend p h = Some (Some e, h).
Proof. intros Hmq. unfold mqttSend, bind, gets, ret. rewrite Hmq. reflexivity. Qed.

Lemma updateMqConnect_eq (h : handler) (t : txref) (c : connectTransaction) f :
  heap h !! t = Some (TConnect c) ->
  updateMqConnect t f h
  = Some (tt, set_heap (<[t := TConnect (withMqConnect f c)]> (heap h)) h).
Proof.
  intros Hheap. unfold updateMqConnect, loadConnect, load, store, bind, modify, ret.
  rewrite Hheap. reflexivity.
Qed.

Lemma WillTopic_eq (h : handler) (t : txref) (c : connectTransaction) (m : WillTopicMessage) :
  heap h !! t = Some (TConnect c) ->
  gateway.WillTopic t m h =
    snSend (MWillMsgReq NewWillMsgReqMessage)
      (set_heap (<[t := TConnect (withMqConnect
                                    (setWillTopic (willtopic_QOS m) (willtopic_Retain m)
                                       (willtopic_WillTopic m)) c)]> (heap h)) h).
Proof.
  intros Hheap. unfold gateway.WillTopic. unfold bind at 1.
  rewrite (updateMqConnect_eq h t c _ Hheap). reflexivity.
Qed.

Lemma WillMsg_eq (h : handler) (t : txref) (c : connectTransaction) (m : WillMsgMessage) :
  heap h !! t = Some (TConnect c) ->
  WillMsg t m h =
    mqttSend (Connect (setWillMessage (willmsg_WillMsg m) (mqConnect c)))
      (set_heap (<[t := TConnect (withMqConnect (setWillMessage (willmsg_WillMsg m)) c)]>
                   (heap h)) h).
Proof.
  intros Hheap. assert (Hlt : (t < length (heap h))%nat) by (eapply lookup_lt_Some; eauto).
  unfold WillMsg. unfold bind at 1.
  rewrite (updateMqConnect_eq h t c _ Hheap).
  unfold loadConnect, load, bind, ret. cbv beta iota. cbn [heap set_heap].
  rewrite list_lookup_insert_eq by assumption. reflexivity.
Qed.

(** X1: without authentication and with a Will: [Start] asks for the Will
    topic, WILLTOPIC for the Will message, and WILLMSG sends the one MQTT
    CONNECT, which is the CONNECT of the transaction with the Will topic,
    QoS and retain flag of WILLTOPIC and the Will message of WILLMSG; the
    broker gets nothing before WILLMSG. *)
Theorem will_subflow_builds_connect
    (h : handler) (t : txref) (c : connectTransaction)
    (snWillTopic : WillTopicMessage) (snWillMsg : WillMsgMessage) :
  heap h !! t = Some (TConnect c) ->
  authEnabled c = false ->
  WillFlag (mqConnect c) = true ->
  snFault h = None ->
  mqttFault h = None ->
  let p := setWillMessage (willmsg_WillMsg snWillMsg)
             (setWillTopic (willtopic_QOS snWillTopic) (willtopic_Retain snWillTopic)
                (willtopic_WillTopic snWillTopic) (mqConnect c)) in
  exists h1 h2 h3,
    Start t h = Some (None, h1) /\
    gateway.WillTopic t snWillTopic h1 = Some (None, h2) /\
    WillMsg t snWillMsg h2 = Some (None, h3) /\
    snSent (trace h1) = snSent (trace h) ++ [MWillTopicReq NewWillTopicReqMessage] /\
    snSent (trace h2) = snSent (trace h1) ++ [MWillMsgReq NewWillMsgReqMessage] /\
    snSent (trace h3) = snSent (trace h2) /\
    mqttSent (trace h2) = mqttSent (trace h) /\
    mqttSent (trace h3) = mqttSent (trace h) ++ [Connect p] /\
    WillFlag p = true /\
    mqttPackets.WillTopic p = willtopic_WillTopic snWillTopic /\
    WillQos p = willtopic_QOS snWillTopic /\
    WillRetain p = willtopic_Retain snWillTopic /\
    WillMessage p = willmsg_WillMsg snWillMsg /\
    ClientIdentifier p = ClientIdentifier (mqConnect c) /\
    CleanSession p = CleanSession (mqConnect c) /\
    Keepalive p = Keepalive (mqConnect c) /\
    UsernameFlag p = UsernameFlag (mqConnect c) /\
    PasswordFlag p = PasswordFlag (mqConnect c).
Proof.
  intros Hheap Hauth Hwill Hsn Hmq p.
  assert (Hlt : (t < length (heap h))%nat) by (eapply lookup_lt_Some; eauto).
  do 3 eexists.
  split. { rewrite (Start_eq h t c Hheap), Hauth, Hwill. cbv zeta.
           apply snSend_ok. exact Hsn. }
  split. { erewrite WillTopic_eq by (handler_fields; exact Hheap).
           apply snSend_ok. exact Hsn. }
  split. { erewrite WillMsg_eq
             by (handler_fields; apply list_lookup_insert_eq; exact Hlt).
           apply mqttSend_ok. exact Hmq. }
  handler_fields.
  rewrite !snSent_app, !mqttSent_app. cbn [snSent mqttSent]. rewrite !app_nil_r.
  repeat split; try reflexivity; try assumption.
Qed.

Lemma will_subflow_builds_connect_witness :
  exists h1 h2 h3,
    Start 0%nat (installed false willConnect) = Some (None, h1) /\
    gateway.WillTopic 0%nat sampleWillTopic h1 = Some (None, h2) /\
    WillMsg 0%nat sampleWillMsg h2 = Some (None, h3) /\
    mqttSent (trace h3) =
      [Connect (mkConnectPacket "MQTT" 4 true true 1 true false false 1 "test-client"
                  "test/status" (list_byte_of_string "offline") EmptyString [])].
Proof.
  destruct (will_subflow_builds_connect (installed false willConnect) 0%nat
              (connectTransactionOf false willConnect) sampleWillTopic sampleWillMsg)
    as (h1 & h2 & h3 & H1 & H2 & H3 & _ & _ & _ & _ & Hm & _).
  - reflexivity.
  - reflexivity.
  - reflexivity.
  - reflexivity.
  - reflexivity.
  - exists h1, h2, h3. repeat split; assumption.
Defined.


Lemma Auth_plain_eq (h : handler) (t : txref) (c : connectTransaction) (m : AuthMessage)
    (user : string) (password : bytes) :
  heap h !! t = Some (TConnect c) ->
  auth_Method m = AUTH_PLAIN ->
  DecodePlain m = inl (user, password) ->
  Auth t m h =
    let h1 := set_heap (<[t := TConnect (withMqConnect (setCredentials user password) c)]>
                          (heap h)) h in
    if WillFlag (mqConnect c) then snSend (MWillTopicReq NewWillTopicReqMessage) h1
    else mqttSend (Connect (setCredentials user password (mqConnect c))) h1.
Proof.
  intros Hheap Hm Hdec.
  assert (Hlt : (t < length (heap h))%nat) by (eapply lookup_lt_Some; eauto).
  unfold Auth. rewrite Hdec.
  destruct (decide (auth_Method m = AUTH_PLAIN)) as [_|n]; [|contradiction].
  unfold bind at 1. rewrite (updateMqConnect_eq h t c _ Hheap).
  unfold loadConnect, load, bind, ret. cbv beta iota zeta. cbn [heap set_heap].
  rewrite list_lookup_insert_eq by assumption.
  cbn [withMqConnect mqConnect setCredentials WillFlag].
  destruct (WillFlag (mqConnect c)); reflexivity.
Qed.

(** X2: with authentication and a Will: [Start] waits, AUTH asks for the Will
    topic, WILLTOPIC for the Will message, and WILLMSG sends the one MQTT
    CONNECT, which carries the credentials of AUTH and the Will of
    WILLTOPIC and WILLMSG. *)
Theorem auth_will_subflow_builds_connect
    (h : handler) (t : txref) (c : connectTransaction) (snAuth : AuthMessage)
    (user : string) (password : bytes)
    (snWillTopic : WillTopicMessage) (snWillMsg : WillMsgMessage) :
  heap h !! t = Some (TConnect c) ->
  authEnabled c = true ->
  WillFlag (mqConnect c) = true ->
  auth_Method snAuth = AUTH_PLAIN ->
  DecodePlain snAuth = inl (user, password) ->
  snFault h = None ->
  mqttFault h = None ->
  let p := setWillMessage (willmsg_WillMsg snWillMsg)
             (setWillTopic (willtopic_QOS snWillTopic) (willtopic_Retain snWillTopic)
                (willtopic_WillTopic snWillTopic)
                (setCredentials user password (mqConnect c))) in
  exists h0 h1 h2 h3,
    Start t h = Some (None, h0) /\
    Auth t snAuth h0 = Some (None, h1) /\
    gateway.WillTopic t snWillTopic h1 = Some (None, h2) /\
    WillMsg t snWillMsg h2 = Some (None, h3) /\
    trace h0 = trace h /\
    snSent (trace h3) =
      snSent (trace h) ++ [MWillTopicReq NewWillTopicReqMessage;
                           MWillMsgReq NewWillMsgReqMessage] /\
    mqttSent (trace h2) = mqttSent (trace h) /\
    mqttSent (trace h3) = mqttSent (trace h) ++ [Connect p] /\
    UsernameFlag p = true /\ Username p = user /\
    PasswordFlag p = true /\ Password p = password /\
    WillFlag p = true /\
    mqttPackets.WillTopic p = willtopic_WillTopic snWillTopic /\
    WillQos p = willtopic_QOS snWillTopic /\
    WillRetain p = willtopic_Retain snWillTopic /\
    WillMessage p = willmsg_WillMsg snWillMsg /\
    ClientIdentifier p = ClientIdentifier (mqConnect c) /\
    CleanSession p = CleanSession (mqConnect c) /\
    Keepalive p = Keepalive (mqConnect c).
Proof.
  intros Hheap Hauth Hwill Hm Hdec Hsn Hmq p.
  assert (Hlt : (t < length (heap h))%nat) by (eapply lookup_lt_Some; eauto).
  do 4 eexists.
  split. { rewrite (Start_eq h t c Hheap), Hauth. reflexivity. }
  split. { erewrite Auth_plain_eq by (handler_fields; eassumption).
           rewrite Hwill. cbv zeta. apply snSend_ok. exact Hsn. }
  split. { erewrite WillTopic_eq
             by (handler_fields; apply list_lookup_insert_eq; exact Hlt).
           apply snSend_ok. exact Hsn. }
  split. { erewrite WillMsg_eq
             by (handler_fields; apply list_lookup_insert_eq;
                 rewrite length_insert; exact Hlt).
           apply mqttSend_ok. exact Hmq. }
  handler_fields.
  rewrite !snSent_app, !mqttSent_app. cbn [snSent mqttSent]. rewrite !app_nil_r.
  rewrite <- app_assoc.
  repeat split; try reflexivity; try assumption.
Qed.

Lemma auth_will_subflow_builds_connect_witness :
  exists h0 h1 h2 h3,
    Start 0%nat (installed true willConnect) = Some (None, h0) /\
    Auth 0%nat sampleAuth h0 = Some (None, h1) /\
    gateway.WillTopic 0%nat sampleWillTopic h1 = Some (None, h2) /\
    WillMsg 0%nat sampleWillMsg h2 = Some (None, h3) /\
    mqttSent (trace h3) =
      [Connect (mkConnectPacket "MQTT" 4 true true 1 true true true 1 "test-client"
                  "test/status" (list_byte_of_string "offline") "test-user"
                  (list_byte_of_string "test-pwd"))].
Proof.
  destruct (auth_will_subflow_builds_connect (installed true willConnect) 0%nat
              (connectTransactionOf true willConnect) sampleAuth
              "test-user" (list_byte_of_string "test-pwd") sampleWillTopic sampleWillMsg)
    as (h0 & h1 & h2 & h3 & H0 & H1 & H2 & H3 & _ & _ & _ & Hm & _).
  - reflexivity.
  - reflexivity.
  - reflexivity.
  - reflexivity.
  - vm_compute. reflexivity.
  - reflexivity.
  - reflexivity.
  - exists h0, h1, h2, h3. repeat split; assumption.
Defined.

(** ** Completion *)

(** The end of a live transaction: its result is stored, its finalizer
    runs, the task that waits for it is woken. *)
Lemma complete_live (h : handler) (t : txref) (tx : transaction) (res : err) :
  heap h !! t = Some tx -> live tx ->
  complete t res h =
    (runFinalizer (doneFn (baseOf tx)) ;;; signalDone t res)
      (set_heap (<[t := setDone res tx]> (heap h)) h).
Proof.
  intros Hheap Hlive. unfold live in Hlive.
  unfold complete, load, store, bind, modify, ret. rewrite Hheap, Hlive. reflexivity.
Qed.

(** Completion is terminal. *)
Lemma complete_done (h : handler) (t : txref) (tx : transaction) (r res : err) :
  heap h !! t = Some tx -> done (baseOf tx) = Some r ->
  complete t res h = Some (tt, h).
Proof.
  intros Hheap Hdone. unfold complete, load, bind, ret. rewrite Hheap, Hdone. reflexivity.
Qed.

(** What the end of a transaction leaves of the handler. *)
Lemma complete_frame (h h' : handler) (t : txref) (tx : transaction) (res : err) :
  heap h !! t = Some tx -> live tx ->
  complete t res h = Some (tt, h') ->
  heap h' = <[t := setDone res tx]> (heap h) /\
  state h' = state h /\
  snSent (trace h') = snSent (trace h) /\
  mqttSent (trace h') = mqttSent (trace h) /\
  snFault h' = snFault h /\
  registeredTopics h' = registeredTopics h /\
  now h' = now h /\
  byType h' = match doneFn (baseOf tx) with
              | transactions.DeleteByType k => delete k (byType h)
              | transactions.Delete _ => byType h
              end /\
  byID h' = match doneFn (baseOf tx) with
            | transactions.DeleteByType _ => byID h
            | transactions.Delete k => delete k (byID h)
            end.
Proof.
  intros Hheap Hlive. rewrite (complete_live h t tx res Hheap Hlive).
  unfold signalDone, runFinalizer, groupReturn, gateway.DeleteByType, gateway.Delete,
    emit, bind, modify, gets, ret.
  destruct (doneFn (baseOf tx)); cbn;
    destruct (decide (WatchConnect t ∈ tasks h)); cbn;
    destruct (watchConnectResult res); cbn;
    destruct (groupErr h); cbn;
    intros [= <-]; cbn; rewrite ?snSent_app, ?mqttSent_app; cbn; rewrite ?app_nil_r;
    repeat split; reflexivity.
Qed.

Lemma complete_total (h : handler) (t : txref) (tx : transaction) (res : err) :
  heap h !! t = Some tx -> exists h', complete t res h = Some (tt, h').
Proof.
  intros Hheap. destruct (done (baseOf tx)) as [r|] eqn:Hd.
  - exists h. eapply complete_done; eassumption.
  - rewrite (complete_live h t tx res Hheap Hd).
    unfold signalDone, runFinalizer, groupReturn, gateway.DeleteByType, gateway.Delete,
      emit, bind, modify, gets, ret.
    destruct (doneFn (baseOf tx)); cbn;
      destruct (decide (WatchConnect t ∈ tasks h)); cbn;
      destruct (watchConnectResult res); cbn;
      destruct (groupErr h); cbn; eexists; reflexivity.
Qed.

Lemma SendConnack_ok (h : handler) (t : txref) (code : messages.ReturnCode) :
  snFault h = None ->
  SendConnack t code h
  = Some (None, set_trace (trace h ++ [(now h, EvSnSend (MConnack (NewConnackMessage code)))])
                  h).
Proof.
  intros Hsn. unfold SendConnack. unfold bind at 1. rewrite snSend_ok by assumption.
  reflexivity.
Qed.

Lemma SendConnack_fault (h : handler) (t : txref) (tx : transaction)
    (code : messages.ReturnCode) (e : error) :
  heap h !! t = Some tx -> live tx -> snFault h = Some e ->
  exists h',
    SendConnack t code h = Some (Some e, h') /\
    complete t (Some e) h = Some (tt, h').
Proof.
  intros Hheap Hlive Hsn. unfold SendConnack. unfold bind at 1.
  rewrite (snSend_fault h _ e Hsn). unfold Fail, bind.
  destruct (complete_total h t tx (Some e) Hheap) as [h' Hc].
  rewrite Hc. exists h'. split; reflexivity.
Qed.



(** X4: [Connack] when the client cannot be written to: the error of the write
    is what the transaction fails with and what is returned, whatever the
    return code of the broker; on Accepted the state of the handler is
    ACTIVE all the same, as it is set before the write. *)
Theorem Connack_client_unreachable
    (h : handler) (t : txref) (c : connectTransaction) (mqConnack : ConnackPacket)
    (e : error) :
  heap h !! t = Some (TConnect c) ->
  live (TConnect c) ->
  snFault h = Some e ->
  exists h',
    Connack t mqConnack h = Some (Some e, h') /\
    snSent (trace h') = snSent (trace h) /\
    mqttSent (trace h') = mqttSent (trace h) /\
    resultOf h' t = Some (Some e) /\
    state h' = (if decide (mqttPackets.ReturnCode mqConnack = Accepted)
                then util.StateActive else state h).
Proof.
  intros Hheap Hlive Hsn.
  assert (Hlt : (t < length (heap h))%nat) by (eapply lookup_lt_Some; eauto).
  unfold Connack.
  destruct (decide (mqttPackets.ReturnCode mqConnack ≠ Accepted)) as [Hrc|Hrc].
  - destruct (SendConnack_fault h t (TConnect c) RC_CONGESTION e Hheap Hlive Hsn)
      as (h' & Hs' & Hc).
    unfold bind at 1. rewrite Hs'. exists h'. split; [reflexivity|].
    destruct (complete_frame h h' t (TConnect c) (Some e) Hheap Hlive Hc)
      as (Hh & Hst & Hs & Hm & _).
    unfold resultOf. rewrite Hh, list_lookup_insert_eq by assumption.
    destruct (decide (mqttPackets.ReturnCode mqConnack = Accepted)); [contradiction|].
    repeat split; assumption.
  - destruct (decide (mqttPackets.ReturnCode mqConnack = Accepted)) as [_|n];
      [|contradiction n; apply dec_stable; exact Hrc].
    unfold setState. unfold bind at 1. unfold bind at 1. unfold modify at 1.
    unfold emit, modify. cbv beta iota.
    set (h1 := set_trace _ _).
    assert (Hheap1 : heap h1 !! t = Some (TConnect c)) by exact Hheap.
    assert (Hsn1 : snFault h1 = Some e) by exact Hsn.
    destruct (SendConnack_fault h1 t (TConnect c) RC_ACCEPTED e Hheap1 Hlive Hsn1)
      as (h' & Hs' & Hc).
    unfold bind at 1. rewrite Hs'. cbv beta iota.
    destruct (complete_frame h1 h' t (TConnect c) (Some e) Hheap1 Hlive Hc)
      as (Hh & Hst & Hs & Hm & _).
    assert (Hheap' : heap h' !! t = Some (setDone (Some e) (TConnect c)))
      by (rewrite Hh; apply list_lookup_insert_eq; exact Hlt).
    unfold Fail, bind.
    rewrite (complete_done h' t _ (Some e) (Some e) Hheap' eq_refl).
    exists h'. split; [reflexivity|].
    unfold resultOf. rewrite Hheap', Hs, Hm, Hst.
    subst h1. handler_fields. rewrite snSent_app, mqttSent_app. cbn. rewrite !app_nil_r.
    repeat split; reflexivity.
Qed.

Lemma Connack_client_unreachable_witness :
  exists h',
    Connack 0%nat (mkConnackPacket false Accepted) (clientGone (afterConnect false))
      = Some (Some (ErrWrite "broken pipe"), h') /\
    resultOf h' 0%nat = Some (Some (ErrWrite "broken pipe")) /\
    state h' = util.StateActive.
Proof.
  destruct (Connack_client_unreachable (clientGone (afterConnect false)) 0%nat
              (connectTransactionOf false sampleConnect) (mkConnackPacket false Accepted)
              (ErrWrite "broken pipe"))
    as (h' & Hrun & _ & _ & Hres & Hstate).
  - reflexivity.
  - reflexivity.
  - reflexivity.
  - exists h'. repeat split; assumption.
Defined.

(** X5: AUTH with method PLAIN and data that is not [\0user\0password]: the
    transaction fails with the error of the decoding, which is returned;
    nothing is written, neither a CONNACK to the client nor a CONNECT to the
    broker. *)
Theorem Auth_plain_undecodable
    (h : handler) (t : txref) (c : connectTransaction) (snMsg : AuthMessage) (e : error) :
  heap h !! t = Some (TConnect c) ->
  live (TConnect c) ->
  auth_Method snMsg = AUTH_PLAIN ->
  DecodePlain snMsg = inr e ->
  exists h',
    Auth t snMsg h = Some (Some e, h') /\
    snSent (trace h') = snSent (trace h) /\
    mqttSent (trace h') = mqttSent (trace h) /\
    resultOf h' t = Some (Some e) /\
    state h' = state h.
Proof.
  intros Hheap Hlive Hm Hdec.
  assert (Hlt : (t < length (heap h))%nat) by (eapply lookup_lt_Some; eauto).
  unfold Auth. rewrite Hdec.
  destruct (decide (auth_Method snMsg = AUTH_PLAIN)) as [_|n]; [|contradiction].
  unfold Fail, bind.
  destruct (complete_total h t (TConnect c) (Some e) Hheap) as [h' Hc].
  rewrite Hc. exists h'. split; [reflexivity|].
  destruct (complete_frame h h' t (TConnect c) (Some e) Hheap Hlive Hc)
    as (Hh & Hst & Hs & Hmq & _).
  unfold resultOf. rewrite Hh, list_lookup_insert_eq by assumption.
  repeat split; assumption.
Qed.

Lemma Auth_plain_undecodable_witness :
  exists h',
    Auth 0%nat emptyAuth (afterConnect true) = Some (Some ErrInvalidPlainData, h') /\
    snSent (trace h') = [] /\
    mqttSent (trace h') = [].
Proof.
  destruct (Auth_plain_undecodable (afterConnect true) 0%nat
              (connectTransactionOf true sampleConnect) emptyAuth ErrInvalidPlainData)
    as (h' & Hrun & Hsn & Hmq & _).
  - reflexivity.
  - reflexivity.
  - reflexivity.
  - reflexivity.
  - exists h'. repeat split; assumption.
Defined.

(** X6: after the CONNACK of the broker with Accepted the CONNECT transaction
    is gone: its finalizer has emptied the CONNECT slot of the table and
    nothing else of it, the task that watched it has returned without an
    error, and the connection to the broker is as it was. *)
Theorem Connack_accepted_cleans_up
    (h : handler) (t : txref) (c : connectTransaction) (mqConnack : ConnackPacket) :
  heap h !! t = Some (TConnect c) ->
  live (TConnect c) ->
  doneFn (timed_base (connect_TimedTransaction c)) = transactions.DeleteByType CONNECT ->
  snFault h = None ->
  mqttPackets.ReturnCode mqConnack = Accepted ->
  exists h',
    Connack t mqConnack h = Some (None, h') /\
    byType h' = delete CONNECT (byType h) /\
    byID h' = byID h /\
    (WatchConnect t ∉ tasks h') /\
    (forall k, k <> WatchConnect t -> (k ∈ tasks h' <-> k ∈ tasks h)) /\
    groupErr h' = groupErr h /\
    mqttFault h' = mqttFault h /\
    snFault h' = None.
Proof.
  intros Hheap Hlive Hfin Hsn Hrc. unfold live in Hlive. cbn in Hlive, Hfin.
  assert (Hlt : (t < length (heap h))%nat) by (eapply lookup_lt_Some; eauto).
  unfold Connack.
  destruct (decide (mqttPackets.ReturnCode mqConnack ≠ Accepted)) as [n|_];
    [contradiction|].
  gw_unfold. cbn. rewrite Hsn. cbn. rewrite Hheap. cbn. rewrite Hlive, Hfin. cbn.
  destruct (decide (WatchConnect t ∈ tasks h)) as [Hin|Hnot]; cbn;
    (eexists; split; [reflexivity|]; cbn; repeat split; try assumption; try reflexivity).
  - intros Hk. apply list_elem_of_filter in Hk. destruct Hk as [Hk _]. apply Hk. reflexivity.
  - intros Hk. apply list_elem_of_filter in Hk. apply Hk.
  - intros Hk. apply list_elem_of_filter. split; assumption.
  - intros Hk. exact Hk.
  - intros Hk. exact Hk.
Qed.

Lemma Connack_accepted_cleans_up_witness :
  exists h',
    Connack 0%nat (mkConnackPacket false Accepted) (afterConnect false) = Some (None, h') /\
    byType h' = ∅ /\
    tasks h' = [] /\
    groupErr h' = None.
Proof.
  destruct (Connack_accepted_cleans_up (afterConnect false) 0%nat
              (connectTransactionOf false sampleConnect) (mkConnackPacket false Accepted))
    as (h' & Hrun & Htab & _ & _ & _ & Hgroup & _).
  - reflexivity.
  - reflexivity.
  - reflexivity.
  - reflexivity.
  - reflexivity.
  - exists h'. split; [exact Hrun|].
    vm_compute in Hrun. injection Hrun as <-. repeat split; reflexivity.
Defined.

(** X7: an error of the write in [Start], [WillTopic] or [WillMsg] is returned
    to the caller and nothing else happens to the transaction: it is not
    failed, it stays in the table, and the group of the handler has no error
    from it. *)
Theorem connect_write_error_is_returned
    (h : handler) (t : txref) (c : connectTransaction) (e : error) :
  heap h !! t = Some (TConnect c) ->
  live (TConnect c) ->
  (snFault h = Some e -> authEnabled c = false -> WillFlag (mqConnect c) = true ->
   exists h', Start t h = Some (Some e, h') /\ trace h' = trace h /\ liveAt h' t /\
              byType h' = byType h /\ groupErr h' = groupErr h) /\
  (mqttFault h = Some e -> authEnabled c = false -> WillFlag (mqConnect c) = false ->
   exists h', Start t h = Some (Some e, h') /\ trace h' = trace h /\ liveAt h' t /\
              byType h' = byType h /\ groupErr h' = groupErr h) /\
  (snFault h = Some e -> forall m,
   exists h', gateway.WillTopic t m h = Some (Some e, h') /\ trace h' = trace h /\
              liveAt h' t /\ byType h' = byType h /\ groupErr h' = groupErr h) /\
  (mqttFault h = Some e -> forall m,
   exists h', WillMsg t m h = Some (Some e, h') /\ trace h' = trace h /\
              liveAt h' t /\ byType h' = byType h /\ groupErr h' = groupErr h).
Proof.
  intros Hheap Hlive.
  assert (Hlt : (t < length (heap h))%nat) by (eapply lookup_lt_Some; eauto).
  repeat split.
  - intros Hsn Hauth Hwill. rewrite (Start_eq h t c Hheap), Hauth, Hwill. cbv zeta.
    rewrite (snSend_fault _ _ e) by exact Hsn.
    eexists. split; [reflexivity|]. handler_fields. repeat split; try reflexivity.
    exists (TConnect c). split; assumption.
  - intros Hmq Hauth Hwill. rewrite (Start_eq h t c Hheap), Hauth, Hwill. cbv zeta.
    rewrite (mqttSend_fault _ _ e) by exact Hmq.
    eexists. split; [reflexivity|]. handler_fields. repeat split; try reflexivity.
    exists (TConnect c). split; assumption.
  - intros Hsn m. rewrite (WillTopic_eq h t c m Hheap).
    rewrite (snSend_fault _ _ e) by exact Hsn.
    eexists. split; [reflexivity|]. handler_fields. repeat split; try reflexivity.
    eexists. split; [apply list_lookup_insert_eq; exact Hlt | exact Hlive].
  - intros Hmq m. rewrite (WillMsg_eq h t c m Hheap).
    rewrite (mqttSend_fault _ _ e) by exact Hmq.
    eexists. split; [reflexivity|]. handler_fields. repeat split; try reflexivity.
    eexists. split; [apply list_lookup_insert_eq; exact Hlt | exact Hlive].
Qed.

Lemma connect_write_error_is_returned_witness :
  exists h',
    Start 0%nat (brokerGone (installed false sampleConnect))
      = Some (Some (ErrWrite "broken pipe"), h') /\
    liveAt h' 0%nat.
Proof.
  destruct (connect_write_error_is_returned (brokerGone (installed false sampleConnect))
              0%nat (connectTransactionOf false sampleConnect) (ErrWrite "broken pipe"))
    as (_ & Hstart & _).
  - reflexivity.
  - reflexivity.
  - destruct (Hstart eq_refl eq_refl eq_refl) as (h' & Hrun & _ & Hlive & _).
    exists h'. split; assumption.
Defined.

(* ===================================================================== *)
(** * More on broker-side publish transactions                            *)
(* ===================================================================== *)

Lemma proceed_eq (h : handler) (t : txref) (b : brokerPublishTransactionBase)
    (s : transactionState) (d : data) :
  heap h !! t = Some (TBrokerPublish b) ->
  proceed t s d h
  = Some (tt, set_heap (<[t := TBrokerPublish
                                 (setRetry (Proceed (now h) s d (bp_RetryTransaction b)) b)]>
                          (heap h)) h).
Proof.
  intros Hheap. unfold proceed, loadBrokerPublish, load, store, bind, modify, gets, ret.
  rewrite Hheap. reflexivity.
Qed.

(** X8: a REGACK with a return code other than ACCEPTED, in state
    awaitingRegack: the transaction fails with an error that carries the
    code and its retry timer is stopped, but the handler gets no error;
    nothing is written and no topic is registered. *)
Theorem regack_rejected
    (h : handler) (t : txref) (b : brokerPublishTransactionBase)
    (snRegack : RegackMessage) (newState : transactionState) :
  heap h !! t = Some (TBrokerPublish b) ->
  live (TBrokerPublish b) ->
  State (retry_base (bp_RetryTransaction b)) = Some awaitingRegack ->
  regack_ReturnCode snRegack <> RC_ACCEPTED ->
  exists h',
    regack t snRegack newState h = Some (None, h') /\
    resultOf h' t = Some (Some (ErrRegackReturnCode (regack_ReturnCode snRegack))) /\
    stoppedAt h' t /\
    snSent (trace h') = snSent (trace h) /\
    mqttSent (trace h') = mqttSent (trace h) /\
    registeredTopics h' = registeredTopics h.
Proof.
  intros Hheap Hlive Hstate Hrc.
  assert (Hlt : (t < length (heap h))%nat) by (eapply lookup_lt_Some; eauto).
  unfold regack, loadBrokerPublish, load, bind, ret. rewrite Hheap, Hstate.
  destruct (decide (Some awaitingRegack ≠ Some awaitingRegack)) as [n|_];
    [contradiction n; reflexivity|].
  destruct (decide (regack_ReturnCode snRegack ≠ RC_ACCEPTED)) as [_|n]; [|contradiction].
  unfold Fail.
  destruct (complete_total h t (TBrokerPublish b) (Some (ErrRegackReturnCode
              (regack_ReturnCode snRegack))) Hheap) as [h' Hc].
  rewrite Hc. exists h'. split; [reflexivity|].
  destruct (complete_frame h h' t (TBrokerPublish b) _ Hheap Hlive Hc)
    as (Hh & _ & Hs & Hm & _ & Hreg & _).
  unfold resultOf, stoppedAt. rewrite Hh, list_lookup_insert_eq by assumption.
  repeat split; try assumption.
  eexists. split; reflexivity.
Qed.

Lemma regack_rejected_witness :
  exists h',
    regack 0%nat (NewRegackMessage sampleTopicID RC_INVALID_TOPIC_ID) awaitingPuback
      awaitingRegackHandler = Some (None, h') /\
    resultOf h' 0%nat = Some (Some (ErrRegackReturnCode RC_INVALID_TOPIC_ID)) /\
    snSent (trace h') = [] /\
    registeredTopics h' = ∅.
Proof.
  destruct (regack_rejected awaitingRegackHandler 0%nat awaitingRegackTransaction
              (NewRegackMessage sampleTopicID RC_INVALID_TOPIC_ID) awaitingPuback)
    as (h' & Hrun & Hres & _ & Hsn & _ & Hreg).
  - reflexivity.
  - reflexivity.
  - reflexivity.
  - intros H. discriminate H.
  - exists h'. repeat split; assumption.
Defined.

(** X9: a REGACK with ACCEPTED, in state awaitingRegack: the topic of the
    REGISTER the transaction sent is registered under its topic id, and the
    PUBLISH the transaction kept is written to the client; the transaction
    goes to the new state with that PUBLISH as its last message, or ends
    with success when the new state is transactionDone. *)
Theorem regack_accepted
    (h : handler) (t : txref) (b : brokerPublishTransactionBase)
    (snRegack : RegackMessage) (newState : transactionState)
    (snRegister : RegisterMessage) (p : PublishMessage) :
  heap h !! t = Some (TBrokerPublish b) ->
  live (TBrokerPublish b) ->
  State (retry_base (bp_RetryTransaction b)) = Some awaitingRegack ->
  Data (retry_base (bp_RetryTransaction b)) = Some (DataSN (MRegister snRegister)) ->
  snPublish b = Some p ->
  regack_ReturnCode snRegack = RC_ACCEPTED ->
  snFault h = None ->
  exists h',
    regack t snRegack newState h = Some (None, h') /\
    registeredTopics h' =
      <[register_TopicID snRegister := register_TopicName snRegister]> (registeredTopics h) /\
    snSent (trace h') = snSent (trace h) ++ [MPublish p] /\
    mqttSent (trace h') = mqttSent (trace h) /\
    (newState <> transactionDone ->
     exists b',
       heap h' !! t = Some (TBrokerPublish b') /\
       live (TBrokerPublish b') /\
       State (retry_base (bp_RetryTransaction b')) = Some newState /\
       Data (retry_base (bp_RetryTransaction b')) = Some (DataSN (MPublish p)) /\
       snPublish b' = Some p) /\
    (newState = transactionDone -> resultOf h' t = Some None).
Proof.
  intros Hheap Hlive Hstate Hdata Hpub Hrc Hsn.
  assert (Hlt : (t < length (heap h))%nat) by (eapply lookup_lt_Some; eauto).
  unfold regack, loadBrokerPublish, load, bind, ret. rewrite Hheap, Hstate, Hdata, Hpub, Hrc.
  destruct (decide (Some awaitingRegack ≠ Some awaitingRegack)) as [n|_];
    [contradiction n; reflexivity|].
  destruct (decide (RC_ACCEPTED ≠ RC_ACCEPTED)) as [n|_]; [contradiction n; reflexivity|].
  unfold registeredTopics_Store, modify. cbv beta iota.
  set (h0 := set_registeredTopics _ h).
  unfold ProceedSN. unfold bind at 1.
  rewrite (proceed_eq h0 t b newState _ Hheap). cbv beta iota.
  unfold bind at 1. rewrite snSend_ok by exact Hsn. cbv beta iota.
  set (b1 := setRetry _ b).
  set (h1 := set_trace _ _).
  assert (Hheap1 : heap h1 !! t = Some (TBrokerPublish b1))
    by (apply list_lookup_insert_eq; exact Hlt).
  assert (Hlive1 : live (TBrokerPublish b1)) by exact Hlive.
  destruct (decide (newState = transactionDone)) as [Hdone|Hdone].
  - unfold Success, bind.
    destruct (complete_total h1 t _ None Hheap1) as [h' Hc]. rewrite Hc.
    exists h'. split; [reflexivity|].
    destruct (complete_frame h1 h' t _ None Hheap1 Hlive1 Hc)
      as (Hh & _ & Hs & Hm & _ & Hreg & _).
    rewrite Hreg, Hs, Hm. unfold resultOf. rewrite Hh.
    subst h1 h0. handler_fields. rewrite snSent_app, mqttSent_app. cbn [snSent mqttSent].
    rewrite app_nil_r.
    repeat split; try reflexivity; [contradiction|].
    intros _. rewrite list_lookup_insert_eq by (rewrite length_insert; exact Hlt).
    reflexivity.
  - unfold bind, ret. exists h1. split; [reflexivity|].
    subst h1 h0. handler_fields. rewrite snSent_app, mqttSent_app. cbn [snSent mqttSent].
    rewrite app_nil_r.
    repeat split; try reflexivity; [|contradiction].
    intros _. exists b1. split; [exact Hheap1|]. split; [exact Hlive|].
    subst b1. repeat split; try reflexivity. exact Hpub.
Qed.

Lemma regack_accepted_witness :
  exists h',
    regack 0%nat (NewRegackMessage sampleTopicID RC_ACCEPTED) awaitingPuback
      awaitingRegackHandler = Some (None, h') /\
    registeredTopics h' = <[sampleTopicID := "test/topic"%string]> ∅ /\
    snSent (trace h') = [MPublish (firstPublish sampleTopicID TIT_REGISTERED samplePublish)].
Proof.
  destruct (regack_accepted awaitingRegackHandler 0%nat awaitingRegackTransaction
              (NewRegackMessage sampleTopicID RC_ACCEPTED) awaitingPuback sampleRegister
              (firstPublish sampleTopicID TIT_REGISTERED samplePublish))
    as (h' & Hrun & Hreg & Hsn & _).
  - reflexivity.
  - reflexivity.
  - reflexivity.
  - reflexivity.
  - reflexivity.
  - reflexivity.
  - reflexivity.
  - exists h'. repeat split; assumption.
Defined.

(** X10: [ProceedSN] and [ProceedMQTT] when the write fails: the transaction has
    taken the new state and fails with the error of the write, which is
    returned; its retry timer is stopped and nothing is written. *)
Theorem Proceed_write_error
    (h : handler) (t : txref) (b : brokerPublishTransactionBase)
    (newState : transactionState) (e : error) :
  heap h !! t = Some (TBrokerPublish b) ->
  live (TBrokerPublish b) ->
  (snFault h = Some e -> forall snMsg,
   exists h' b',
     ProceedSN t newState snMsg h = Some (Some e, h') /\
     snSent (trace h') = snSent (trace h) /\
     mqttSent (trace h') = mqttSent (trace h) /\
     heap h' !! t = Some (TBrokerPublish b') /\
     State (retry_base (bp_RetryTransaction b')) = Some newState /\
     done (retry_base (bp_RetryTransaction b')) = Some (Some e) /\
     retry_timer (bp_RetryTransaction b') = None) /\
  (mqttFault h = Some e -> forall mqMsg,
   exists h' b',
     ProceedMQTT t newState mqMsg h = Some (Some e, h') /\
     snSent (trace h') = snSent (trace h) /\
     mqttSent (trace h') = mqttSent (trace h) /\
     heap h' !! t = Some (TBrokerPublish b') /\
     State (retry_base (bp_RetryTransaction b')) = Some newState /\
     done (retry_base (bp_RetryTransaction b')) = Some (Some e) /\
     retry_timer (bp_RetryTransaction b') = None).
Proof.
  intros Hheap Hlive.
  assert (Hlt : (t < length (heap h))%nat) by (eapply lookup_lt_Some; eauto).
  split.
  - intros Hsn snMsg. unfold ProceedSN. unfold bind at 1.
    rewrite (proceed_eq h t b newState _ Hheap). cbv beta iota.
    unfold bind at 1. rewrite (snSend_fault _ _ e) by exact Hsn. cbv beta iota.
    set (b1 := setRetry _ b). set (h1 := set_heap _ h).
    assert (Hheap1 : heap h1 !! t = Some (TBrokerPublish b1))
      by (apply list_lookup_insert_eq; exact Hlt).
    assert (Hlive1 : live (TBrokerPublish b1)) by exact Hlive.
    unfold Fail, bind.
    destruct (complete_total h1 t _ (Some e) Hheap1) as [h' Hc]. rewrite Hc.
    destruct (complete_frame h1 h' t _ (Some e) Hheap1 Hlive1 Hc)
      as (Hh & _ & Hs & Hm & _).
    exists h'. eexists. split; [reflexivity|].
    rewrite Hh, Hs, Hm. split; [reflexivity|]. split; [reflexivity|].
    split; [apply list_lookup_insert_eq; eapply lookup_lt_Some; exact Hheap1|].
    repeat split; reflexivity.
  - intros Hmq mqMsg. unfold ProceedMQTT. unfold bind at 1.
    rewrite (proceed_eq h t b newState _ Hheap). cbv beta iota.
    unfold bind at 1. rewrite (mqttSend_fault _ _ e) by exact Hmq. cbv beta iota.
    set (b1 := setRetry _ b). set (h1 := set_heap _ h).
    assert (Hheap1 : heap h1 !! t = Some (TBrokerPublish b1))
      by (apply list_lookup_insert_eq; exact Hlt).
    assert (Hlive1 : live (TBrokerPublish b1)) by exact Hlive.
    unfold Fail, bind.
    destruct (complete_total h1 t _ (Some e) Hheap1) as [h' Hc]. rewrite Hc.
    destruct (complete_frame h1 h' t _ (Some e) Hheap1 Hlive1 Hc)
      as (Hh & _ & Hs & Hm & _).
    exists h'. eexists. split; [reflexivity|].
    rewrite Hh, Hs, Hm. split; [reflexivity|]. split; [reflexivity|].
    split; [apply list_lookup_insert_eq; eapply lookup_lt_Some; exact Hheap1|].
    repeat split; reflexivity.
Qed.

Lemma Proceed_write_error_witness :
  exists h',
    ProceedMQTT 0%nat transactionDone (mqttPackets.Puback 1)
      (brokerGone awaitingRegackHandler) = Some (Some (ErrWrite "broken pipe"), h') /\
    resultOf h' 0%nat = Some (Some (ErrWrite "broken pipe")) /\
    mqttSent (trace h') = [].
Proof.
  destruct (Proceed_write_error (brokerGone awaitingRegackHandler) 0%nat
              awaitingRegackTransaction transactionDone (ErrWrite "broken pipe"))
    as [_ Hmqtt].
  - reflexivity.
  - reflexivity.
  - destruct (Hmqtt eq_refl (mqttPackets.Puback 1))
      as (h' & b' & Hrun & _ & Hmq & Hheap & _ & Hdone & _).
    exists h'. split; [exact Hrun|]. split; [|exact Hmq].
    unfold resultOf. rewrite Hheap. exact Hdone.
Defined.

(** X11: [resend] of an MQTT-SN message writes one message to the client and
    nothing to the broker: the message kept, with its DUP flag set when it
    is a PUBLISH or a SUBSCRIBE and unchanged otherwise; the transaction
    keeps the message as sent, so every later resend writes the same
    message.  Without a message there is nothing to resend: an error, and
    nothing written. *)
Theorem resend_sn_message (h : handler) (msg : Message) :
  snFault h = None ->
  resend None h = Some ((Some ErrInvalidMessageType, None), h) /\
  exists msg' h1 h2,
    resend (Some (DataSN msg)) h = Some ((None, Some (DataSN msg')), h1) /\
    trace h1 = trace h ++ [(now h, EvSnSend msg')] /\
    resend (Some (DataSN msg')) h1 = Some ((None, Some (DataSN msg')), h2) /\
    trace h2 = trace h1 ++ [(now h, EvSnSend msg')] /\
    (forall p, msg = MPublish p ->
       exists p', msg' = MPublish p' /\
         publish_dup p' = true /\
         publish_Header p' = publish_Header p /\
         publish_messageID p' = publish_messageID p /\
         publish_Retain p' = publish_Retain p /\
         publish_QOS p' = publish_QOS p /\
         publish_TopicIDType p' = publish_TopicIDType p /\
         publish_TopicID p' = publish_TopicID p /\
         publish_Data p' = publish_Data p) /\
    (forall s, msg = MSubscribe s ->
       exists s', msg' = MSubscribe s' /\
         subscribe_dup s' = true /\
         subscribe_messageID s' = subscribe_messageID s /\
         subscribe_QOS s' = subscribe_QOS s /\
         subscribe_TopicIDType s' = subscribe_TopicIDType s /\
         subscribe_TopicID s' = subscribe_TopicID s /\
         subscribe_TopicName s' = subscribe_TopicName s) /\
    ((forall p, msg <> MPublish p) -> (forall s, msg <> MSubscribe s) -> msg' = msg).
Proof.
  intros Hsn. split; [reflexivity|].
  exists (SetDUP true msg). do 2 eexists.
  split. { unfold resend, bind, ret. rewrite snSend_ok by exact Hsn. reflexivity. }
  split; [reflexivity|].
  split. { unfold resend, bind, ret.
           replace (SetDUP true (SetDUP true msg)) with (SetDUP true msg)
             by (destruct msg; reflexivity).
           rewrite snSend_ok by exact Hsn. reflexivity. }
  split; [reflexivity|].
  split. { intros p ->. eexists. split; [reflexivity|]. repeat split; reflexivity. }
  split. { intros s ->. eexists. split; [reflexivity|]. repeat split; reflexivity. }
  intros Hp Hs. destruct msg; try reflexivity.
  - contradiction (Hp m). reflexivity.
  - contradiction (Hs m). reflexivity.
Qed.

Lemma resend_sn_message_witness :
  exists h1,
    resend (Some (DataSN (MRegister sampleRegister))) awaitingRegackHandler
      = Some ((None, Some (DataSN (MRegister sampleRegister))), h1) /\
    trace h1 = [(0, EvSnSend (MRegister sampleRegister))].
Proof.
  destruct (resend_sn_message awaitingRegackHandler (MRegister sampleRegister))
    as (_ & msg' & h1 & h2 & Hrun & Htrace & _ & _ & _ & _ & Hsame).
  - reflexivity.
  - exists h1. rewrite Hsame in Hrun, Htrace by (intros; discriminate).
    split; assumption.
Defined.

(** X12: [resend] of an MQTT packet writes one packet to the broker and nothing
    to the client: a PUBLISH with its Dup flag set and the rest as it was,
    any other packet unchanged.  When the write fails the error is
    returned and nothing is written. *)
Theorem resend_mqtt_packet (h : handler) (msg : ControlPacket) :
  (mqttFault h = None ->
   exists msg' h1,
     resend (Some (DataMQTT msg)) h = Some ((None, Some (DataMQTT msg')), h1) /\
     trace h1 = trace h ++ [(now h, EvMqttSend msg')] /\
     (forall p, msg = Publish p ->
        exists p', msg' = Publish p' /\
          Dup p' = true /\ Qos p' = Qos p /\ Retain p' = Retain p /\
          TopicName p' = TopicName p /\ MessageID p' = MessageID p /\
          Payload p' = Payload p) /\
     ((forall p, msg <> Publish p) -> msg' = msg)) /\
  (forall e, mqttFault h = Some e ->
   exists d, resend (Some (DataMQTT msg)) h = Some ((Some e, d), h)).
Proof.
  split.
  - intros Hmq. do 2 eexists.
    split. { unfold resend, bind, ret. rewrite mqttSend_ok by exact Hmq. reflexivity. }
    split; [reflexivity|].
    split. { intros p ->. eexists. split; [reflexivity|]. repeat split; reflexivity. }
    intros Hp. destruct msg; try reflexivity. contradiction (Hp p). reflexivity.
  - intros e Hmq. eexists. unfold resend, bind, ret.
    rewrite (mqttSend_fault _ _ e) by exact Hmq. reflexivity.
Qed.

Lemma resend_mqtt_packet_witness :
  exists p' h1,
    resend (Some (DataMQTT (Publish samplePublish))) awaitingRegackHandler
      = Some ((None, Some (DataMQTT (Publish p'))), h1) /\
    Dup p' = true /\ MessageID p' = 1.
Proof.
  destruct (resend_mqtt_packet awaitingRegackHandler (Publish samplePublish))
    as [Hok _].
  destruct (Hok eq_refl) as (msg' & h1 & Hrun & _ & Hpub & _).
  destruct (Hpub samplePublish eq_refl) as (p' & -> & Hdup & _ & _ & _ & Hid & _).
  exists p', h1. repeat split; assumption.
Defined.

(* ===================================================================== *)
(** * More on the transactions of the client                              *)
(* ===================================================================== *)

Lemma client_send_ok (c : client.Client) (m : Message) :
  client.sendFault c = None ->
  client.send m c = Some (None, client.set_sent (client.sent c ++ [m]) c).
Proof.
  intros Hs. unfold client.send, bind, gets, modify, ret. rewrite Hs. reflexivity.
Qed.

Lemma client_send_fault (c : client.Client) (m : Message) (e : error) :
  client.sendFault c = Some e -> client.send m c = Some (Some e, c).
Proof.
  intros Hs. unfold client.send, bind, gets, ret. rewrite Hs. reflexivity.
Qed.

Lemma client_Publish_eq (c : client.Client) (t : client.txref)
    (q : client.brokerPublishQOS2Transaction) (p : PublishMessage) :
  client.heap c !! t = Some (client.TBrokerPublishQOS2 q) ->
  client.Publish t p c =
    client.send (MPubrec (pubrec_SetMessageID (publish_messageID p) NewPubrecMessage))
      (client.set_heap
         (<[t := client.TBrokerPublishQOS2
                   (client.mkBrokerPublishQOS2Transaction (client.qos2_TransactionBase q)
                      (Some p))]> (client.heap c)) c).
Proof.
  intros Hheap.
  unfold client.Publish, client.loadBrokerPublishQOS2, client.load, client.store,
    bind, modify, ret.
  rewrite Hheap. reflexivity.
Qed.

(** X13: a PUBACK for a client QoS 1 publish transaction in state
    awaitingPuback ends it with success whatever the PUBACK holds: neither
    its return code nor its ids are looked at.  The finalizer removes the
    message id from the table of the client; nothing is sent. *)
Theorem publishQOS1_Puback_succeeds
    (c : client.Client) (t : client.txref) (q : client.publishQOS1Transaction)
    (msgID : uint16) (puback : PubackMessage) :
  client.heap c !! t = Some (client.TPublishQOS1 q) ->
  State (retry_base (client.qos1_RetryTransaction q)) = Some client.awaitingPuback ->
  done (retry_base (client.qos1_RetryTransaction q)) = None ->
  doneFn (retry_base (client.qos1_RetryTransaction q)) = transactions.Delete msgID ->
  exists c' q',
    client.publishQOS1_Puback t puback c = Some (tt, c') /\
    client.heap c' !! t = Some (client.TPublishQOS1 q') /\
    done (retry_base (client.qos1_RetryTransaction q')) = Some None /\
    retry_timer (client.qos1_RetryTransaction q') = None /\
    client.transactions c' = delete msgID (client.transactions c) /\
    client.sent c' = client.sent c /\
    client.handled c' = client.handled c.
Proof.
  intros Hheap Hstate Hdone Hfin.
  assert (Hlt : (t < length (client.heap c))%nat) by (eapply lookup_lt_Some; eauto).
  unfold client.publishQOS1_Puback, client.loadPublishQOS1, client.load, bind, ret.
  rewrite Hheap, Hstate.
  destruct (decide (Some client.awaitingPuback ≠ Some client.awaitingPuback)) as [n|_];
    [contradiction n; reflexivity|].
  unfold client.Success, client.complete, client.load, client.store, client.runFinalizer,
    bind, modify, ret.
  rewrite Hheap. cbn [client.baseOf]. rewrite Hdone, Hfin.
  do 2 eexists. split; [reflexivity|].
  cbn [client.heap client.set_heap client.set_transactions client.transactions client.sent
       client.handled client.setDone].
  rewrite list_lookup_insert_eq by assumption.
  repeat split; reflexivity.
Qed.

Lemma publishQOS1_Puback_succeeds_witness :
  exists c',
    client.publishQOS1_Puback 0%nat (NewPubackMessage sampleTopicID RC_CONGESTION)
      clientAwaitingPuback = Some (tt, c') /\
    client.transactions c' = ∅ /\
    client.sent c' = [].
Proof.
  destruct (publishQOS1_Puback_succeeds clientAwaitingPuback 0%nat
              (client.mkPublishQOS1Transaction
                 (Proceed 0 client.awaitingPuback (DataSN (MPublish sampleQOS2Publish))
                    (NewRetryTransaction 0 1000 2 (transactions.Delete 1))))
              1 (NewPubackMessage sampleTopicID RC_CONGESTION))
    as (c' & q' & Hrun & _ & _ & _ & Htab & Hsent & _).
  - reflexivity.
  - reflexivity.
  - reflexivity.
  - reflexivity.
  - exists c'. split; [exact Hrun|]. split; [|exact Hsent].
    rewrite Htab. reflexivity.
Defined.

(** X14: [Pubrel] when the topic of the kept PUBLISH cannot be resolved: the
    error is returned and nothing has happened: no handler has run, no
    PUBCOMP is sent, the transaction is as it was. *)
Theorem Pubrel_unknown_topic
    (topicForPublish : PublishMessage -> client.Client -> string + error)
    (c : client.Client) (t : client.txref) (q : client.brokerPublishQOS2Transaction)
    (p : PublishMessage) (pubrel : PubrelMessage) (e : error) :
  client.heap c !! t = Some (client.TBrokerPublishQOS2 q) ->
  client.publish q = Some p ->
  topicForPublish p c = inr e ->
  client.Pubrel topicForPublish t pubrel c = Some (Some e, c).
Proof.
  intros Hheap Hpub Htopic.
  unfold client.Pubrel, client.loadBrokerPublishQOS2, client.load, bind, gets, ret.
  rewrite Hheap, Hpub, Htopic. reflexivity.
Qed.

Lemma Pubrel_unknown_topic_witness :
  client.Pubrel (fun _ _ => inr ErrUnknownTopic) 0%nat
    (pubrel_SetMessageID 1 NewPubrelMessage) (clientHoldingPublish None)
  = Some (Some ErrUnknownTopic, clientHoldingPublish None).
Proof.
  apply (Pubrel_unknown_topic (fun _ _ => inr ErrUnknownTopic)
           (clientHoldingPublish None) 0%nat
           (client.mkBrokerPublishQOS2Transaction
              (NewTransactionBase (transactions.Delete 1)) (Some sampleQOS2Publish))
           sampleQOS2Publish).
  - reflexivity.
  - reflexivity.
  - reflexivity.
Defined.

(** X15: [Pubrel] when the PUBCOMP cannot be sent: the handlers have run on the
    kept PUBLISH all the same, the error is returned, and the transaction
    is still live and in the table, so that the next PUBREL runs the
    handlers once more. *)
Theorem Pubrel_send_error
    (topicForPublish : PublishMessage -> client.Client -> string + error)
    (c : client.Client) (t : client.txref) (q : client.brokerPublishQOS2Transaction)
    (p : PublishMessage) (pubrel : PubrelMessage) (topic : string) (e : error) :
  client.heap c !! t = Some (client.TBrokerPublishQOS2 q) ->
  client.publish q = Some p ->
  (forall c', topicForPublish p c' = inl topic) ->
  client.sendFault c = Some e ->
  exists c1 c2,
    client.Pubrel topicForPublish t pubrel c = Some (Some e, c1) /\
    client.handled c1 = client.handled c ++ [(topic, p)] /\
    client.sent c1 = client.sent c /\
    client.heap c1 = client.heap c /\
    client.transactions c1 = client.transactions c /\
    client.Pubrel topicForPublish t pubrel c1 = Some (Some e, c2) /\
    client.handled c2 = client.handled c ++ [(topic, p); (topic, p)].
Proof.
  intros Hheap Hpub Htopic Hsend.
  do 2 eexists.
  split.
  { unfold client.Pubrel, client.loadBrokerPublishQOS2, client.load,
      client.messageHandlers_handle, bind, gets, modify, ret.
    rewrite Hheap, Hpub, Htopic.
    rewrite (client_send_fault _ _ e) by exact Hsend. reflexivity. }
  cbn [client.handled client.set_handled client.sent client.heap client.transactions].
  repeat split.
  - unfold client.Pubrel, client.loadBrokerPublishQOS2, client.load,
      client.messageHandlers_handle, bind, gets, modify, ret.
    cbn [client.heap client.set_handled]. rewrite Hheap, Hpub, Htopic.
    rewrite (client_send_fault _ _ e) by exact Hsend. reflexivity.
  - cbn [client.handled client.set_handled]. rewrite <- app_assoc. reflexivity.
Qed.

Lemma Pubrel_send_error_witness :
  exists c1 c2,
    client.Pubrel sampleTopicForPublish 0%nat (pubrel_SetMessageID 1 NewPubrelMessage)
      (clientHoldingPublish (Some (ErrWrite "broken pipe")))
      = Some (Some (ErrWrite "broken pipe"), c1) /\
    client.Pubrel sampleTopicForPublish 0%nat (pubrel_SetMessageID 1 NewPubrelMessage) c1
      = Some (Some (ErrWrite "broken pipe"), c2) /\
    client.handled c2 = [("test/topic"%string, sampleQOS2Publish);
                         ("test/topic"%string, sampleQOS2Publish)].
Proof.
  destruct (Pubrel_send_error sampleTopicForPublish
              (clientHoldingPublish (Some (ErrWrite "broken pipe"))) 0%nat
              (client.mkBrokerPublishQOS2Transaction
                 (NewTransactionBase (transactions.Delete 1)) (Some sampleQOS2Publish))
              sampleQOS2Publish (pubrel_SetMessageID 1 NewPubrelMessage)
              "test/topic" (ErrWrite "broken pipe"))
    as (c1 & c2 & H1 & _ & _ & _ & _ & H2 & Hh).
  - reflexivity.
  - reflexivity.
  - reflexivity.
  - reflexivity.
  - exists c1, c2. repeat split; assumption.
Defined.



(** X17: [Publish] when the PUBREC cannot be sent: the error is returned, and
    the transaction keeps the PUBLISH all the same. *)
Theorem Publish_send_error
    (c : client.Client) (t : client.txref) (q : client.brokerPublishQOS2Transaction)
    (p : PublishMessage) (e : error) :
  client.heap c !! t = Some (client.TBrokerPublishQOS2 q) ->
  client.sendFault c = Some e ->
  exists c' q',
    client.Publish t p c = Some (Some e, c') /\
    client.heap c' !! t = Some (client.TBrokerPublishQOS2 q') /\
    client.publish q' = Some p /\
    done (client.qos2_TransactionBase q') = done (client.qos2_TransactionBase q) /\
    client.sent c' = client.sent c /\
    client.transactions c' = client.transactions c.
Proof.
  intros Hheap Hsend.
  assert (Hlt : (t < length (client.heap c))%nat) by (eapply lookup_lt_Some; eauto).
  do 2 eexists.
  split. { rewrite (client_Publish_eq c t q p Hheap).
           apply client_send_fault. exact Hsend. }
  cbn [client.heap client.set_heap client.sent client.transactions].
  split; [apply list_lookup_insert_eq; exact Hlt|].
  repeat split; reflexivity.
Qed.

Lemma Publish_send_error_witness :
  exists c',
    client.Publish 0%nat otherQOS2Publish
      (clientHoldingPublish (Some (ErrWrite "broken pipe")))
      = Some (Some (ErrWrite "broken pipe"), c') /\
    client.sent c' = [].
Proof.
  destruct (Publish_send_error (clientHoldingPublish (Some (ErrWrite "broken pipe"))) 0%nat
              (client.mkBrokerPublishQOS2Transaction
                 (NewTransactionBase (transactions.Delete 1)) (Some sampleQOS2Publish))
              otherQOS2Publish (ErrWrite "broken pipe"))
    as (c' & q' & Hrun & _ & _ & _ & Hsent & _).
  - reflexivity.
  - reflexivity.
  - exists c'. split; assumption.
Defined.

(* ===================================================================== *)
(** * PUBACK on the wire                                                  *)
(* ===================================================================== *)

Lemma byte_of_Z_of_byte (b : byte) : byte_of_Z (Z_of_byte b) = b.
Proof. destruct b; reflexivity. Qed.

Lemma Z_of_byte_uint8 (b : byte) : is_uint8 (Z_of_byte b).
Proof. unfold is_uint8, Z_of_byte. pose proof (Byte.to_N_bounded b). lia. Qed.

Lemma byte_of_Z_mod (z : Z) : byte_of_Z z = byte_of_Z (z mod 256).
Proof. unfold byte_of_Z. rewrite Z.mod_mod by lia. reflexivity. Qed.

Lemma encodeUint16_bytes (hi lo : byte) :
  encodeUint16 (256 * Z_of_byte hi + Z_of_byte lo) = [hi; lo].
Proof.
  pose proof (Z_of_byte_uint8 hi) as Hh. pose proof (Z_of_byte_uint8 lo) as Hl.
  unfold is_uint8 in *. unfold encodeUint16.
  assert (Hd : (256 * Z_of_byte hi + Z_of_byte lo) / 256 = Z_of_byte hi).
  { rewrite Z.mul_comm, Z.div_add_l by lia. rewrite Z.div_small by lia. lia. }
  assert (Hm : (256 * Z_of_byte hi + Z_of_byte lo) mod 256 = Z_of_byte lo mod 256).
  { rewrite Z.add_comm, Z.mul_comm, Z.mod_add by lia. reflexivity. }
  rewrite Hd, (byte_of_Z_mod (_ + _)), Hm, <- byte_of_Z_mod, !byte_of_Z_of_byte.
  reflexivity.
Qed.

(** X18: [Unpack] of a PUBACK reads five bytes: it returns no error exactly when
    the body has five bytes or more, leaves the bytes after the fifth, keeps
    the header of the receiver, and what it reads does not depend on what
    the fields of the receiver held before. *)
Theorem puback_Unpack_reads_five_bytes (m : PubackMessage) (body : bytes) :
  exists m' e rest,
    puback_Unpack m body = Some ((m', e), rest) /\
    puback_Header m' = puback_Header m /\
    (e = None <-> (5 <= length body)%nat) /\
    (e = None ->
     rest = drop 5 body /\
     forall m0, exists m0',
       puback_Unpack m0 body = Some ((m0', None), rest) /\
       puback_TopicID m0' = puback_TopicID m' /\
       puback_messageID m0' = puback_messageID m' /\
       puback_ReturnCode m0' = puback_ReturnCode m').
Proof.
  destruct body as [|b1 [|b2 [|b3 [|b4 [|b5 rest]]]]];
    (do 3 eexists; split; [cbv -[Z.mul Z.add Z_of_byte]; reflexivity|];
     split; [reflexivity|];
     split; [split; [try discriminate; cbn; lia | cbn; intros; try reflexivity; lia]|];
     try discriminate).
  intros _. split; [reflexivity|]. intros m0. eexists.
  split; [cbv -[Z.mul Z.add Z_of_byte]; reflexivity|].
  repeat split; reflexivity.
Qed.

Lemma puback_Unpack_reads_five_bytes_witness :
  exists m',
    puback_Unpack (NewPubackMessage 0 RC_ACCEPTED) [x00; x07; x00; x0c; x01; xff]
      = Some ((m', None), [xff]).
Proof.
  destruct (puback_Unpack_reads_five_bytes (NewPubackMessage 0 RC_ACCEPTED)
              [x00; x07; x00; x0c; x01; xff])
    as (m' & e & rest & Hrun & _ & Hiff & Hrest).
  assert (He : e = None) by (apply Hiff; cbn; lia).
  destruct (Hrest He) as [-> _]. subst e. exists m'. exact Hrun.
Defined.

(** X19: writing what [Unpack] has read gives the bytes back: for a body of
    five bytes, [Write] of the unpacked PUBACK is the packed header of the
    receiver followed by those five bytes. *)
Theorem puback_Write_of_Unpack (m : PubackMessage) (b1 b2 b3 b4 b5 : byte) :
  exists m',
    puback_Unpack m [b1; b2; b3; b4; b5] = Some ((m', None), []) /\
    puback_Write m' = Header_pack (puback_Header m) ++ [b1; b2; b3; b4; b5].
Proof.
  eexists. split; [cbv -[Z.mul Z.add Z_of_byte]; reflexivity|].
  unfold puback_Write.
  cbn [puback_Header puback_TopicID puback_messageID puback_ReturnCode fst snd].
  rewrite !encodeUint16_bytes, byte_of_Z_of_byte. reflexivity.
Qed.
